(** * Genetic-algorithm scheduler (Program 2/main.py): shallow embedding

    Conventions of the embedding.
    - Python [int] is [Z]; Python [float] is modelled by rationals [Q]:
      sums, products and comparisons are the ideal-arithmetic ones, while
      the two quotients whose value is compared with a threshold (the
      capacity ratio of [get_fitness] and the convergence ratio of [main])
      are rounded to binary64 as the interpreter rounds them, with its
      [OverflowError] or infinity when they leave the range of a float.
    - A Python [dict] is an insertion-ordered association list with
      update-in-place on an existing key.
    - Exceptions are values of [exn]; a computation that may raise returns
      [result].
    - The process-wide generator of the [random] module is an explicit
      stream of raw draws threaded through every call that consumes it. *)

From Stdlib Require Import ZArith QArith List String Ascii Bool Lia Arith.
From Stdlib Require Import DecimalString Qround Lqa Qpower Qabs.
From Stdlib Require Import DecimalN DecimalPos DecimalZ.
Import ListNotations.
Open Scope Z_scope.

Set Implicit Arguments.

(** ** Exceptions and results *)

Inductive exn : Type :=
| IndexError
| ValueError
| KeyError
| ZeroDivisionError
| OverflowError.

Inductive result (A : Type) : Type :=
| Ok (a : A)
| Err (e : exn).

Arguments Ok {A} a.
Arguments Err {A} e.

Definition rbind {A B : Type} (r : result A) (k : A -> result B) : result B :=
  match r with
  | Ok a => k a
  | Err e => Err e
  end.

Definition is_ok {A : Type} (r : result A) : bool :=
  match r with
  | Ok _ => true
  | Err _ => false
  end.

(** ** Keys with decidable equality *)

Class Key (K : Type) : Type := { key_eqb : K -> K -> bool }.

#[export] Instance Key_string : Key string := {| key_eqb := String.eqb |}.

#[export] Instance Key_Z : Key Z := {| key_eqb := Z.eqb |}.

#[export] Instance Key_pair (A B : Type) `{Key A} `{Key B} : Key (A * B) :=
  {| key_eqb := fun x y => (key_eqb (fst x) (fst y) && key_eqb (snd x) (snd y))%bool |}.

(** The boolean test decides equality. *)
Class KeyLaws (K : Type) `{Key K} : Prop := {
  key_eqb_eq : forall x y : K, key_eqb x y = true <-> x = y
}.

Arguments KeyLaws K {_}.

(** ** Python dictionaries: insertion-ordered, update in place *)

Section Dict.
Context {K V : Type} `{Key K}.

Definition dict : Type := list (K * V).

Fixpoint dict_get (d : dict) (k : K) : option V :=
  match d with
  | [] => None
  | (k', v) :: d' => if key_eqb k' k then Some v else dict_get d' k
  end.

(** [d[k] = v] *)
Fixpoint dict_set (d : dict) (k : K) (v : V) : dict :=
  match d with
  | [] => [(k, v)]
  | (k', v') :: d' =>
      if key_eqb k' k then (k', v) :: d' else (k', v') :: dict_set d' k v
  end.

Definition dict_keys (d : dict) : list K := map fst d.
Definition dict_values (d : dict) : list V := map snd d.

(** [d[k]], raising [KeyError] on a missing key. *)
Definition dict_index (d : dict) (k : K) : result V :=
  match dict_get d k with
  | Some v => Ok v
  | None => Err KeyError
  end.

(** [d.get(k, default)], also the read of a [defaultdict] or [Counter]. *)
Definition dict_get_default (d : dict) (k : K) (default : V) : V :=
  match dict_get d k with
  | Some v => v
  | None => default
  end.

End Dict.

Arguments dict K V : clear implicits.

(** ** Domain model *)

Module Room.

Record t : Type := mk {
  building : string;
  number : Z;
  capacity : Z
}.

Definition eqb (r1 r2 : t) : bool :=
  (String.eqb (building r1) (building r2)
   && Z.eqb (number r1) (number r2)
   && Z.eqb (capacity r1) (capacity r2))%bool.

End Room.

#[export] Instance Key_Room : Key Room.t := {| key_eqb := Room.eqb |}.

(** [f"{n:03}"]: sign-aware zero padding to width 3. *)
Fixpoint zeros (n : nat) : string :=
  match n with
  | O => EmptyString
  | S n' => String "0"%char (zeros n')
  end.

Definition pad_zeros (width : nat) (s : string) : string :=
  (zeros (width - String.length s)%nat ++ s)%string.

Definition format_03 (n : Z) : string :=
  let digits := NilZero.string_of_uint (N.to_uint (Z.to_N (Z.abs n))) in
  if n <? 0 then String "-"%char (pad_zeros 2 digits) else pad_zeros 3 digits.

Module Activity.

Record t : Type := mk {
  subject : string;
  course_number : Z;
  section : option string;
  expected_enrollment : Z;
  preferred_facilitators : list string;
  other_facilitators : list string
}.

Definition get_id (a : t) : string :=
  (subject a ++ format_03 (course_number a) ++
   match section a with
   | Some s => s
   | None => EmptyString
   end)%string.

End Activity.

Module Schedule.

Record t : Type := mk {
  activities : list Activity.t;
  facilitators : list string;
  rooms : list Room.t;
  times : list Z
}.

(** The identifiers of the activities, in schedule order. *)
Definition ids (s : t) : list string := map Activity.get_id (activities s).

End Schedule.

(** ** Random sources

    [random] (the Python module) and [numpy.random] keep separate
    process-wide generators.  Each is a stream of raw integer draws with a
    read position; every library call consumes one raw draw. *)

Record rng : Type := mkRng {
  py_raw : nat -> Z;
  py_pos : nat;
  np_raw : nat -> Z;
  np_pos : nat
}.

Definition M (A : Type) : Type := rng -> result (A * rng).

Definition ret {A : Type} (a : A) : M A := fun g => Ok (a, g).

Definition bind {A B : Type} (m : M A) (k : A -> M B) : M B :=
  fun g =>
    match m g with
    | Ok (a, g') => k a g'
    | Err e => Err e
    end.

Definition raise {A : Type} (e : exn) : M A := fun _ => Err e.

Definition lift {A : Type} (r : result A) : M A :=
  fun g =>
    match r with
    | Ok a => Ok (a, g)
    | Err e => Err e
    end.

Declare Scope monad_scope.
Delimit Scope monad_scope with monad.
Notation "x <- c1 ;; c2" := (bind c1 (fun x => c2))
  (at level 61, c1 at next level, right associativity) : monad_scope.
Notation "' pat <- c1 ;; c2" := (bind c1 (fun x => match x with pat => c2 end))
  (at level 61, pat pattern, c1 at next level, right associativity) : monad_scope.
Open Scope monad_scope.

Definition py_draw : M Z :=
  fun g => Ok (py_raw g (py_pos g),
               mkRng (py_raw g) (S (py_pos g)) (np_raw g) (np_pos g)).

Definition np_draw : M Z :=
  fun g => Ok (np_raw g (np_pos g),
               mkRng (py_raw g) (py_pos g) (np_raw g) (S (np_pos g))).

(** The 53-bit resolution of a float in [0, 1). *)
Definition two53 : positive := 9007199254740992%positive.

Definition unit_float (z : Z) : Q := (z mod Zpos two53) # two53.

Module random.

(** [random.random()] *)
Definition random : M Q := z <- py_draw ;; ret (unit_float z).

(** [random.randint(a, b)]; [ValueError] on an empty range. *)
Definition randint (a b : Z) : M Z :=
  if b <? a then raise ValueError
  else z <- py_draw ;; ret (a + z mod (b - a + 1)).

(** [random.choice(seq)]; [IndexError] on an empty sequence. *)
Definition choice {A : Type} (seq : list A) : M A :=
  match seq with
  | [] => raise IndexError
  | x :: _ =>
      z <- py_draw ;;
      ret (nth (Z.to_nat (z mod Z.of_nat (List.length seq))) seq x)
  end.

End random.

Definition Qltb (x y : Q) : bool := negb (Qle_bool y x).

(** ** Genes and candidates *)

Module ActivityAssignment.

Record t : Type := mk {
  activity : Activity.t;
  facilitator : string;
  room : Room.t;
  time : Z
}.

Definition make_random_assignment (schedule : Schedule.t) (act : Activity.t) : M t :=
  f <- random.choice (Schedule.facilitators schedule) ;;
  r <- random.choice (Schedule.rooms schedule) ;;
  tm <- random.choice (Schedule.times schedule) ;;
  ret (mk act f r tm).

End ActivityAssignment.

Module ScheduleAssignment.

Record t : Type := mk {
  schedule : Schedule.t;
  activities : dict string ActivityAssignment.t
}.

(** The dict comprehension: one entry per activity, in schedule order. *)
Fixpoint random_genes (s : Schedule.t) (acts : list Activity.t)
    (acc : dict string ActivityAssignment.t) : M (dict string ActivityAssignment.t) :=
  match acts with
  | [] => ret acc
  | act :: rest =>
      g <- ActivityAssignment.make_random_assignment s act ;;
      random_genes s rest (dict_set acc (Activity.get_id act) g)
  end.

Definition make_random_assignment (s : Schedule.t) : M t :=
  acts <- random_genes s (Schedule.activities s) [] ;;
  ret (mk s acts).

End ScheduleAssignment.

(** ** Crossover with per-gene mutation *)

(** The conditional expression assigned to [new_activities[activity_name]]. *)
Definition cross_gene (schedule : Schedule.t) (a b : ScheduleAssignment.t)
    (mutation_rate : Q) (chiasma : Z) (i : Z) (act : Activity.t)
    : M ActivityAssignment.t :=
  u <- random.random ;;
  if Qltb u mutation_rate then ActivityAssignment.make_random_assignment schedule act
  else if i <? chiasma then
    lift (dict_index (ScheduleAssignment.activities a) (Activity.get_id act))
  else
    lift (dict_index (ScheduleAssignment.activities b) (Activity.get_id act)).

(** The [for i, activity in enumerate(schedule.activities)] loop. *)
Fixpoint cross_loop (schedule : Schedule.t) (a b : ScheduleAssignment.t)
    (mutation_rate : Q) (chiasma : Z) (i : Z) (acts : list Activity.t)
    (new_activities : dict string ActivityAssignment.t)
    : M (dict string ActivityAssignment.t) :=
  match acts with
  | [] => ret new_activities
  | act :: rest =>
      g <- cross_gene schedule a b mutation_rate chiasma i act ;;
      cross_loop schedule a b mutation_rate chiasma (i + 1) rest
        (dict_set new_activities (Activity.get_id act) g)
  end.

Definition cross_schedules (schedule : Schedule.t) (a b : ScheduleAssignment.t)
    (mutation_rate : Q) : M ScheduleAssignment.t :=
  chiasma <- random.randint 0 (Z.of_nat (List.length (Schedule.activities schedule)) - 1) ;;
  new_activities <-
    cross_loop schedule a b mutation_rate chiasma 0 (Schedule.activities schedule) [] ;;
  ret (ScheduleAssignment.mk (ScheduleAssignment.schedule a) new_activities).

(** ** Fitness *)

Definition building_clusters : dict string Z :=
  [("Roman"%string, 2); ("Beach"%string, 2); ("Slater"%string, 1);
   ("Loft"%string, 1); ("Logos"%string, 1); ("Frank"%string, 1)].

(** [counter[k] += 1] on a [Counter] or a [defaultdict(lambda: 0)]. *)
Definition counter_incr {K : Type} `{Key K} (c : dict K Z) (k : K) : dict K Z :=
  dict_set c k (dict_get_default c k 0 + 1).

(** A Python [set] of integers: a duplicate-free list. *)
Definition set_mem (x : Z) (s : list Z) : bool := existsb (Z.eqb x) s.

Definition set_add (s : list Z) (x : Z) : list Z :=
  if set_mem x s then s else (s ++ [x])%list.

(** [d[k].add(x)] on a [defaultdict(set)]. *)
Definition defaultdict_add {K : Type} `{Key K} (d : dict K (list Z)) (k : K) (x : Z)
    : dict K (list Z) :=
  dict_set d k (set_add (dict_get_default d k []) x).

Definition str_in (x : string) (s : list string) : bool := existsb (String.eqb x) s.

(** ** Binary64 quotients

    A quotient is computed exactly and then rounded once to the nearest
    binary64 number, ties to the even significand; a quotient whose
    rounding would reach [2^1024] is out of range. *)

Inductive float64 : Type :=
| Finite (q : Q)
| Infinity (negative : bool).

(** [floor (log2 a)] for a positive rational. *)
Definition floor_log2 (a : Q) : Z :=
  let k := Z.log2 (Qnum a) - Z.log2 (Zpos (Qden a)) in
  if Qle_bool (Qpower 2 k) a then k else k - 1.

(** Round to the nearest integer, ties to the even one. *)
Definition round_half_even (q : Q) : Z :=
  let f := Qfloor q in
  match (q - inject_Z f ?= 1 # 2)%Q with
  | Lt => f
  | Gt => f + 1
  | Eq => if Z.even f then f else f + 1
  end.

(** The spacing of binary64 numbers around a positive rational: 53
    significant bits, and no finer than [2^-1074]. *)
Definition ulp (a : Q) : Q := Qpower 2 (Z.max (floor_log2 a) (-1022) - 52).

Definition round64 (q : Q) : Q :=
  if Qeq_bool q 0 then 0%Q
  else
    let a := Qabs q in
    let m := (inject_Z (round_half_even (a / ulp a)) * ulp a)%Q in
    if Qltb q 0 then (- m)%Q else m.

(** The largest binary64 number plus half the spacing below [2^1024]: from
    here on a quotient rounds out of range. *)
Definition OVERFLOW_THRESHOLD : Q := inject_Z (2 ^ 1024 - 2 ^ 970).

Definition binary64 (q : Q) : float64 :=
  if Qle_bool OVERFLOW_THRESHOLD (Qabs q) then Infinity (Qltb q 0)
  else Finite (round64 q).

(** [x < y] on floats. *)
Definition float_ltb (x y : float64) : bool :=
  match x, y with
  | Finite a, Finite b => Qltb a b
  | Finite _, Infinity negative => negb negative
  | Infinity negative, Finite _ => negative
  | Infinity a, Infinity b => (a && negb b)%bool
  end.

(** [a / b] on two ints: the correctly rounded quotient,
    [ZeroDivisionError] on a zero divisor, [OverflowError] when the result
    is too large for a float. *)
Definition true_div (a b : Z) : result Q :=
  if b =? 0 then Err ZeroDivisionError
  else
    match binary64 (inject_Z a / inject_Z b)%Q with
    | Finite q => Ok q
    | Infinity _ => Err OverflowError
    end.

(** Lines 101-108, branch for branch. *)
Definition capacity_fit (capacity_ratio : Q) (fitness : Q) : Q :=
  if Qltb capacity_ratio 1 then (fitness - (1 # 2))%Q
  else if Qltb 3 capacity_ratio then (fitness - (1 # 5))%Q
  else if Qltb 6 capacity_ratio then (fitness - (2 # 5))%Q
  else (fitness + (3 # 10))%Q.

(** Lines 110-115. *)
Definition facilitator_fit (g : ActivityAssignment.t) (fitness : Q) : Q :=
  let act := ActivityAssignment.activity g in
  if str_in (ActivityAssignment.facilitator g) (Activity.preferred_facilitators act)
  then (fitness + (1 # 2))%Q
  else if str_in (ActivityAssignment.facilitator g) (Activity.other_facilitators act)
  then (fitness + (1 # 5))%Q
  else (fitness - (1 # 10))%Q.

Record tally : Type := mkTally {
  fitness : Q;
  room_time_load : dict (Room.t * Z) Z;
  facilitator_load : dict string Z;
  facilitator_time_load : dict (string * Z) Z;
  facilitator_time_building_schedule : dict (string * Z) (list Z)
}.

Definition tally0 : tally := mkTally 0 [] [] [] [].

(** One iteration of the [# activity fitness] loop. *)
Definition activity_step (st : tally) (g : ActivityAssignment.t) : result tally :=
  let r := ActivityAssignment.room g in
  let f := ActivityAssignment.facilitator g in
  let tm := ActivityAssignment.time g in
  rbind (dict_index building_clusters (Room.building r)) (fun cluster =>
  rbind (true_div (Room.capacity r)
           (Activity.expected_enrollment (ActivityAssignment.activity g)))
        (fun capacity_ratio =>
  Ok (mkTally
        (facilitator_fit g (capacity_fit capacity_ratio (fitness st)))
        (counter_incr (room_time_load st) (r, tm))
        (counter_incr (facilitator_load st) f)
        (counter_incr (facilitator_time_load st) (f, tm))
        (defaultdict_add (facilitator_time_building_schedule st) (f, tm) cluster)))).

Fixpoint activity_loop (st : tally) (genes : list ActivityAssignment.t) : result tally :=
  match genes with
  | [] => Ok st
  | g :: rest => rbind (activity_step st g) (fun st' => activity_loop st' rest)
  end.

(** [# penalize room/time conflicts] *)
Definition room_time_step (fitness : Q) (load : Z) : Q :=
  if 2 <=? load then (fitness - (1 # 2) * inject_Z load)%Q else fitness.

Definition penalize_room_time (loads : dict (Room.t * Z) Z) (fitness : Q) : Q :=
  fold_left room_time_step (dict_values loads) fitness.

(** [# penalize schedules that give professors too many or too few activities] *)
Definition facilitator_load_step (fitness : Q) (item : string * Z) : Q :=
  let (facilitator, load) := item in
  if (String.eqb facilitator "Tyler" && (load <? 2))%bool then fitness
  else if ((load =? 1) || (load =? 2))%bool then (fitness - (2 # 5))%Q
  else if 4 <? load then (fitness - (1 # 2))%Q
  else fitness.

Definition penalize_facilitator_load (loads : dict string Z) (fitness : Q) : Q :=
  fold_left facilitator_load_step loads fitness.

(** [# penalize ... facilitators to be in multiple places at once] *)
Definition double_booking_step (fitness : Q) (load : Z) : Q :=
  if 1 <? load then (fitness - (1 # 5))%Q else fitness.

Definition penalize_double_booking (loads : dict (string * Z) Z) (fitness : Q) : Q :=
  fold_left double_booking_step (dict_values loads) fitness.

(** [# penalize ... travel far between consecutive activities, otherwise reward] *)
Definition travel_step (sched : dict (string * Z) (list Z)) (facilitator : string)
    (tm : Z) (fitness : Q) (building_group : Z) : Q :=
  let prev := dict_get_default sched (facilitator, tm - 1) [] in
  if ((1 <? Z.of_nat (List.length prev))
      || ((Z.of_nat (List.length prev) =? 1) && negb (set_mem building_group prev)))%bool
  then (fitness - (2 # 5))%Q
  else (fitness + (1 # 2))%Q.

Definition travel_item (sched : dict (string * Z) (list Z)) (fitness : Q)
    (item : (string * Z) * list Z) : Q :=
  let '((facilitator, tm), building_groups) := item in
  fold_left (travel_step sched facilitator tm) building_groups fitness.

Definition score_travel (sched : dict (string * Z) (list Z)) (fitness : Q) : Q :=
  fold_left (travel_item sched) sched fitness.

(** [# "activity-specific adjustments"] *)
Definition section_gap (gap : Z) (fitness : Q) : Q :=
  if 4 <? gap then (fitness + (1 # 2))%Q
  else if gap =? 0 then (fitness - (1 # 2))%Q
  else fitness.

Definition cross_pair (sla101 sla191 : ActivityAssignment.t) (fitness : Q) : result Q :=
  let gap := Z.abs (ActivityAssignment.time sla101 - ActivityAssignment.time sla191) in
  if gap =? 1 then
    rbind (dict_index building_clusters (Room.building (ActivityAssignment.room sla101)))
      (fun c101 =>
    rbind (dict_index building_clusters (Room.building (ActivityAssignment.room sla191)))
      (fun c191 =>
    Ok (if c101 =? c191 then (fitness + (1 # 2))%Q else (fitness - (2 # 5))%Q)))
  else if gap =? 2 then Ok (fitness + (1 # 4))%Q
  else if gap =? 0 then Ok (fitness - (1 # 4))%Q
  else Ok fitness.

Definition named_adjustments (acts : dict string ActivityAssignment.t) (fitness : Q)
    : result Q :=
  rbind (dict_index acts "SLA101A"%string) (fun a101 =>
  rbind (dict_index acts "SLA101B"%string) (fun b101 =>
  let fitness :=
    section_gap (Z.abs (ActivityAssignment.time a101 - ActivityAssignment.time b101))
      fitness in
  rbind (dict_index acts "SLA191A"%string) (fun a191 =>
  rbind (dict_index acts "SLA191B"%string) (fun b191 =>
  let fitness :=
    section_gap (Z.abs (ActivityAssignment.time a191 - ActivityAssignment.time b191))
      fitness in
  rbind (cross_pair a101 a191 fitness) (fun fitness =>
  rbind (cross_pair a101 b191 fitness) (fun fitness =>
  rbind (cross_pair b101 a191 fitness) (fun fitness =>
  cross_pair b101 b191 fitness))))))).

Definition get_fitness (sa : ScheduleAssignment.t) : result Q :=
  let acts := ScheduleAssignment.activities sa in
  rbind (activity_loop tally0 (dict_values acts)) (fun st =>
  let fitness := penalize_room_time (room_time_load st) (fitness st) in
  let fitness := penalize_facilitator_load (facilitator_load st) fitness in
  let fitness := penalize_double_booking (facilitator_time_load st) fitness in
  let fitness := score_travel (facilitator_time_building_schedule st) fitness in
  named_adjustments acts fitness).

(** ** Selection

    [scipy.special.softmax] and [numpy.random.choice] are library calls.
    The float exponential is a parameter of the development ([exp]);
    [choice(..., replace=False)] is modelled by its documented behaviour:
    [ValueError] on an empty population, on weights that are not a
    probability vector, on a sample larger than the population and on fewer
    positive weights than the sample size; otherwise the entries are drawn
    one after another, each by inverse cdf over the weights of the entries
    not drawn yet. *)

Definition Qsum (l : list Q) : Q := fold_right Qplus 0%Q l.

Definition Qmaxb (x y : Q) : Q := if Qltb x y then y else x.

Module numpy.

Definition rand : M Q := z <- np_draw ;; ret (unit_float z).

(** [cdf.searchsorted(x, side='right')] on the running sums of [p]. *)
Fixpoint searchsorted (p : list Q) (x : Q) : nat :=
  match p with
  | [] => O
  | w :: rest => if Qltb x w then O else S (searchsorted rest (x - w)%Q)
  end.

Fixpoint zero_at (i : nat) (p : list Q) : list Q :=
  match p, i with
  | [], _ => []
  | _ :: rest, O => 0%Q :: rest
  | w :: rest, S i' => w :: zero_at i' rest
  end.

Fixpoint sample (size : nat) (p : list Q) : M (list nat) :=
  match size with
  | O => ret []
  | S size' =>
      u <- rand ;;
      let i := searchsorted p (u * Qsum p)%Q in
      rest <- sample size' (zero_at i p) ;;
      ret (i :: rest)
  end.

Definition count_positive (p : list Q) : nat :=
  List.length (filter (fun w => Qltb 0 w) p).

Definition uniform (n : nat) : list Q := repeat (1 # Pos.of_nat n) n.

(** The indices drawn by [choice(a, size, replace=False, p=p)] over a
    population of [n] entries. *)
Definition choice_indices (n : nat) (size : nat) (p : option (list Q)) : M (list nat) :=
  let w := match p with Some w => w | None => uniform n end in
  if (n =? 0)%nat then raise ValueError
  else if negb (List.length w =? n)%nat then raise ValueError
  else if existsb (fun x => Qltb x 0) w then raise ValueError
  else if negb (Qeq_bool (Qsum w) 1) then raise ValueError
  else if (n <? size)%nat then raise ValueError
  else if (count_positive w <? size)%nat then raise ValueError
  else sample size w.

Fixpoint take_indices {A : Type} (a : list A) (idx : list nat) : list A :=
  match idx with
  | [] => []
  | i :: rest =>
      match nth_error a i with
      | Some x => x :: take_indices a rest
      | None => take_indices a rest
      end
  end.

Definition choice {A : Type} (a : list A) (size : nat) (p : option (list Q)) : M (list A) :=
  idx <- choice_indices (List.length a) size p ;;
  ret (take_indices a idx).

End numpy.

Section Evolution.

(** The float exponential used by [scipy.special.softmax]. *)
Variable exp : Q -> Q.

Definition softmax (x : list Q) : result (list Q) :=
  match x with
  | [] => Err ValueError
  | x0 :: rest =>
      let m := fold_left Qmaxb rest x0 in
      let e := map (fun v => exp (v - m)%Q) x in
      let s := Qsum e in
      Ok (map (fun v => (v / s)%Q) e)
  end.

(** Lines 190-191: the parent pool. *)
Definition select_parents (population : list ScheduleAssignment.t)
    (population_fitness : list Q) (parent_pool_size : nat)
    : M (list ScheduleAssignment.t) :=
  softmax_pop_fitness <- lift (softmax population_fitness) ;;
  numpy.choice population parent_pool_size (Some softmax_pop_fitness).

(** Lines 193-195: one offspring per slot of the population. *)
Fixpoint breed (schedule : Schedule.t) (parent_population : list ScheduleAssignment.t)
    (mutation_rate : Q) (slots : list ScheduleAssignment.t)
    : M (list ScheduleAssignment.t) :=
  match slots with
  | [] => ret []
  | _ :: slots' =>
      pair <- numpy.choice parent_population 2 None ;;
      match pair with
      | [a; b] =>
          child <- cross_schedules schedule a b mutation_rate ;;
          rest <- breed schedule parent_population mutation_rate slots' ;;
          ret (child :: rest)
      | _ => raise ValueError
      end
  end.

Definition get_next_generation (schedule : Schedule.t)
    (population : list ScheduleAssignment.t) (population_fitness : list Q)
    (parent_pool_size : nat) (mutation_rate : Q) : M (list ScheduleAssignment.t) :=
  parent_population <- select_parents population population_fitness parent_pool_size ;;
  breed schedule parent_population mutation_rate population.

(** ** Evolution loop *)

Definition MUTATION_RATE_DECAY : Q := 1 # 2.
Definition initial_mutation_rate : Q := 1 # 10.

(** [int(POPULATION_SIZE * 0.2)] *)
Definition PARENT_POPULATION_SIZE (POPULATION_SIZE : nat) : nat :=
  Z.to_nat (Qfloor (inject_Z (Z.of_nat POPULATION_SIZE) * (1 # 5))%Q).

(** [x / y] on floats. *)
Definition float_div (x y : Q) : result Q :=
  if Qeq_bool y 0 then Err ZeroDivisionError else Ok (x / y)%Q.

(** [x / y] on floats, as a binary64 value: the rounded quotient, or an
    infinity when it is out of range. *)
Definition float_quotient (x y : Q) : result float64 :=
  if Qeq_bool y 0 then Err ZeroDivisionError else Ok (binary64 (x / y)%Q).

(** The float that the literal [1.01] denotes. *)
Definition double_1_01 : Q := 4548635623644201 # 4503599627370496.

(** [sum(xs) / n] with [n] a length. *)
Definition average (xs : list Q) (n : nat) : result Q :=
  float_div (fold_left Qplus xs 0%Q) (inject_Z (Z.of_nat n)).

Fixpoint map_result {A B : Type} (f : A -> result B) (l : list A) : result (list B) :=
  match l with
  | [] => Ok []
  | x :: rest =>
      rbind (f x) (fun y => rbind (map_result f rest) (fun ys => Ok (y :: ys)))
  end.

Fixpoint replicate {A : Type} (n : nat) (m : M A) : M (list A) :=
  match n with
  | O => ret []
  | S n' => x <- m ;; xs <- replicate n' m ;; ret (x :: xs)
  end.

Record loop_state : Type := mkLoop {
  g : Z;
  population : list ScheduleAssignment.t;
  population_fitness : list Q;
  mutation_rate : Q
}.

Inductive decision : Type :=
| Stop
| Next (mutation_rate : Q).

(** Lines 271-275. *)
Definition decide (g : Z) (avg_population_fitness avg_prev_population_fitness : Q)
    (mutation_rate : Q) : result decision :=
  if 100 <? g then
    rbind (float_quotient avg_population_fitness avg_prev_population_fitness) (fun ratio =>
    if float_ltb ratio (Finite double_1_01) then Ok Stop
    else Ok (Next (mutation_rate * MUTATION_RATE_DECAY)%Q))
  else Ok (Next mutation_rate).

Inductive outcome : Type :=
| Converged (st : loop_state)
| Advancing (st : loop_state).

(** One pass through the body of [for g in count()]. *)
Definition generation (schedule : Schedule.t) (parent_pool_size : nat)
    (st : loop_state) : M outcome :=
  avg_prev <- lift (average (population_fitness st) (List.length (population st))) ;;
  pop <- get_next_generation schedule (population st) (population_fitness st)
           parent_pool_size (mutation_rate st) ;;
  fit <- lift (map_result get_fitness pop) ;;
  avg <- lift (average fit (List.length fit)) ;;
  d <- lift (decide (g st) avg avg_prev (mutation_rate st)) ;;
  match d with
  | Stop => ret (Converged (mkLoop (g st) pop fit (mutation_rate st)))
  | Next rate => ret (Advancing (mkLoop (g st + 1) pop fit rate))
  end.

(** The unbounded loop, unrolled at most [fuel] times; [None] when the
    loop is still running after [fuel] generations. *)
Fixpoint evolve (schedule : Schedule.t) (parent_pool_size : nat) (fuel : nat)
    (st : loop_state) : M (option loop_state) :=
  match fuel with
  | O => ret None
  | S fuel' =>
      o <- generation schedule parent_pool_size st ;;
      match o with
      | Converged st' => ret (Some st')
      | Advancing st' => evolve schedule parent_pool_size fuel' st'
      end
  end.

(** Lines 260-261. *)
Definition initialise (schedule : Schedule.t) (POPULATION_SIZE : nat) : M loop_state :=
  pop <- replicate POPULATION_SIZE (ScheduleAssignment.make_random_assignment schedule) ;;
  fit <- lift (map_result get_fitness pop) ;;
  ret (mkLoop 0 pop fit initial_mutation_rate).

(** [max(enumerate(population_fitness), key=lambda p: p[1])]: the first
    maximum; [ValueError] on an empty sequence. *)
Fixpoint argmax_from (i : nat) (best_ix : nat) (best : Q) (xs : list Q) : nat * Q :=
  match xs with
  | [] => (best_ix, best)
  | x :: rest =>
      if Qltb best x then argmax_from (S i) i x rest
      else argmax_from (S i) best_ix best rest
  end.

Definition best_of (xs : list Q) : result (nat * Q) :=
  match xs with
  | [] => Err ValueError
  | x :: rest => Ok (argmax_from 1 0%nat x rest)
  end.

Definition report (st : loop_state) : result (Q * ScheduleAssignment.t) :=
  rbind (best_of (population_fitness st)) (fun '(best_schedule_ix, best_fitness) =>
  match nth_error (population st) best_schedule_ix with
  | Some s => Ok (best_fitness, s)
  | None => Err IndexError
  end).

(** [main] from the loaded schedule on; [Ok None] when convergence was not
    reached within [fuel] generations. *)
Definition main (schedule : Schedule.t) (POPULATION_SIZE : nat) (fuel : nat)
    : M (option (Q * ScheduleAssignment.t)) :=
  st0 <- initialise schedule POPULATION_SIZE ;;
  r <- evolve schedule (PARENT_POPULATION_SIZE POPULATION_SIZE) fuel st0 ;;
  match r with
  | None => ret None
  | Some st => best <- lift (report st) ;; ret (Some best)
  end.

End Evolution.

(** ** The capacity-fit rule as the specification words it *)

(** Three branches: too small, oversized, otherwise. *)
Definition capacity_fit_three_branch (capacity_ratio : Q) (fitness : Q) : Q :=
  if Qltb capacity_ratio 1 then (fitness - (1 # 2))%Q
  else if Qltb 3 capacity_ratio then (fitness - (1 # 5))%Q
  else (fitness + (3 # 10))%Q.

(** ** Sample data *)

Definition sla (number : Z) (sec : string) (enrollment : Z) : Activity.t :=
  Activity.mk "SLA" number (Some sec) enrollment ["Glen"%string] ["Tyler"%string].

Definition demo_schedule : Schedule.t :=
  Schedule.mk
    [sla 101 "A" 50; sla 101 "B" 50; sla 191 "A" 50; sla 191 "B" 50]
    ["Glen"%string; "Tyler"%string]
    [Room.mk "Roman" 201 50; Room.mk "Beach" 301 75]
    [10; 11; 12].

(** A generator whose [k]-th raw draw is [a * k + b], for both libraries. *)
Definition affine_rng (a b : Z) : rng :=
  mkRng (fun k => a * Z.of_nat k + b) 0 (fun k => a * Z.of_nat k + b) 0.

(** ** Specification-side views of crossover *)

(** The generator after [k] further draws of the [random] module. *)
Definition py_skip (k : nat) (g : rng) : rng :=
  mkRng (py_raw g) (k + py_pos g) (np_raw g) (np_pos g).

(** The value [random.random()] returns at the [j]-th draw from now. *)
Definition coin (g : rng) (j : nat) : Q := unit_float (py_raw g (j + py_pos g)).

(** None of the next [n] draws falls below the mutation rate. *)
Definition unmutated (n : nat) (mutation_rate : Q) (g : rng) : Prop :=
  forall j, (j < n)%nat -> Qltb (coin g j) mutation_rate = false.

(** Crossover without the mutation branch: index before the crossover point
    copies parent A, otherwise parent B. *)
Fixpoint splice_loop (a b : ScheduleAssignment.t) (chiasma : Z) (i : Z)
    (acts : list Activity.t) (acc : dict string ActivityAssignment.t)
    : result (dict string ActivityAssignment.t) :=
  match acts with
  | [] => Ok acc
  | act :: rest =>
      rbind (dict_index
               (ScheduleAssignment.activities (if i <? chiasma then a else b))
               (Activity.get_id act))
        (fun gene =>
           splice_loop a b chiasma (i + 1) rest (dict_set acc (Activity.get_id act) gene))
  end.





(** The crossover point drawn at [g] for [n] activities. *)
Definition chiasma_at (n : nat) (g : rng) : Z := py_raw g (py_pos g) mod Z.of_nat n.

(** [random.choice] as a function of the raw draw it consumes. *)
Definition pick {A : Type} (seq : list A) (z : Z) : result A :=
  match seq with
  | [] => Err IndexError
  | x :: _ => Ok (nth (Z.to_nat (z mod Z.of_nat (List.length seq))) seq x)
  end.

(** [ActivityAssignment.make_random_assignment] as a function of its three
    raw draws. *)
Definition gene_of (s : Schedule.t) (act : Activity.t) (z1 z2 z3 : Z)
    : result ActivityAssignment.t :=
  rbind (pick (Schedule.facilitators s) z1) (fun f =>
  rbind (pick (Schedule.rooms s) z2) (fun r =>
  rbind (pick (Schedule.times s) z3) (fun tm =>
  Ok (ActivityAssignment.mk act f r tm)))).



Definition roman_201 : Room.t := Room.mk "Roman" 201 50.
Definition beach_301 : Room.t := Room.mk "Beach" 301 75.

(** Two hand-written candidates over [demo_schedule]. *)
Definition demo_parent_a : ScheduleAssignment.t :=
  ScheduleAssignment.mk demo_schedule
    [("SLA101A"%string, ActivityAssignment.mk (sla 101 "A" 50) "Glen" roman_201 10);
     ("SLA101B"%string, ActivityAssignment.mk (sla 101 "B" 50) "Glen" roman_201 11);
     ("SLA191A"%string, ActivityAssignment.mk (sla 191 "A" 50) "Tyler" beach_301 10);
     ("SLA191B"%string, ActivityAssignment.mk (sla 191 "B" 50) "Tyler" beach_301 12)].

Definition demo_parent_b : ScheduleAssignment.t :=
  ScheduleAssignment.mk demo_schedule
    [("SLA101A"%string, ActivityAssignment.mk (sla 101 "A" 50) "Tyler" beach_301 12);
     ("SLA101B"%string, ActivityAssignment.mk (sla 101 "B" 50) "Tyler" beach_301 12);
     ("SLA191A"%string, ActivityAssignment.mk (sla 191 "A" 50) "Glen" roman_201 11);
     ("SLA191B"%string, ActivityAssignment.mk (sla 191 "B" 50) "Glen" roman_201 11)].


(** ** Specification-side views of the fitness rules *)

(** How many entries of [ks] equal [k]. *)
Definition occurs {K : Type} `{Key K} (k : K) (ks : list K) : Z :=
  Z.of_nat (List.length (filter (key_eqb k) ks)).

Definition room_time_key (g : ActivityAssignment.t) : Room.t * Z :=
  (ActivityAssignment.room g, ActivityAssignment.time g).

(** The genes of a candidate in iteration order. *)
Definition genes (sa : ScheduleAssignment.t) : list ActivityAssignment.t :=
  dict_values (ScheduleAssignment.activities sa).

(** Number of genes placed in room and time [p]. *)
Definition group_size (sa : ScheduleAssignment.t) (p : Room.t * Z) : Z :=
  occurs p (map room_time_key (genes sa)).

(** Number of genes given to [facilitator]. *)
Definition load_of (sa : ScheduleAssignment.t) (facilitator : string) : Z :=
  occurs facilitator (map ActivityAssignment.facilitator (genes sa)).

(** Room/time conflicts: a group of at least two genes loses half a point
    per occupant. *)
Definition conflict_penalty (k : Z) : Q :=
  if 2 <=? k then ((1 # 2) * inject_Z k)%Q else 0%Q.

(** Facilitator load: 0.4 for a load of 1 or 2, 0.5 for a load above 4;
    the exempt facilitator is not charged for a load below 2. *)
Definition exempt_facilitator : string := "Tyler".

Definition facilitator_load_penalty (facilitator : string) (load : Z) : Q :=
  if load =? 1 then
    if String.eqb facilitator exempt_facilitator then 0%Q else (2 # 5)%Q
  else if load =? 2 then (2 # 5)%Q
  else if 4 <? load then (1 # 2)%Q
  else 0%Q.

(** What follows the activity loop in [get_fitness]. *)
Definition after_activity_loop (sa : ScheduleAssignment.t) (st : tally) : result Q :=
  let fitness := penalize_room_time (room_time_load st) (fitness st) in
  let fitness := penalize_facilitator_load (facilitator_load st) fitness in
  let fitness := penalize_double_booking (facilitator_time_load st) fitness in
  let fitness := score_travel (facilitator_time_building_schedule st) fitness in
  named_adjustments (ScheduleAssignment.activities sa) fitness.

(** Three of four genes in one room at one time. *)
Definition demo_crowded : ScheduleAssignment.t :=
  ScheduleAssignment.mk demo_schedule
    [("SLA101A"%string, ActivityAssignment.mk (sla 101 "A" 50) "Glen" roman_201 10);
     ("SLA101B"%string, ActivityAssignment.mk (sla 101 "B" 50) "Glen" roman_201 10);
     ("SLA191A"%string, ActivityAssignment.mk (sla 191 "A" 50) "Tyler" roman_201 10);
     ("SLA191B"%string, ActivityAssignment.mk (sla 191 "B" 50) "Glen" beach_301 12)].

(** ** Specification-side views of selection *)

Definition all_nonneg (p : list Q) : Prop := forall w, In w p -> (0 <= w)%Q.

(** [m] is the largest entry of [x]. *)
Definition is_maximum (m : Q) (x : list Q) : Prop :=
  In m x /\ forall v, In v x -> (v <= m)%Q.

(** The weight softmax gives to the fitness value [v] of a fitness vector
    [x] with maximum [m]: the exponential of the distance to the maximum,
    divided by the sum of these exponentials over the vector. *)
Definition softmax_weight (exp : Q -> Q) (x : list Q) (m : Q) (v : Q) : Q :=
  (exp (v - m) / Qsum (map (fun u => exp (u - m)) x))%Q.

(** The generator after one draw of numpy's generator. *)
Definition np_next (g : rng) : rng :=
  mkRng (py_raw g) (py_pos g) (np_raw g) (S (np_pos g)).

(** Index [i] is where the running sums of the weights [p] pass [x]: the
    weights before [i] sum to at most [x], and with the weight at [i] to
    more than [x]. *)
Definition cdf_bracket (p : list Q) (x : Q) (i : nat) : Prop :=
  (Qsum (firstn i p) <= x)%Q /\ (x < Qsum (firstn (S i) p))%Q.

(** The indices [idx] are drawn from the weights [p] at [g] one after
    another without replacement: each is where the running sums of the
    weights not drawn yet pass the uniform draw scaled to their total, and
    its weight is then set to zero. *)
Fixpoint drawn_under (p : list Q) (g : rng) (idx : list nat) : Prop :=
  match idx with
  | [] => True
  | i :: rest =>
      cdf_bracket p (unit_float (np_raw g (np_pos g)) * Qsum p)%Q i
      /\ (i < List.length p)%nat
      /\ drawn_under (numpy.zero_at i p) (np_next g) rest
  end.

(** A positive stand-in for the float exponential: [2 ^ floor x]. *)
Definition exp2 (x : Q) : Q := Qpower 2 (Qfloor x).

Definition demo_population : list ScheduleAssignment.t :=
  [demo_parent_a; demo_parent_b; demo_crowded].

(** ** Configurations used to probe the error paths *)

(** The identifiers [get_fitness] looks up by name. *)
Definition required_names : list string :=
  ["SLA101A"%string; "SLA101B"%string; "SLA191A"%string; "SLA191B"%string].

(** Two activities, one facilitator, one room, two time slots. *)
Definition toy_schedule (facilitator : string) (room : Room.t) (a b : Activity.t)
    : Schedule.t :=
  Schedule.mk [a; b] [facilitator] [room] [0; 1].

Definition toy_demo : Schedule.t :=
  toy_schedule "Glen" roman_201 (sla 101 "A" 50) (sla 101 "B" 50).

(** [demo_schedule] with one more room, in a building without a cluster. *)
Definition annex_1 : Room.t := Room.mk "Annex" 1 30.

Definition unmapped_schedule : Schedule.t :=
  Schedule.mk (Schedule.activities demo_schedule) (Schedule.facilitators demo_schedule)
    [roman_201; beach_301; annex_1] (Schedule.times demo_schedule).

(** A gene drawn from the schedule's own activities, facilitators, rooms
    and times. *)
Definition gene_wf (s : Schedule.t) (gene : ActivityAssignment.t) : Prop :=
  In (ActivityAssignment.activity gene) (Schedule.activities s)
  /\ In (ActivityAssignment.facilitator gene) (Schedule.facilitators s)
  /\ In (ActivityAssignment.room gene) (Schedule.rooms s)
  /\ In (ActivityAssignment.time gene) (Schedule.times s).

(** The exact quotient of a gene's room capacity by its activity's
    expected enrollment. *)
Definition exact_ratio (gene : ActivityAssignment.t) : Q :=
  (inject_Z (Room.capacity (ActivityAssignment.room gene))
   / inject_Z (Activity.expected_enrollment (ActivityAssignment.activity gene)))%Q.

(** The quotient [a / b] is within the range of a float. *)
Definition quotient_in_range (a b : Z) : Prop :=
  (Qabs (inject_Z a / inject_Z b) < OVERFLOW_THRESHOLD)%Q.

Definition ratio_in_range (gene : ActivityAssignment.t) : Prop :=
  quotient_in_range (Room.capacity (ActivityAssignment.room gene))
    (Activity.expected_enrollment (ActivityAssignment.activity gene)).

(** What [get_fitness] needs from a gene to get through the activity loop. *)
Definition gene_scorable (gene : ActivityAssignment.t) : Prop :=
  dict_get building_clusters (Room.building (ActivityAssignment.room gene)) <> None
  /\ Activity.expected_enrollment (ActivityAssignment.activity gene) <> 0
  /\ ratio_in_range gene.

(** The run ended with a reported best candidate. *)
Definition reports_best {A : Type} (r : result (option A * rng)) : bool :=
  match r with
  | Ok (Some _, _) => true
  | _ => false
  end.

(** The generation counter at which a run of [evolve] converged. *)
Definition converged_at (r : result (option loop_state * rng)) : option Z :=
  match r with
  | Ok (Some st, _) => Some (g st)
  | _ => None
  end.

(** A candidate over [s]: every entry holds a gene drawn from the schedule,
    filed under the identifier of the gene's own activity. *)
Definition candidate_wf (s : Schedule.t) (sa : ScheduleAssignment.t) : Prop :=
  forall k gene,
    In (k, gene) (ScheduleAssignment.activities sa) ->
    gene_wf s gene /\ Activity.get_id (ActivityAssignment.activity gene) = k.

(** What holds of every loop state of a run over [s]: the members are
    well-formed candidates with the schedule's keys, and the fitness list is
    the members' fitness, in order. *)
Definition member_ok (s : Schedule.t) (c : ScheduleAssignment.t) : Prop :=
  candidate_wf s c
  /\ (NoDup (Schedule.ids s) ->
      dict_keys (ScheduleAssignment.activities c) = Schedule.ids s).

Definition loop_invariant (s : Schedule.t) (st : loop_state) : Prop :=
  Forall (member_ok s) (population st)
  /\ map_result get_fitness (population st) = Ok (population_fitness st).

Definition facilitator_time_key (g : ActivityAssignment.t) : string * Z :=
  (ActivityAssignment.facilitator g, ActivityAssignment.time g).

(** Number of genes that give [k]'s facilitator an activity at [k]'s time. *)
Definition booking_count (sa : ScheduleAssignment.t) (k : string * Z) : Z :=
  occurs k (map facilitator_time_key (genes sa)).

(** Double booking: a flat fifth of a point per facilitator and time with
    more than one gene. *)
Definition double_booking_penalty (k : Z) : Q :=
  if 1 <? k then (1 # 5)%Q else 0%Q.

(** The two per-activity terms of one gene, from a running fitness of 0. *)
Definition gene_score (gene : ActivityAssignment.t) : Q :=
  facilitator_fit gene (capacity_fit (round64 (exact_ratio gene)) 0%Q).

(** The mutation rate the loop holds when its counter is [g]: the initial
    rate, halved once for every counter value above 100 that it has left
    behind. *)
Definition scheduled_rate (g : Z) : Q :=
  (initial_mutation_rate * Qpower MUTATION_RATE_DECAY (Z.max 0 (g - 101)))%Q.

(** The state [st] with its counter moved to 101, where the stopping rule
    starts to be checked. *)
Definition late_state (st : loop_state) : loop_state :=
  mkLoop 101 (population st) (population_fitness st) (mutation_rate st).

(** ** Printing a candidate *)

(** [str(n)] for an int. *)
Definition str_int (n : Z) : string := NilZero.string_of_int (Z.to_int n).

Fixpoint fill_string (c : ascii) (n : nat) : string :=
  match n with
  | O => EmptyString
  | S n' => String c (fill_string c n')
  end.

(** The format specification [c<width]: left-aligned, filled with [c]. *)
Definition pad_right (c : ascii) (width : nat) (s : string) : string :=
  (s ++ fill_string c (width - String.length s))%string.

(** One gene, as the generator expression of line 210 formats it. *)
Definition format_entry (gene : ActivityAssignment.t) : string :=
  (pad_right " " 7 (Activity.get_id (ActivityAssignment.activity gene)) ++ " " ++
   pad_right " " 8 (ActivityAssignment.facilitator gene) ++ " " ++
   pad_right " " 5 (Room.building (ActivityAssignment.room gene)) ++ " " ++
   pad_right "0" 3 (str_int (Room.number (ActivityAssignment.room gene))))%string.

(** [{time: [] for time in schedule.schedule.times}] *)
Definition empty_slots (times : list Z) : dict Z (list ActivityAssignment.t) :=
  fold_left (fun d tm => dict_set d tm []) times [].

(** [time_slots[activity.time].append(activity)] for every gene;
    [KeyError] when the time is not a key. *)
Fixpoint fill_slots (d : dict Z (list ActivityAssignment.t))
    (gs : list ActivityAssignment.t) : result (dict Z (list ActivityAssignment.t)) :=
  match gs with
  | [] => Ok d
  | gene :: rest =>
      rbind (dict_index d (ActivityAssignment.time gene)) (fun slot =>
      fill_slots (dict_set d (ActivityAssignment.time gene) (slot ++ [gene])%list) rest)
  end.

Definition time_slots (sa : ScheduleAssignment.t)
    : result (dict Z (list ActivityAssignment.t)) :=
  fill_slots (empty_slots (Schedule.times (ScheduleAssignment.schedule sa)))
    (dict_values (ScheduleAssignment.activities sa)).

Definition newline : string := String (ascii_of_nat 10) EmptyString.

(** The text of one output line. *)
Definition format_line (item : Z * list ActivityAssignment.t) : string :=
  let (tm, slot) := item in
  (pad_right " " 2 (str_int tm) ++ ":00" ++ " | " ++
   String.concat " | " (map format_entry slot) ++ newline)%string.

(** What [print_schedule] writes to standard output. *)
Definition print_schedule (sa : ScheduleAssignment.t) : result string :=
  rbind (time_slots sa) (fun slots =>
  Ok (String.concat EmptyString (map format_line slots))).

(** ** Reading identifiers back *)

(** The integer a decimal numeral with an optional leading minus sign
    denotes; leading zeros are allowed. *)
Definition parse_int (s : string) : option Z :=
  option_map Z.of_int (NilEmpty.int_of_string s).

(** ** Specification-side view of the travel rule *)

Definition cluster_of (gene : ActivityAssignment.t) : option Z :=
  dict_get building_clusters (Room.building (ActivityAssignment.room gene)).

(** Every activity the facilitator has in the hour before [tm] sits in
    cluster [c] (in particular when there is none). *)
Definition stays_in_cluster (sa : ScheduleAssignment.t) (facilitator : string)
    (tm : Z) (c : Z) : Prop :=
  forall gene,
    In gene (genes sa) ->
    ActivityAssignment.facilitator gene = facilitator ->
    ActivityAssignment.time gene = tm - 1 ->
    cluster_of gene = Some c.

(** * Properties *)

Unset Implicit Arguments.

Lemma Qltb_lt (x y : Q) : Qltb x y = true <-> (x < y)%Q.
Proof.
  unfold Qltb. rewrite negb_true_iff.
  split.
  - intros E. apply Qnot_le_lt. intros L. apply Qle_bool_iff in L. congruence.
  - intros L. destruct (Qle_bool y x) eqn:E; [|reflexivity].
    apply Qle_bool_iff in E. exfalso. exact (Qlt_not_le _ _ L E).
Qed.

Lemma Qltb_ge (x y : Q) : Qltb x y = false <-> (y <= x)%Q.
Proof.
  unfold Qltb. rewrite negb_false_iff. apply Qle_bool_iff.
Qed.

(** C2. The literal four-branch capacity rule of [get_fitness] computes the
    same value as the three-branch rule for every ratio and every running
    fitness; no ratio reaches the [> 6] branch; ratios equal to 1 and to 3
    both add 0.3. *)
Theorem capacity_fit_dead_branch :
  (forall ratio fitness, capacity_fit ratio fitness = capacity_fit_three_branch ratio fitness)
  /\ (forall ratio,
        ~ (Qltb ratio 1 = false /\ Qltb 3 ratio = false /\ Qltb 6 ratio = true))
  /\ (forall ratio fitness,
        (ratio == 1)%Q \/ (ratio == 3)%Q ->
        capacity_fit ratio fitness = (fitness + (3 # 10))%Q).
Proof.
  assert (dead : forall ratio, Qltb 3 ratio = false -> Qltb 6 ratio = false).
  { intros ratio H3. apply Qltb_ge in H3. apply Qltb_ge.
    eapply Qle_trans; [exact H3 | discriminate]. }
  repeat split.
  - intros ratio fitness. unfold capacity_fit, capacity_fit_three_branch.
    destruct (Qltb ratio 1); [reflexivity|].
    destruct (Qltb 3 ratio) eqn:H3; [reflexivity|].
    rewrite (dead _ H3). reflexivity.
  - intros ratio (_ & H3 & H6). rewrite (dead _ H3) in H6. discriminate.
  - intros ratio fitness Hr. unfold capacity_fit.
    assert (H1 : Qltb ratio 1 = false).
    { apply Qltb_ge. destruct Hr as [-> | ->]; discriminate. }
    assert (H3 : Qltb 3 ratio = false).
    { apply Qltb_ge. destruct Hr as [-> | ->]; discriminate. }
    rewrite H1, H3, (dead _ H3). reflexivity.
Qed.

Lemma capacity_fit_dead_branch_witness :
  capacity_fit (30 # 10) 0 = (0 + (3 # 10))%Q.
Proof.
  apply (proj2 (proj2 capacity_fit_dead_branch)).
  right. reflexivity.
Defined.

(** ** Laws of keys and dictionaries *)

#[export] Instance KeyLaws_string : KeyLaws string.
Proof. constructor. exact String.eqb_eq. Qed.

#[export] Instance KeyLaws_Z : KeyLaws Z.
Proof. constructor. exact Z.eqb_eq. Qed.

#[export] Instance KeyLaws_pair (A B : Type) `{KeyLaws A} `{KeyLaws B} : KeyLaws (A * B).
Proof.
  constructor. intros [a b] [a' b']; simpl.
  rewrite andb_true_iff, !key_eqb_eq.
  split; [intros [-> ->]; reflexivity | intros E; inversion E; auto].
Qed.

#[export] Instance KeyLaws_Room : KeyLaws Room.t.
Proof.
  constructor. intros [b n c] [b' n' c']; unfold key_eqb; simpl; unfold Room.eqb; simpl.
  rewrite !andb_true_iff, String.eqb_eq, !Z.eqb_eq.
  split; [intros [[-> ->] ->]; reflexivity | intros E; inversion E; auto].
Qed.

Section DictLaws.
Context {K V : Type} `{KeyLaws K}.

Lemma key_eqb_refl (x : K) : key_eqb x x = true.
Proof. apply key_eqb_eq; reflexivity. Qed.

Lemma key_eqb_neq (x y : K) : key_eqb x y = false <-> x <> y.
Proof.
  split.
  - intros E F. apply key_eqb_eq in F. congruence.
  - intros N. destruct (key_eqb x y) eqn:E; [|reflexivity].
    apply key_eqb_eq in E. contradiction.
Qed.

Lemma dict_get_none (d : dict K V) (k : K) :
  dict_get d k = None <-> ~ In k (dict_keys d).
Proof.
  induction d as [|[k' v] d IH]; simpl.
  - tauto.
  - destruct (key_eqb k' k) eqn:E.
    + apply key_eqb_eq in E. split; [discriminate | intros N; exfalso; auto].
    + apply key_eqb_neq in E. rewrite IH. tauto.
Qed.

Lemma dict_get_some_in (d : dict K V) (k : K) (v : V) :
  dict_get d k = Some v -> In k (dict_keys d).
Proof.
  intros E. destruct (in_dec (fun x y => match key_eqb x y as b
      return (key_eqb x y = b -> {x = y} + {x <> y}) with
    | true => fun e => left (proj1 (key_eqb_eq x y) e)
    | false => fun e => right (proj1 (key_eqb_neq x y) e)
    end eq_refl) k (dict_keys d)) as [I|N]; [exact I|].
  apply dict_get_none in N. congruence.
Qed.

Lemma dict_get_in (d : dict K V) (k : K) :
  In k (dict_keys d) -> exists v, dict_get d k = Some v.
Proof.
  intros I. destruct (dict_get d k) eqn:E; [eauto|].
  apply dict_get_none in E. contradiction.
Qed.

Lemma dict_keys_set_in (d : dict K V) (k : K) (v : V) :
  In k (dict_keys d) -> dict_keys (dict_set d k v) = dict_keys d.
Proof.
  induction d as [|[k' v'] d IH]; simpl; [tauto|].
  intros I. destruct (key_eqb k' k) eqn:E; simpl; [reflexivity|].
  apply key_eqb_neq in E. f_equal. apply IH. destruct I; [contradiction | assumption].
Qed.

Lemma dict_keys_set_new (d : dict K V) (k : K) (v : V) :
  ~ In k (dict_keys d) -> dict_keys (dict_set d k v) = (dict_keys d ++ [k])%list.
Proof.
  induction d as [|[k' v'] d IH]; simpl; [reflexivity|].
  intros N. destruct (key_eqb k' k) eqn:E; simpl.
  - apply key_eqb_eq in E. exfalso; auto.
  - f_equal. apply IH. tauto.
Qed.

Lemma dict_keys_set_iff (d : dict K V) (k : K) (v : V) (x : K) :
  In x (dict_keys (dict_set d k v)) <-> In x (dict_keys d) \/ x = k.
Proof.
  induction d as [|[k' v'] d IH]; simpl.
  - intuition.
  - destruct (key_eqb k' k) eqn:E; simpl.
    + apply key_eqb_eq in E. subst. intuition congruence.
    + rewrite IH. tauto.
Qed.

Lemma dict_get_set_same (d : dict K V) (k : K) (v : V) :
  dict_get (dict_set d k v) k = Some v.
Proof.
  induction d as [|[k' v'] d IH]; simpl.
  - rewrite key_eqb_refl. reflexivity.
  - destruct (key_eqb k' k) eqn:E; simpl; rewrite E; [reflexivity | exact IH].
Qed.

Lemma dict_get_set_other (d : dict K V) (k k' : K) (v : V) :
  k <> k' -> dict_get (dict_set d k v) k' = dict_get d k'.
Proof.
  intros N. induction d as [|[k0 v0] d IH]; simpl.
  - apply key_eqb_neq in N. rewrite N. reflexivity.
  - destruct (key_eqb k0 k) eqn:E; simpl.
    + apply key_eqb_eq in E. subst k0.
      apply key_eqb_neq in N. rewrite N. reflexivity.
    + rewrite IH. reflexivity.
Qed.

Lemma dict_keys_set_nodup (d : dict K V) (k : K) (v : V) :
  NoDup (dict_keys d) -> NoDup (dict_keys (dict_set d k v)).
Proof.
  induction d as [|[k' v'] d IH]; simpl; intros ND.
  - constructor; [simpl; tauto | constructor].
  - inversion ND as [|? ? Nin ND']; subst.
    destruct (key_eqb k' k) eqn:E; simpl.
    + constructor; assumption.
    + constructor; [|apply IH; assumption].
      apply key_eqb_neq in E.
      intros I. apply dict_keys_set_iff in I. destruct I as [I | ->]; contradiction.
Qed.

End DictLaws.

(** ** Laws of the random monad *)

Lemma bind_ok (A B : Type) (m : M A) (k : A -> M B) (g : rng) (b : B) (g2 : rng) :
  bind m k g = Ok (b, g2) <->
  exists a g1, m g = Ok (a, g1) /\ k a g1 = Ok (b, g2).
Proof.
  unfold bind. destruct (m g) as [[a g1]|e].
  - split; [eauto | intros (a' & g1' & E & Hk); inversion E; subst; exact Hk].
  - split; [discriminate | intros (a' & g1' & E & _); discriminate].
Qed.

Lemma ret_ok (A : Type) (a b : A) (g g' : rng) :
  ret a g = Ok (b, g') <-> a = b /\ g = g'.
Proof.
  unfold ret. split; [intros E; inversion E; auto | intros [-> ->]; reflexivity].
Qed.

Lemma lift_ok (A : Type) (r : result A) (a : A) (g g' : rng) :
  lift r g = Ok (a, g') <-> r = Ok a /\ g = g'.
Proof.
  unfold lift. destruct r; split.
  - intros E; inversion E; auto.
  - intros [E ->]; inversion E; reflexivity.
  - discriminate.
  - intros [E _]; discriminate.
Qed.

Ltac inv_bind H :=
  let a := fresh "a" in
  let g := fresh "g" in
  let H1 := fresh H in
  apply bind_ok in H; destruct H as (a & g & H1 & H).

(** ** Key sets of generated candidates *)

Lemma random_genes_keys (s : Schedule.t) (acts : list Activity.t) :
  forall acc g d g',
    ScheduleAssignment.random_genes s acts acc g = Ok (d, g') ->
    NoDup (dict_keys acc ++ map Activity.get_id acts) ->
    dict_keys d = (dict_keys acc ++ map Activity.get_id acts)%list.
Proof.
  induction acts as [|act rest IH]; simpl; intros acc g d g' E ND.
  - apply ret_ok in E. destruct E as [<- _]. rewrite app_nil_r. reflexivity.
  - inv_bind E.
    assert (Nin : ~ In (Activity.get_id act) (dict_keys acc)).
    { intros I. apply NoDup_remove_2 in ND. apply ND. apply in_or_app. auto. }
    apply IH in E.
    + rewrite E, dict_keys_set_new, <- app_assoc by exact Nin. reflexivity.
    + rewrite dict_keys_set_new, <- app_assoc by exact Nin. exact ND.
Qed.

Lemma cross_loop_keys (s : Schedule.t) (a b : ScheduleAssignment.t) (rate : Q)
    (chiasma : Z) (acts : list Activity.t) :
  forall i acc g d g',
    cross_loop s a b rate chiasma i acts acc g = Ok (d, g') ->
    NoDup (dict_keys acc ++ map Activity.get_id acts) ->
    dict_keys d = (dict_keys acc ++ map Activity.get_id acts)%list.
Proof.
  induction acts as [|act rest IH]; simpl; intros i acc g d g' E ND.
  - apply ret_ok in E. destruct E as [<- _]. rewrite app_nil_r. reflexivity.
  - inv_bind E.
    assert (Nin : ~ In (Activity.get_id act) (dict_keys acc)).
    { intros I. apply NoDup_remove_2 in ND. apply ND. apply in_or_app. auto. }
    apply IH in E.
    + rewrite E, dict_keys_set_new, <- app_assoc by exact Nin. reflexivity.
    + rewrite dict_keys_set_new, <- app_assoc by exact Nin. exact ND.
Qed.

(** C1. When the activity identifiers of a schedule are pairwise distinct,
    every candidate returned by [ScheduleAssignment.make_random_assignment]
    and every offspring returned by [cross_schedules] (any parents, any
    mutation rate, any random draws) has exactly the schedule's identifiers
    as keys, each once, in schedule order. *)
Theorem candidate_keys_cover_schedule (s : Schedule.t) :
  NoDup (Schedule.ids s) ->
  (forall g sa g',
      ScheduleAssignment.make_random_assignment s g = Ok (sa, g') ->
      dict_keys (ScheduleAssignment.activities sa) = Schedule.ids s)
  /\ (forall a b rate g child g',
      cross_schedules s a b rate g = Ok (child, g') ->
      dict_keys (ScheduleAssignment.activities child) = Schedule.ids s).
Proof.
  intros ND. split.
  - intros g sa g' E. unfold ScheduleAssignment.make_random_assignment in E.
    inv_bind E. apply ret_ok in E. destruct E as [<- _]. simpl.
    apply random_genes_keys in E0; [exact E0 | exact ND].
  - intros a b rate g child g' E. unfold cross_schedules in E.
    inv_bind E. inv_bind E. apply ret_ok in E. destruct E as [<- _]. simpl.
    apply cross_loop_keys in E1; [exact E1 | exact ND].
Qed.

Lemma candidate_keys_cover_schedule_witness :
  match ScheduleAssignment.make_random_assignment demo_schedule (affine_rng 7 3) with
  | Ok (a, g1) =>
      dict_keys (ScheduleAssignment.activities a) = Schedule.ids demo_schedule
      /\ match cross_schedules demo_schedule a a (1 # 2) g1 with
         | Ok (child, _) =>
             dict_keys (ScheduleAssignment.activities child) = Schedule.ids demo_schedule
         | Err _ => False
         end
  | Err _ => False
  end.
Proof.
  assert (ND : NoDup (Schedule.ids demo_schedule)).
  { vm_compute. repeat constructor; simpl; intuition discriminate. }
  destruct (ScheduleAssignment.make_random_assignment demo_schedule (affine_rng 7 3))
    as [[a g1]|] eqn:Ea; [|vm_compute in Ea; discriminate].
  split.
  - exact (proj1 (candidate_keys_cover_schedule demo_schedule ND) _ _ _ Ea).
  - destruct (cross_schedules demo_schedule a a (1 # 2) g1) as [[child g2]|] eqn:Ec.
    + exact (proj2 (candidate_keys_cover_schedule demo_schedule ND) _ _ _ _ _ _ Ec).
    + vm_compute in Ea. inversion Ea; subst. vm_compute in Ec. discriminate.
Defined.

(** ** The primitives of the [random] module *)

Lemma unit_float_range (z : Z) : (0 <= unit_float z)%Q /\ (unit_float z < 1)%Q.
Proof.
  unfold unit_float, Qle, Qlt; simpl.
  pose proof (Z.mod_pos_bound z (Zpos two53) eq_refl) as [L U].
  split; lia.
Qed.

Lemma coin_not_below_zero (rate u : Q) :
  (rate <= 0)%Q -> (0 <= u)%Q -> Qltb u rate = false.
Proof.
  intros Hr Hu. apply Qltb_ge. eapply Qle_trans; eassumption.
Qed.


Lemma random_eq (g : rng) : random.random g = Ok (coin g 0, py_skip 1 g).
Proof. reflexivity. Qed.

Lemma randint_eq (n : nat) (g : rng) :
  (0 < n)%nat ->
  random.randint 0 (Z.of_nat n - 1) g = Ok (chiasma_at n g, py_skip 1 g).
Proof.
  intros Hn. unfold random.randint.
  destruct (Z.of_nat n - 1 <? 0) eqn:E; [apply Z.ltb_lt in E; lia|].
  unfold bind, py_draw, ret, chiasma_at, py_skip; simpl.
  replace (Z.of_nat n - 1 - 0 + 1) with (Z.of_nat n) by lia.
  reflexivity.
Qed.

Lemma randint_empty (g : rng) : random.randint 0 (Z.of_nat 0 - 1) g = Err ValueError.
Proof. reflexivity. Qed.

Lemma chiasma_at_range (n : nat) (g : rng) :
  (0 < n)%nat -> 0 <= chiasma_at n g <= Z.of_nat n - 1.
Proof.
  intros Hn. unfold chiasma_at.
  pose proof (Z.mod_pos_bound (py_raw g (py_pos g)) (Z.of_nat n)). lia.
Qed.


Lemma py_skip_skip (j k : nat) (g : rng) : py_skip j (py_skip k g) = py_skip (j + k) g.
Proof. unfold py_skip; simpl. f_equal. lia. Qed.

Lemma coin_skip (k j : nat) (g : rng) : coin (py_skip k g) j = coin g (j + k).
Proof. unfold coin, py_skip; simpl. do 2 f_equal. lia. Qed.

Lemma unmutated_tail (n : nat) (rate : Q) (g : rng) :
  unmutated (S n) rate g -> unmutated n rate (py_skip 1 g).
Proof.
  intros H j Hj. rewrite coin_skip. apply H. lia.
Qed.

Lemma unmutated_rate_zero (n : nat) (rate : Q) (g : rng) :
  (rate <= 0)%Q -> unmutated n rate g.
Proof.
  intros Hr j _. apply coin_not_below_zero; [exact Hr|].
  apply unit_float_range.
Qed.

(** ** Crossover without mutation *)

Lemma cross_gene_unmutated s a b rate c i act g :
  Qltb (coin g 0) rate = false ->
  cross_gene s a b rate c i act g =
  lift (dict_index (ScheduleAssignment.activities (if i <? c then a else b))
          (Activity.get_id act)) (py_skip 1 g).
Proof.
  intros H. unfold cross_gene, bind. rewrite random_eq, H.
  destruct (i <? c); reflexivity.
Qed.

Lemma cross_gene_mutated s a b rate c i act g :
  Qltb (coin g 0) rate = true ->
  cross_gene s a b rate c i act g =
  ActivityAssignment.make_random_assignment s act (py_skip 1 g).
Proof.
  intros H. unfold cross_gene, bind. rewrite random_eq, H. reflexivity.
Qed.

Lemma cross_loop_unmutated s a b rate c acts :
  forall i acc g,
    unmutated (List.length acts) rate g ->
    cross_loop s a b rate c i acts acc g =
    match splice_loop a b c i acts acc with
    | Ok d => Ok (d, py_skip (List.length acts) g)
    | Err e => Err e
    end.
Proof.
  induction acts as [|act rest IH]; simpl; intros i acc g H.
  - unfold ret, py_skip. destruct g; reflexivity.
  - unfold bind. rewrite cross_gene_unmutated by (apply H; lia).
    unfold dict_index, lift.
    destruct (dict_get _ (Activity.get_id act)) as [gene|]; simpl; [|reflexivity].
    rewrite IH by (apply unmutated_tail; exact H).
    rewrite py_skip_skip. replace (List.length rest + 1)%nat with (S (List.length rest)) by lia.
    reflexivity.
Qed.

Lemma splice_loop_other a b c acts k :
  forall i acc d,
    splice_loop a b c i acts acc = Ok d ->
    ~ In k (map Activity.get_id acts) ->
    dict_get d k = dict_get acc k.
Proof.
  induction acts as [|act rest IH]; simpl; intros i acc d E N.
  - inversion E; reflexivity.
  - unfold dict_index in E.
    destruct (dict_get _ (Activity.get_id act)) as [gene|]; simpl in E; [|discriminate].
    rewrite (IH _ _ _ E) by tauto.
    apply dict_get_set_other. tauto.
Qed.

Lemma splice_loop_in a b c src acts k :
  forall i acc d,
    splice_loop a b c i acts acc = Ok d ->
    (forall j, i <= j < i + Z.of_nat (List.length acts) ->
               (if j <? c then a else b) = src) ->
    In k (map Activity.get_id acts) ->
    dict_get d k = dict_get (ScheduleAssignment.activities src) k.
Proof.
  induction acts as [|act rest IH]; simpl; intros i acc d E Hsrc I; [contradiction|].
  unfold dict_index in E.
  rewrite (Hsrc i) in E by lia.
  destruct (dict_get _ (Activity.get_id act)) as [gene|] eqn:G; simpl in E; [|discriminate].
  destruct (in_dec string_dec k (map Activity.get_id rest)) as [I'|N'].
  - apply (IH _ _ _ E); [|exact I']. intros j Hj. apply Hsrc. lia.
  - destruct I as [<-|I]; [|contradiction].
    rewrite (splice_loop_other _ _ _ _ _ _ _ _ E N').
    rewrite dict_get_set_same. symmetry. exact G.
Qed.

Lemma splice_loop_app a b c pre post :
  forall i acc,
    splice_loop a b c i (pre ++ post) acc =
    rbind (splice_loop a b c i pre acc)
          (splice_loop a b c (i + Z.of_nat (List.length pre)) post).
Proof.
  induction pre as [|act rest IH]; simpl; intros i acc.
  - rewrite Z.add_0_r. reflexivity.
  - destruct (dict_index _ (Activity.get_id act)) as [gene|]; simpl; [|reflexivity].
    rewrite IH. replace (i + 1 + Z.of_nat (List.length rest))
      with (i + Z.pos (Pos.of_succ_nat (List.length rest))) by lia.
    reflexivity.
Qed.

Lemma splice_loop_last a b c pre act i acc d :
  splice_loop a b c i (pre ++ [act]) acc = Ok d ->
  c <= i + Z.of_nat (List.length pre) ->
  exists gene,
    dict_get (ScheduleAssignment.activities b) (Activity.get_id act) = Some gene
    /\ dict_get d (Activity.get_id act) = Some gene.
Proof.
  intros E Hc. rewrite splice_loop_app in E.
  destruct (splice_loop a b c i pre acc) as [acc'|]; simpl in E; [|discriminate].
  destruct (i + Z.of_nat (List.length pre) <? c) eqn:L; [apply Z.ltb_lt in L; lia|].
  unfold dict_index in E.
  destruct (dict_get _ (Activity.get_id act)) as [gene|] eqn:G; simpl in E; [|discriminate].
  inversion E; subst. exists gene. split; [reflexivity | apply dict_get_set_same].
Qed.

Lemma splice_loop_total a b c acts :
  (forall act, In act acts ->
     In (Activity.get_id act) (dict_keys (ScheduleAssignment.activities a))
     /\ In (Activity.get_id act) (dict_keys (ScheduleAssignment.activities b))) ->
  forall i acc, exists d, splice_loop a b c i acts acc = Ok d.
Proof.
  induction acts as [|act rest IH]; simpl; intros Hin i acc; [eauto|].
  destruct (Hin act (or_introl eq_refl)) as [Ia Ib].
  assert (G : exists gene,
             dict_get (ScheduleAssignment.activities (if i <? c then a else b))
               (Activity.get_id act) = Some gene).
  { destruct (i <? c); apply dict_get_in; assumption. }
  destruct G as [gene G]. unfold dict_index. rewrite G. simpl.
  apply IH. intros act' I'. apply Hin. right. exact I'.
Qed.




(** ** Crossover when every gene mutates *)

Lemma choice_eq (A : Type) (seq : list A) (g : rng) :
  random.choice seq g =
  match pick seq (py_raw g (py_pos g)) with
  | Ok x => Ok (x, py_skip 1 g)
  | Err e => Err e
  end.
Proof. destruct seq; reflexivity. Qed.

Lemma make_random_assignment_eq s act g :
  ActivityAssignment.make_random_assignment s act g =
  match gene_of s act (py_raw g (py_pos g)) (py_raw g (1 + py_pos g))
          (py_raw g (2 + py_pos g)) with
  | Ok gene => Ok (gene, py_skip 3 g)
  | Err e => Err e
  end.
Proof.
  unfold ActivityAssignment.make_random_assignment, gene_of, bind.
  rewrite choice_eq.
  destruct (pick (Schedule.facilitators s) _) as [f|]; simpl; [|reflexivity].
  rewrite choice_eq. simpl.
  destruct (pick (Schedule.rooms s) _) as [r|]; simpl; [|reflexivity].
  rewrite choice_eq. simpl.
  destruct (pick (Schedule.times s) _) as [tm|]; simpl; reflexivity.
Qed.




Lemma cross_schedules_eq s a b rate g :
  (0 < List.length (Schedule.activities s))%nat ->
  cross_schedules s a b rate g =
  bind (cross_loop s a b rate (chiasma_at (List.length (Schedule.activities s)) g) 0
          (Schedule.activities s) [])
       (fun d => ret (ScheduleAssignment.mk (ScheduleAssignment.schedule a) d))
       (py_skip 1 g).
Proof.
  intros Hn. unfold cross_schedules. unfold bind at 1.
  rewrite (randint_eq _ g Hn). reflexivity.
Qed.

Lemma cross_schedules_unmutated s a b rate g :
  (0 < List.length (Schedule.activities s))%nat ->
  unmutated (List.length (Schedule.activities s)) rate (py_skip 1 g) ->
  cross_schedules s a b rate g =
  match splice_loop a b (chiasma_at (List.length (Schedule.activities s)) g) 0
          (Schedule.activities s) [] with
  | Ok d => Ok (ScheduleAssignment.mk (ScheduleAssignment.schedule a) d,
                py_skip (S (List.length (Schedule.activities s))) g)
  | Err e => Err e
  end.
Proof.
  intros Hn Hu. rewrite cross_schedules_eq by exact Hn.
  unfold bind. rewrite cross_loop_unmutated by exact Hu.
  destruct (splice_loop a b _ 0 _ _) as [d|e]; [|reflexivity].
  unfold ret. rewrite py_skip_skip.
  replace (List.length (Schedule.activities s) + 1)%nat
    with (S (List.length (Schedule.activities s))) by lia.
  reflexivity.
Qed.
















(** C10. In a [cross_schedules] call whose genes all skip the mutation
    branch, the offspring's gene for the last activity is parent B's gene,
    and when the drawn crossover point is 0 the offspring's gene for every
    activity is parent B's.  Gene by gene, also when other genes mutate: a
    gene that skips the mutation branch at an index not below the crossover
    point (the last index always, every index when the point is 0) is read
    from parent B. *)
Theorem last_gene_from_parent_b (s : Schedule.t) (a b : ScheduleAssignment.t)
    (rate : Q) (g : rng) :
  let acts := Schedule.activities s in
  let n := List.length acts in
  (forall child g',
      cross_schedules s a b rate g = Ok (child, g') ->
      unmutated n rate (py_skip 1 g) ->
      (forall pre act, acts = (pre ++ [act])%list ->
         exists gene,
           dict_get (ScheduleAssignment.activities b) (Activity.get_id act) = Some gene
           /\ dict_get (ScheduleAssignment.activities child) (Activity.get_id act)
              = Some gene)
      /\ (chiasma_at n g = 0 ->
          forall act, In act acts ->
            dict_get (ScheduleAssignment.activities child) (Activity.get_id act)
            = dict_get (ScheduleAssignment.activities b) (Activity.get_id act)))
  /\ (forall c i act g1,
        Qltb (coin g1 0) rate = false ->
        c <= i ->
        cross_gene s a b rate c i act g1 =
        lift (dict_index (ScheduleAssignment.activities b) (Activity.get_id act))
             (py_skip 1 g1))
  /\ ((0 < n)%nat -> chiasma_at n g <= Z.of_nat n - 1).
Proof.
  intros acts n. subst n acts. split; [|split].
  - intros child g' E Hu.
    destruct (Nat.eq_dec (List.length (Schedule.activities s)) 0) as [Hz|Hz].
    { unfold cross_schedules in E. rewrite Hz in E. discriminate. }
    assert (Hn : (0 < List.length (Schedule.activities s))%nat) by lia.
    rewrite cross_schedules_unmutated in E by assumption.
    destruct (splice_loop a b _ 0 (Schedule.activities s) []) as [d|e] eqn:Hs;
      [|discriminate].
    inversion E; subst child g'. simpl. split.
    + intros pre act Hacts.
      pose proof (chiasma_at_range (List.length (Schedule.activities s)) g Hn) as R.
      assert (L : List.length (Schedule.activities s) = Datatypes.S (List.length pre)).
      { rewrite Hacts, length_app. simpl. lia. }
      remember (chiasma_at (List.length (Schedule.activities s)) g) as c0 eqn:Hc0.
      rewrite Hacts in Hs.
      apply (splice_loop_last a b c0 pre act 0 [] d Hs). lia.
    + intros Hc act I. rewrite Hc in Hs.
      apply (splice_loop_in a b 0 b (Schedule.activities s) _ 0 [] d Hs).
      * intros j Hj. destruct (j <? 0) eqn:L; [apply Z.ltb_lt in L; lia | reflexivity].
      * apply in_map. exact I.
  - intros c i act g1 Hcoin Hci.
    rewrite cross_gene_unmutated by exact Hcoin.
    destruct (i <? c) eqn:L; [apply Z.ltb_lt in L; lia | reflexivity].
  - intros Hn. apply chiasma_at_range. exact Hn.
Qed.

Lemma last_gene_from_parent_b_witness :
  match cross_schedules demo_schedule demo_parent_a demo_parent_b 0 (affine_rng 7 3) with
  | Ok (child, _) =>
      exists gene,
        dict_get (ScheduleAssignment.activities demo_parent_b) "SLA191B"%string = Some gene
        /\ dict_get (ScheduleAssignment.activities child) "SLA191B"%string = Some gene
  | Err _ => False
  end.
Proof.
  destruct (cross_schedules demo_schedule demo_parent_a demo_parent_b 0 (affine_rng 7 3))
    as [[child g']|e] eqn:E; [|vm_compute in E; discriminate].
  assert (Hu : unmutated (List.length (Schedule.activities demo_schedule)) 0
                 (py_skip 1 (affine_rng 7 3))).
  { apply unmutated_rate_zero. apply Qle_refl. }
  exact (proj1 (proj1 (last_gene_from_parent_b demo_schedule demo_parent_a
                         demo_parent_b 0 (affine_rng 7 3)) child g' E Hu)
           [sla 101 "A" 50; sla 101 "B" 50; sla 191 "A" 50] (sla 191 "B" 50) eq_refl).
Defined.

(** ** Counters *)

Section CounterLaws.
Context {K : Type} `{KeyLaws K}.

Lemma occurs_cons (k x : K) (ks : list K) :
  occurs k (x :: ks) = (if key_eqb k x then 1 else 0) + occurs k ks.
Proof.
  unfold occurs. cbn [filter].
  destruct (key_eqb k x); cbn [List.length]; [rewrite Nat2Z.inj_succ|]; lia.
Qed.

Lemma occurs_nonneg (k : K) (ks : list K) : 0 <= occurs k ks.
Proof. unfold occurs. lia. Qed.

Lemma occurs_zero (k : K) (ks : list K) : occurs k ks = 0 <-> ~ In k ks.
Proof.
  induction ks as [|x ks IH].
  - simpl. unfold occurs; simpl. tauto.
  - rewrite occurs_cons. pose proof (occurs_nonneg k ks) as P. cbn [In].
    destruct (key_eqb k x) eqn:E.
    + apply key_eqb_eq in E. subst.
      split; [intros F; exfalso; lia | intros N; exfalso; auto].
    + apply key_eqb_neq in E. rewrite Z.add_0_l, IH.
      split; [intros N [F|F]; [congruence | contradiction] | tauto].
Qed.

Lemma counter_incr_get_same (c : dict K Z) (k : K) :
  dict_get (counter_incr c k) k = Some (dict_get_default c k 0 + 1).
Proof. unfold counter_incr. apply dict_get_set_same. Qed.

Lemma counter_incr_get_other (c : dict K Z) (k k' : K) :
  k <> k' -> dict_get (counter_incr c k) k' = dict_get c k'.
Proof. intros N. unfold counter_incr. apply dict_get_set_other. exact N. Qed.

Lemma counter_fold_get (ks : list K) :
  forall (c : dict K Z) (k : K),
    dict_get (fold_left counter_incr ks c) k =
    if occurs k ks =? 0 then dict_get c k
    else Some (dict_get_default c k 0 + occurs k ks).
Proof.
  induction ks as [|x ks IH]; intros c k.
  - reflexivity.
  - simpl fold_left. rewrite IH, occurs_cons.
    pose proof (occurs_nonneg k ks) as P.
    destruct (key_eqb k x) eqn:E.
    + apply key_eqb_eq in E. subst x.
      unfold dict_get_default at 1. rewrite counter_incr_get_same.
      destruct (Z.eqb_spec (occurs k ks) 0) as [Z0|Z0];
        destruct (Z.eqb_spec (1 + occurs k ks) 0) as [F|F]; try lia;
        f_equal; lia.
    + apply key_eqb_neq in E.
      unfold dict_get_default at 1.
      rewrite counter_incr_get_other by congruence.
      rewrite Z.add_0_l. reflexivity.
Qed.

Lemma counter_fold_nodup (ks : list K) :
  forall c : dict K Z, NoDup (dict_keys c) -> NoDup (dict_keys (fold_left counter_incr ks c)).
Proof.
  induction ks as [|x ks IH]; intros c ND; simpl; [exact ND|].
  apply IH. unfold counter_incr. apply dict_keys_set_nodup. exact ND.
Qed.

Lemma counter_fold_keys (ks : list K) :
  forall (c : dict K Z) (k : K),
    In k (dict_keys (fold_left counter_incr ks c)) <-> In k (dict_keys c) \/ In k ks.
Proof.
  induction ks as [|x ks IH]; intros c k; simpl; [tauto|].
  rewrite IH. unfold counter_incr. rewrite dict_keys_set_iff.
  intuition congruence.
Qed.

Lemma dict_get_head_nodup (V : Type) (d : dict K V) (k : K) (v : V) :
  dict_get ((k, v) :: d) k = Some v.
Proof. simpl. rewrite key_eqb_refl. reflexivity. Qed.

Lemma dict_values_by_key (V : Type) (f : K -> V) (d : dict K V) :
  NoDup (dict_keys d) ->
  (forall k v, dict_get d k = Some v -> f k = v) ->
  dict_values d = map f (dict_keys d).
Proof.
  induction d as [|[k v] d IH]; simpl; intros ND Hf; [reflexivity|].
  inversion ND as [|? ? Nin ND']; subst.
  f_equal.
  - symmetry. apply Hf. rewrite key_eqb_refl. reflexivity.
  - apply IH; [exact ND'|].
    intros k' v' G. apply Hf.
    destruct (key_eqb k k') eqn:E; [|exact G].
    apply key_eqb_eq in E. subst k'.
    apply dict_get_some_in in G. contradiction.
Qed.

Lemma dict_items_by_key (V : Type) (f : K -> V) (d : dict K V) :
  NoDup (dict_keys d) ->
  (forall k v, dict_get d k = Some v -> f k = v) ->
  d = map (fun k => (k, f k)) (dict_keys d).
Proof.
  induction d as [|[k v] d IH]; simpl; intros ND Hf; [reflexivity|].
  inversion ND as [|? ? Nin ND']; subst.
  f_equal.
  - f_equal. symmetry. apply Hf. rewrite key_eqb_refl. reflexivity.
  - apply IH; [exact ND'|].
    intros k' v' G. apply Hf.
    destruct (key_eqb k k') eqn:E; [|exact G].
    apply key_eqb_eq in E. subst k'.
    apply dict_get_some_in in G. contradiction.
Qed.

End CounterLaws.

(** ** The counters built by the activity loop *)

Lemma activity_loop_counters (gs : list ActivityAssignment.t) :
  forall st st',
    activity_loop st gs = Ok st' ->
    room_time_load st' = fold_left counter_incr (map room_time_key gs) (room_time_load st)
    /\ facilitator_load st'
       = fold_left counter_incr (map ActivityAssignment.facilitator gs) (facilitator_load st)
    /\ facilitator_time_load st'
       = fold_left counter_incr
           (map (fun g => (ActivityAssignment.facilitator g, ActivityAssignment.time g)) gs)
           (facilitator_time_load st).
Proof.
  induction gs as [|g0 gs IH]; simpl; intros st st' E.
  - inversion E; subst. auto.
  - destruct (activity_step st g0) as [st1|e] eqn:S1; simpl in E; [|discriminate].
    destruct (IH _ _ E) as (R1 & R2 & R3).
    unfold activity_step in S1.
    destruct (dict_index building_clusters _) as [cluster|]; simpl in S1; [|discriminate].
    destruct (true_div _ _) as [ratio|]; simpl in S1; [|discriminate].
    inversion S1; subst st1. simpl in R1, R2, R3. auto.
Qed.

Lemma get_fitness_stages (sa : ScheduleAssignment.t) :
  get_fitness sa = rbind (activity_loop tally0 (genes sa)) (after_activity_loop sa).
Proof. reflexivity. Qed.

Lemma room_time_load_get sa st p :
  activity_loop tally0 (genes sa) = Ok st ->
  dict_get (room_time_load st) p =
  if group_size sa p =? 0 then None else Some (group_size sa p).
Proof.
  intros E. destruct (activity_loop_counters _ _ _ E) as (R & _ & _).
  rewrite R, counter_fold_get. reflexivity.
Qed.

Lemma facilitator_load_get sa st f :
  activity_loop tally0 (genes sa) = Ok st ->
  dict_get (facilitator_load st) f =
  if load_of sa f =? 0 then None else Some (load_of sa f).
Proof.
  intros E. destruct (activity_loop_counters _ _ _ E) as (_ & R & _).
  rewrite R, counter_fold_get. reflexivity.
Qed.

(** ** The two load rules as sums of penalties *)

Lemma Qsum_cons (x : Q) (l : list Q) : Qsum (x :: l) = (x + Qsum l)%Q.
Proof. reflexivity. Qed.

Lemma penalize_room_time_sum (loads : dict (Room.t * Z) Z) (fitness : Q) :
  (penalize_room_time loads fitness
   == fitness - Qsum (map conflict_penalty (dict_values loads)))%Q.
Proof.
  unfold penalize_room_time. revert fitness.
  induction (dict_values loads) as [|v vs IH]; intros fitness; cbn [fold_left map].
  - unfold Qsum; simpl. ring.
  - rewrite IH, Qsum_cons. unfold room_time_step, conflict_penalty.
    destruct (2 <=? v); ring.
Qed.

Lemma facilitator_load_step_penalty (fitness : Q) (facilitator : string) (load : Z) :
  (facilitator_load_step fitness (facilitator, load)
   == fitness - facilitator_load_penalty facilitator load)%Q.
Proof.
  unfold facilitator_load_step, facilitator_load_penalty, exempt_facilitator.
  destruct (String.eqb facilitator "Tyler");
    destruct (Z.eqb_spec load 1) as [E1|E1];
    destruct (Z.eqb_spec load 2) as [E2|E2];
    destruct (Z.ltb_spec load 2) as [L2|L2];
    destruct (Z.ltb_spec 4 load) as [L4|L4];
    cbn [andb orb]; try (exfalso; lia); ring.
Qed.

Lemma penalize_facilitator_load_sum (loads : dict string Z) (fitness : Q) :
  (penalize_facilitator_load loads fitness
   == fitness
      - Qsum (map (fun item => facilitator_load_penalty (fst item) (snd item)) loads))%Q.
Proof.
  unfold penalize_facilitator_load. revert fitness.
  induction loads as [|[f load] loads IH]; intros fitness; cbn [fold_left map].
  - unfold Qsum; simpl. ring.
  - rewrite IH, facilitator_load_step_penalty, Qsum_cons. cbn [fst snd]. ring.
Qed.

Lemma counter_of_list (K : Type) `{KeyLaws K} (ks : list K) :
  let c := fold_left counter_incr ks [] in
  NoDup (dict_keys c)
  /\ (forall k, In k (dict_keys c) <-> 1 <= occurs k ks)
  /\ (forall k, In k (dict_keys c) -> dict_get c k = Some (occurs k ks))
  /\ c = map (fun k => (k, occurs k ks)) (dict_keys c).
Proof.
  intros c.
  assert (ND : NoDup (dict_keys c)) by (apply counter_fold_nodup; constructor).
  assert (Hin : forall k, In k (dict_keys c) <-> 1 <= occurs k ks).
  { intros k. unfold c. rewrite counter_fold_keys. simpl.
    pose proof (occurs_nonneg k ks) as P. pose proof (occurs_zero k ks) as Z0.
    split.
    - intros [[]|I]. destruct (Z.eq_dec (occurs k ks) 0) as [E|E]; [|lia].
      apply Z0 in E. contradiction.
    - intros L. right.
      destruct (in_dec (fun x y => match key_eqb x y as b
          return (key_eqb x y = b -> {x = y} + {x <> y}) with
        | true => fun e => left (proj1 (key_eqb_eq x y) e)
        | false => fun e => right (proj1 (key_eqb_neq x y) e)
        end eq_refl) k ks) as [I|N]; [exact I|].
      apply Z0 in N. lia. }
  assert (Hget : forall k v, dict_get c k = Some v -> occurs k ks = v).
  { intros k v G. unfold c in G. rewrite counter_fold_get in G. simpl in G.
    destruct (occurs k ks =? 0); [discriminate|]. inversion G. lia. }
  repeat split; try assumption; try apply Hin.
  - intros k I. destruct (dict_get_in c k I) as [v G].
    rewrite G. f_equal. symmetry. apply Hget. exact G.
  - apply dict_items_by_key; assumption.
Qed.

(** C4. In [get_fitness] the room/time rule runs over a counter that holds,
    for every room and time used by the candidate, the number [k] of genes
    placed there; it lowers the fitness by the sum over those groups of
    [0.5 * k] when [k >= 2] and of nothing when [k = 1], so a group of three
    costs 1.5. *)
Theorem room_time_conflict_rule (sa : ScheduleAssignment.t) (st : tally) :
  activity_loop tally0 (genes sa) = Ok st ->
  get_fitness sa = after_activity_loop sa st
  /\ NoDup (dict_keys (room_time_load st))
  /\ (forall p, In p (dict_keys (room_time_load st)) <-> 1 <= group_size sa p)
  /\ (forall p, In p (dict_keys (room_time_load st)) ->
                dict_get (room_time_load st) p = Some (group_size sa p))
  /\ (forall fitness,
        penalize_room_time (room_time_load st) fitness
        == fitness
           - Qsum (map (fun p => conflict_penalty (group_size sa p))
                     (dict_keys (room_time_load st))))%Q
  /\ (forall k : Z, 2 <= k -> (conflict_penalty k == (1 # 2) * inject_Z k)%Q)
  /\ (conflict_penalty 1 == 0)%Q
  /\ (conflict_penalty 3 == 3 # 2)%Q.
Proof.
  intros E.
  destruct (activity_loop_counters _ _ _ E) as (R & _ & _). simpl in R.
  destruct (counter_of_list _ (map room_time_key (genes sa))) as (ND & Hin & Hget & Hitems).
  rewrite <- R in ND, Hin, Hget, Hitems.
  split; [rewrite get_fitness_stages, E; reflexivity|].
  split; [exact ND|]. split; [exact Hin|]. split; [exact Hget|].
  split; [|split; [|split]].
  - intros fitness. rewrite penalize_room_time_sum.
    assert (V : dict_values (room_time_load st)
                = map (fun p => group_size sa p) (dict_keys (room_time_load st))).
    { rewrite Hitems at 1. unfold dict_values. rewrite map_map. reflexivity. }
    rewrite V, map_map. reflexivity.
  - intros k Hk. unfold conflict_penalty.
    destruct (Z.leb_spec 2 k); [reflexivity | lia].
  - reflexivity.
  - reflexivity.
Qed.

Lemma room_time_conflict_rule_witness :
  match activity_loop tally0 (genes demo_crowded) with
  | Ok st =>
      (penalize_room_time (room_time_load st) 0
       == 0 - Qsum (map (fun p => conflict_penalty (group_size demo_crowded p))
                      (dict_keys (room_time_load st))))%Q
      /\ (penalize_room_time (room_time_load st) 0 == - (3 # 2))%Q
  | Err _ => False
  end.
Proof.
  destruct (activity_loop tally0 (genes demo_crowded)) as [st|e] eqn:E;
    [|vm_compute in E; discriminate].
  split.
  - exact (proj1 (proj2 (proj2 (proj2 (proj2
             (room_time_conflict_rule demo_crowded st E))))) 0%Q).
  - vm_compute in E. inversion E; subst st. vm_compute. reflexivity.
Defined.

(** C5. In [get_fitness] the facilitator-load rule runs over a counter that
    holds, for every facilitator appearing in the candidate, the number of
    genes given to that facilitator; it lowers the fitness by the sum over
    those facilitators of 0.4 for a load of 1 or 2, 0.5 for a load above 4
    and nothing for 3 or 4.  The entry of the exempt facilitator is skipped
    exactly when its load is below 2: with load 1 it costs nothing, with
    load 2 it costs 0.4 like everyone else. *)
Theorem facilitator_load_rule (sa : ScheduleAssignment.t) (st : tally) :
  activity_loop tally0 (genes sa) = Ok st ->
  get_fitness sa = after_activity_loop sa st
  /\ NoDup (dict_keys (facilitator_load st))
  /\ (forall f, In f (dict_keys (facilitator_load st)) <-> 1 <= load_of sa f)
  /\ (forall f, In f (dict_keys (facilitator_load st)) ->
                dict_get (facilitator_load st) f = Some (load_of sa f))
  /\ (forall fitness,
        penalize_facilitator_load (facilitator_load st) fitness
        == fitness
           - Qsum (map (fun f => facilitator_load_penalty f (load_of sa f))
                     (dict_keys (facilitator_load st))))%Q
  /\ (forall f, f <> "Tyler"%string -> facilitator_load_penalty f 1 = (2 # 5)%Q)
  /\ (forall f, facilitator_load_penalty f 2 = (2 # 5)%Q)
  /\ (forall f, facilitator_load_penalty f 3 = 0%Q /\ facilitator_load_penalty f 4 = 0%Q)
  /\ (forall f load, 4 < load -> facilitator_load_penalty f load = (1 # 2)%Q)
  /\ facilitator_load_penalty "Tyler" 1 = 0%Q
  /\ (forall fitness load,
        facilitator_load_step fitness ("Tyler"%string, load) =
        if load <? 2 then fitness
        else if load =? 2 then (fitness - (2 # 5))%Q
        else if 4 <? load then (fitness - (1 # 2))%Q
        else fitness).
Proof.
  intros E.
  destruct (activity_loop_counters _ _ _ E) as (_ & R & _). simpl in R.
  destruct (counter_of_list _ (map ActivityAssignment.facilitator (genes sa)))
    as (ND & Hin & Hget & Hitems).
  rewrite <- R in ND, Hin, Hget, Hitems.
  split; [rewrite get_fitness_stages, E; reflexivity|].
  split; [exact ND|]. split; [exact Hin|]. split; [exact Hget|].
  split; [|split; [|split; [|split; [|split; [|split]]]]].
  - intros fitness. rewrite penalize_facilitator_load_sum.
    rewrite Hitems at 1. rewrite map_map. reflexivity.
  - intros f Hf. unfold facilitator_load_penalty, exempt_facilitator. simpl.
    destruct (String.eqb_spec f "Tyler"); [contradiction | reflexivity].
  - intros f. reflexivity.
  - intros f. split; reflexivity.
  - intros f load Hl. unfold facilitator_load_penalty.
    destruct (Z.eqb_spec load 1); [lia|].
    destruct (Z.eqb_spec load 2); [lia|].
    destruct (Z.ltb_spec 4 load); [reflexivity | lia].
  - reflexivity.
  - intros fitness load. unfold facilitator_load_step.
    change (String.eqb "Tyler" "Tyler") with true. cbn [andb].
    destruct (Z.ltb_spec load 2) as [L|L]; [reflexivity|].
    destruct (Z.eqb_spec load 1) as [E1|E1]; [lia|].
    destruct (Z.eqb_spec load 2) as [E2|E2]; reflexivity.
Qed.

Lemma facilitator_load_rule_witness :
  match activity_loop tally0 (genes demo_crowded) with
  | Ok st =>
      dict_get (facilitator_load st) "Tyler"%string = Some 1
      /\ (penalize_facilitator_load (facilitator_load st) 0
          == 0 - Qsum (map (fun f => facilitator_load_penalty f (load_of demo_crowded f))
                         (dict_keys (facilitator_load st))))%Q
      /\ (penalize_facilitator_load (facilitator_load st) 0 == 0)%Q
      /\ (penalize_facilitator_load
            (fold_left counter_incr ["Glen"%string; "Tyler"%string; "Tyler"%string] [])
            0 == - (4 # 5))%Q
  | Err _ => False
  end.
Proof.
  destruct (activity_loop tally0 (genes demo_crowded)) as [st|e] eqn:E;
    [|vm_compute in E; discriminate].
  split; [|split; [|split]].
  - vm_compute in E. inversion E; subst st. reflexivity.
  - exact (proj1 (proj2 (proj2 (proj2 (proj2
             (facilitator_load_rule demo_crowded st E))))) 0%Q).
  - vm_compute in E. inversion E; subst st. vm_compute. reflexivity.
  - vm_compute. reflexivity.
Defined.

(** ** Sampling without replacement *)

Lemma Qsum_nonneg (p : list Q) : all_nonneg p -> (0 <= Qsum p)%Q.
Proof.
  induction p as [|w p IH]; intros H.
  - apply Qle_refl.
  - rewrite Qsum_cons.
    assert (0 <= w)%Q by (apply H; left; reflexivity).
    assert (0 <= Qsum p)%Q by (apply IH; intros x I; apply H; right; exact I).
    lra.
Qed.

Lemma all_nonneg_tail (w : Q) (p : list Q) : all_nonneg (w :: p) -> all_nonneg p.
Proof. intros H x I. apply H. right. exact I. Qed.

Lemma count_positive_cons (w : Q) (p : list Q) :
  numpy.count_positive (w :: p) =
  ((if Qltb 0 w then 1 else 0) + numpy.count_positive p)%nat.
Proof.
  unfold numpy.count_positive. cbn [filter]. destruct (Qltb 0 w); reflexivity.
Qed.

Lemma Qsum_positive (p : list Q) :
  all_nonneg p -> (0 < numpy.count_positive p)%nat -> (0 < Qsum p)%Q.
Proof.
  induction p as [|w p IH]; intros H C.
  - unfold numpy.count_positive in C. simpl in C. lia.
  - rewrite Qsum_cons. rewrite count_positive_cons in C.
    assert (Hw : (0 <= w)%Q) by (apply H; left; reflexivity).
    pose proof (Qsum_nonneg p (all_nonneg_tail _ _ H)) as Hp.
    destruct (Qltb 0 w) eqn:E.
    + apply Qltb_lt in E. lra.
    + assert (0 < Qsum p)%Q by (apply IH; [exact (all_nonneg_tail _ _ H) | lia]). lra.
Qed.

Lemma searchsorted_hits (p : list Q) :
  forall x,
    all_nonneg p -> (0 <= x)%Q -> (x < Qsum p)%Q ->
    (numpy.searchsorted p x < List.length p)%nat
    /\ (0 < nth (numpy.searchsorted p x) p 0)%Q.
Proof.
  induction p as [|w p IH]; intros x H Hx Hs.
  - unfold Qsum in Hs. simpl in Hs. lra.
  - rewrite Qsum_cons in Hs. cbn [numpy.searchsorted].
    destruct (Qltb x w) eqn:E.
    + apply Qltb_lt in E. simpl. split; [lia | lra].
    + apply Qltb_ge in E.
      destruct (IH (x - w)%Q (all_nonneg_tail _ _ H)) as [L P]; [lra | lra |].
      simpl. split; [lia | exact P].
Qed.

Lemma zero_at_length (i : nat) (p : list Q) :
  List.length (numpy.zero_at i p) = List.length p.
Proof.
  revert i. induction p as [|w p IH]; intros [|i]; simpl; auto.
Qed.

Lemma zero_at_same (i : nat) (p : list Q) :
  (i < List.length p)%nat -> nth i (numpy.zero_at i p) 0%Q = 0%Q.
Proof.
  revert i. induction p as [|w p IH]; intros [|i] L; simpl in *; try lia; auto.
  apply IH. lia.
Qed.

Lemma zero_at_other (i j : nat) (p : list Q) :
  i <> j -> nth j (numpy.zero_at i p) 0%Q = nth j p 0%Q.
Proof.
  revert i j. induction p as [|w p IH]; intros [|i] [|j] N; simpl; auto; try congruence.
Qed.

Lemma zero_at_nonneg (i : nat) (p : list Q) :
  all_nonneg p -> all_nonneg (numpy.zero_at i p).
Proof.
  revert i. induction p as [|w p IH]; intros [|i] H x I; simpl in I; try contradiction.
  - destruct I as [<-|I]; [apply Qle_refl | apply H; right; exact I].
  - destruct I as [<-|I]; [apply H; left; reflexivity|].
    apply (IH i (all_nonneg_tail _ _ H)). exact I.
Qed.

Lemma zero_at_count (i : nat) (p : list Q) :
  (i < List.length p)%nat -> (0 < nth i p 0)%Q ->
  numpy.count_positive p = S (numpy.count_positive (numpy.zero_at i p)).
Proof.
  revert i. induction p as [|w p IH]; intros [|i] L P; simpl in L; try lia.
  - simpl in P. cbn [numpy.zero_at]. rewrite !count_positive_cons.
    apply Qltb_lt in P. rewrite P. reflexivity.
  - simpl in P. cbn [numpy.zero_at]. rewrite !count_positive_cons.
    rewrite (IH i) by (try lia; exact P). lia.
Qed.

Lemma rand_eq (g : rng) :
  numpy.rand g = Ok (unit_float (np_raw g (np_pos g)),
                     mkRng (py_raw g) (py_pos g) (np_raw g) (S (np_pos g))).
Proof. reflexivity. Qed.

Lemma sample_spec (size : nat) :
  forall p g,
    all_nonneg p -> (size <= numpy.count_positive p)%nat ->
    exists idx g',
      numpy.sample size p g = Ok (idx, g')
      /\ List.length idx = size
      /\ NoDup idx
      /\ Forall (fun i => (i < List.length p)%nat /\ (0 < nth i p 0)%Q) idx.
Proof.
  induction size as [|size IH]; intros p g H C.
  - exists [], g. repeat split; constructor.
  - cbn [numpy.sample]. unfold bind. rewrite rand_eq.
    set (u := unit_float (np_raw g (np_pos g))).
    set (g1 := mkRng (py_raw g) (py_pos g) (np_raw g) (S (np_pos g))).
    destruct (unit_float_range (np_raw g (np_pos g))) as [U0 U1]. fold u in U0, U1.
    assert (Sp : (0 < Qsum p)%Q) by (apply Qsum_positive; [exact H | lia]).
    destruct (searchsorted_hits p (u * Qsum p)%Q H) as [L P].
    { apply Qmult_le_0_compat; [exact U0 | lra]. }
    { setoid_replace (Qsum p) with (1 * Qsum p)%Q at 2 by ring.
      apply Qmult_lt_r; assumption. }
    set (i := numpy.searchsorted p (u * Qsum p)%Q) in *.
    destruct (IH (numpy.zero_at i p) g1 (zero_at_nonneg i p H)) as (idx & g' & E & Len & ND & F).
    { rewrite (zero_at_count i p L P) in C. lia. }
    exists (i :: idx), g'. rewrite E. unfold ret.
    split; [reflexivity|]. split; [simpl; lia|].
    assert (Fi : Forall (fun j => j <> i /\ (j < List.length p)%nat /\ (0 < nth j p 0)%Q) idx).
    { apply Forall_forall. intros j I.
      rewrite Forall_forall in F. destruct (F j I) as [Lj Pj].
      rewrite zero_at_length in Lj.
      destruct (Nat.eq_dec j i) as [->|N].
      - rewrite zero_at_same in Pj by exact L. lra.
      - rewrite zero_at_other in Pj by congruence. auto. }
    split.
    + constructor; [|exact ND].
      intros I. rewrite Forall_forall in Fi. destruct (Fi i I) as [N _]. congruence.
    + constructor; [auto|].
      apply Forall_forall. intros j I. rewrite Forall_forall in Fi.
      destruct (Fi j I) as (_ & Lj & Pj). auto.
Qed.

Lemma choice_indices_too_large (n size : nat) (p : option (list Q)) (g : rng) :
  (n < size)%nat -> numpy.choice_indices n size p g = Err ValueError.
Proof.
  intros L. unfold numpy.choice_indices.
  destruct (n =? 0)%nat; [reflexivity|].
  destruct (negb _); [reflexivity|].
  destruct (existsb _ _); [reflexivity|].
  destruct (negb _); [reflexivity|].
  destruct (Nat.ltb_spec n size); [reflexivity | lia].
Qed.

Lemma existsb_negative_false (w : list Q) :
  existsb (fun x => Qltb x 0) w = false -> all_nonneg w.
Proof.
  intros E x I. apply Qltb_ge.
  destruct (Qltb x 0) eqn:F; [|reflexivity].
  assert (existsb (fun x => Qltb x 0) w = true) by (apply existsb_exists; eauto).
  congruence.
Qed.

Lemma choice_indices_spec (n size : nat) (p : option (list Q)) (g : rng)
    (idx : list nat) (g' : rng) :
  numpy.choice_indices n size p g = Ok (idx, g') ->
  (size <= n)%nat /\ List.length idx = size /\ NoDup idx
  /\ Forall (fun i => (i < n)%nat) idx
  /\ Forall (fun i => (0 < nth i (match p with Some w => w | None => numpy.uniform n end) 0)%Q)
       idx.
Proof.
  unfold numpy.choice_indices.
  set (w := match p with Some w => w | None => numpy.uniform n end).
  destruct (n =? 0)%nat; [discriminate|].
  destruct (Nat.eqb_spec (List.length w) n) as [Lw|Lw]; simpl; [|discriminate].
  destruct (existsb (fun x => Qltb x 0) w) eqn:Neg; [discriminate|].
  destruct (negb (Qeq_bool (Qsum w) 1)); [discriminate|].
  destruct (Nat.ltb_spec n size) as [L1|L1]; [discriminate|].
  destruct (Nat.ltb_spec (numpy.count_positive w) size) as [L2|L2]; [discriminate|].
  intros E.
  destruct (sample_spec size w g (existsb_negative_false w Neg) L2)
    as (idx0 & g0 & E0 & Len & ND & F).
  rewrite E0 in E. inversion E; subst idx0 g0.
  repeat split; try assumption.
  - eapply Forall_impl; [|exact F]. intros i [Li _]. lia.
  - eapply Forall_impl; [|exact F]. intros i [_ Pi]. exact Pi.
Qed.

Lemma take_indices_in_range (A : Type) (a : list A) (d : A) (idx : list nat) :
  Forall (fun i => (i < List.length a)%nat) idx ->
  numpy.take_indices a idx = map (fun i => nth i a d) idx.
Proof.
  induction idx as [|i idx IH]; intros F; simpl; [reflexivity|].
  inversion F as [|? ? Li F']; subst.
  destruct (nth_error a i) as [x|] eqn:E.
  - rewrite (nth_error_nth a i d E). f_equal. apply IH. exact F'.
  - apply nth_error_None in E. lia.
Qed.

Lemma take_indices_nodup (A : Type) (a : list A) (idx : list nat) :
  NoDup a -> NoDup idx -> Forall (fun i => (i < List.length a)%nat) idx ->
  NoDup (numpy.take_indices a idx).
Proof.
  intros NDa. induction idx as [|i idx IH]; intros ND F; simpl; [constructor|].
  inversion ND as [|? ? Nin ND']; subst.
  inversion F as [|? ? Li F']; subst.
  destruct (nth_error a i) as [x|] eqn:E; [|apply IH; assumption].
  constructor; [|apply IH; assumption].
  intros I. destruct a as [|d a']; [simpl in Li; lia|].
  rewrite (take_indices_in_range _ (d :: a') d idx F') in I.
  apply in_map_iff in I. destruct I as (j & Ej & Ij).
  assert (Lj : (j < List.length (d :: a'))%nat).
  { rewrite Forall_forall in F'. apply F'. exact Ij. }
  rewrite <- (nth_error_nth (d :: a') i d E) in Ej.
  apply (proj1 (NoDup_nth (d :: a') d)) in Ej; [|exact NDa | exact Lj | exact Li].
  subst j. contradiction.
Qed.

Lemma choice_spec (A : Type) (a : list A) (size : nat) (p : option (list Q))
    (g : rng) (pool : list A) (g' : rng) :
  numpy.choice a size p g = Ok (pool, g') ->
  exists idx,
    (size <= List.length a)%nat /\ List.length idx = size /\ NoDup idx
    /\ Forall (fun i => (i < List.length a)%nat) idx
    /\ pool = numpy.take_indices a idx
    /\ List.length pool = size
    /\ (NoDup a -> NoDup pool).
Proof.
  unfold numpy.choice. intros E. inv_bind E. apply ret_ok in E. destruct E as [<- _].
  destruct (choice_indices_spec _ _ _ _ _ _ E0) as (Ls & Len & ND & F & _).
  exists a0. repeat split; try assumption.
  - destruct a as [|d a']; [destruct a0; [simpl in *; lia | inversion F; simpl in *; lia]|].
    rewrite (take_indices_in_range _ (d :: a') d a0 F), length_map. exact Len.
  - intros NDa. apply take_indices_nodup; assumption.
Qed.

(** ** Softmax weights *)

Lemma Qsum_map_div (s : Q) (e : list Q) :
  (Qsum (map (fun v => v / s) e) == Qsum e / s)%Q.
Proof.
  induction e as [|v e IH]; cbn [map].
  - unfold Qsum; simpl. unfold Qdiv. ring.
  - rewrite !Qsum_cons, IH. unfold Qdiv. ring.
Qed.

Lemma Qsum_all_positive (e : list Q) :
  e <> [] -> (forall v, In v e -> (0 < v)%Q) -> (0 < Qsum e)%Q.
Proof.
  induction e as [|v e IH]; intros Ne H; [contradiction|].
  rewrite Qsum_cons.
  assert (0 < v)%Q by (apply H; left; reflexivity).
  destruct e as [|v' e'].
  - unfold Qsum; simpl. lra.
  - assert (0 < Qsum (v' :: e'))%Q.
    { apply IH; [discriminate | intros x I; apply H; right; exact I]. }
    lra.
Qed.

Lemma count_positive_all (w : list Q) :
  (forall x, In x w -> (0 < x)%Q) -> numpy.count_positive w = List.length w.
Proof.
  induction w as [|x w IH]; intros H; [reflexivity|].
  rewrite count_positive_cons.
  assert (P : Qltb 0 x = true) by (apply Qltb_lt; apply H; left; reflexivity).
  rewrite P, IH by (intros y I; apply H; right; exact I). reflexivity.
Qed.

Lemma existsb_negative_positive (w : list Q) :
  (forall x, In x w -> (0 < x)%Q) -> existsb (fun x => Qltb x 0) w = false.
Proof.
  intros H. destruct (existsb (fun x => Qltb x 0) w) eqn:E; [|reflexivity].
  apply existsb_exists in E. destruct E as (x & I & L).
  apply Qltb_lt in L. specialize (H x I). lra.
Qed.

Lemma softmax_weights (exp : Q -> Q) (x p : list Q) :
  softmax exp x = Ok p ->
  List.length p = List.length x
  /\ ((forall v, (0 < exp v)%Q) ->
      (forall w, In w p -> (0 < w)%Q) /\ (Qsum p == 1)%Q).
Proof.
  unfold softmax. destruct x as [|x0 rest]; [discriminate|]. cbv zeta.
  set (m := fold_left Qmaxb rest x0).
  set (e := map (fun v => exp (v - m)%Q) (x0 :: rest)).
  intros E.
  assert (Hp : p = map (fun v => (v / Qsum e)%Q) e) by congruence.
  clear E. subst p.
  split; [unfold e; rewrite !length_map; reflexivity|].
  intros Pos.
  assert (Pe : forall v, In v e -> (0 < v)%Q).
  { intros v I. unfold e in I. apply in_map_iff in I. destruct I as (y & <- & _). apply Pos. }
  assert (Ps : (0 < Qsum e)%Q).
  { apply Qsum_all_positive; [unfold e; simpl; discriminate | exact Pe]. }
  split.
  - intros w I. apply in_map_iff in I. destruct I as (v & <- & Iv).
    specialize (Pe v Iv). unfold Qdiv.
    apply Qmult_lt_0_compat; [exact Pe | apply Qinv_lt_0_compat; exact Ps].
  - rewrite Qsum_map_div. field. lra.
Qed.

Lemma choice_indices_ok (n size : nat) (w : list Q) (g : rng) :
  n <> 0%nat -> List.length w = n -> (forall x, In x w -> (0 < x)%Q) ->
  (Qsum w == 1)%Q -> (size <= n)%nat ->
  exists idx g', numpy.choice_indices n size (Some w) g = Ok (idx, g').
Proof.
  intros Hn Hl Hp Hs Hsz. unfold numpy.choice_indices.
  destruct (Nat.eqb_spec n 0) as [F|_]; [contradiction|].
  destruct (Nat.eqb_spec (List.length w) n) as [_|F]; [|contradiction]. cbn [negb].
  rewrite (existsb_negative_positive w Hp).
  rewrite (Qeq_eq_bool _ _ Hs). cbn [negb].
  destruct (Nat.ltb_spec n size) as [F|_]; [lia|].
  rewrite (count_positive_all w Hp), Hl.
  destruct (Nat.ltb_spec n size) as [F|_]; [lia|].
  assert (Hnn : all_nonneg w) by (intros x I; specialize (Hp x I); lra).
  destruct (sample_spec size w g Hnn) as (idx & g' & E & _).
  { rewrite (count_positive_all w Hp). lia. }
  eauto.
Qed.

Lemma Qmaxb_cases (x y : Q) :
  (Qmaxb x y = x \/ Qmaxb x y = y) /\ (x <= Qmaxb x y)%Q /\ (y <= Qmaxb x y)%Q.
Proof.
  unfold Qmaxb. destruct (Qltb x y) eqn:E.
  - apply Qltb_lt in E. split; [auto|]. split; [lra | apply Qle_refl].
  - apply Qltb_ge in E. split; [auto|]. split; [apply Qle_refl | exact E].
Qed.

Lemma fold_max_spec (rest : list Q) :
  forall x0, is_maximum (fold_left Qmaxb rest x0) (x0 :: rest).
Proof.
  induction rest as [|y rest IH]; intros x0; cbn [fold_left].
  - split; [left; reflexivity|]. intros v [<-|[]]. apply Qle_refl.
  - destruct (IH (Qmaxb x0 y)) as [I M].
    destruct (Qmaxb_cases x0 y) as (C & L0 & Ly).
    split.
    + destruct I as [I|I]; [|right; right; exact I].
      rewrite <- I. destruct C as [-> | ->]; [left | right; left]; reflexivity.
    + intros v [<-|[<-|I']].
      * eapply Qle_trans; [exact L0 | apply M; left; reflexivity].
      * eapply Qle_trans; [exact Ly | apply M; left; reflexivity].
      * apply M. right. exact I'.
Qed.

Lemma softmax_formula (exp : Q -> Q) (x p : list Q) :
  softmax exp x = Ok p ->
  exists m, is_maximum m x /\ p = map (softmax_weight exp x m) x.
Proof.
  unfold softmax. destruct x as [|x0 rest]; [discriminate|]. cbv zeta.
  intros E. exists (fold_left Qmaxb rest x0).
  split; [apply fold_max_spec|].
  assert (Hp : p = map (fun v => (v / Qsum (map (fun v => exp (v - fold_left Qmaxb rest x0)%Q)
                                             (x0 :: rest)))%Q)
                     (map (fun v => exp (v - fold_left Qmaxb rest x0)%Q) (x0 :: rest)))
    by congruence.
  rewrite Hp, map_map. reflexivity.
Qed.

Lemma softmax_empty (exp : Q -> Q) : softmax exp [] = Err ValueError.
Proof. reflexivity. Qed.

Lemma softmax_defined (exp : Q -> Q) (x : list Q) :
  x <> [] -> exists p, softmax exp x = Ok p.
Proof. destruct x; [contradiction | simpl; eauto]. Qed.

Lemma count_positive_in (p : list Q) (v : Q) :
  In v p -> (0 < v)%Q -> (0 < numpy.count_positive p)%nat.
Proof.
  induction p as [|w p IH]; intros I P; [contradiction|].
  rewrite count_positive_cons. destruct I as [->|I].
  - apply Qltb_lt in P. rewrite P. lia.
  - specialize (IH I P). lia.
Qed.

Lemma count_positive_le (p : list Q) : (numpy.count_positive p <= List.length p)%nat.
Proof.
  induction p as [|w p IH]; [reflexivity|].
  rewrite count_positive_cons. cbn [List.length]. destruct (Qltb 0 w); lia.
Qed.

Lemma count_positive_scaled (s : Q) (e : list Q) :
  (0 < s)%Q ->
  numpy.count_positive (map (fun v => (v / s)%Q) e) = numpy.count_positive e.
Proof.
  intros Ps. induction e as [|v e IH]; [reflexivity|].
  cbn [map]. rewrite !count_positive_cons, IH.
  assert (Eq : Qltb 0 (v / s) = Qltb 0 v).
  { destruct (Qltb 0 v) eqn:E.
    - apply Qltb_lt in E. apply Qltb_lt. unfold Qdiv.
      apply Qmult_lt_0_compat; [exact E | apply Qinv_lt_0_compat; exact Ps].
    - apply Qltb_ge in E. apply Qltb_ge. unfold Qdiv.
      assert (0 <= - v * / s)%Q.
      { apply Qmult_le_0_compat; [lra | apply Qlt_le_weak, Qinv_lt_0_compat; exact Ps]. }
      lra. }
  rewrite Eq. reflexivity.
Qed.

Lemma softmax_distribution (exp : Q -> Q) (x p : list Q) :
  (forall v, (0 <= exp v)%Q) ->
  (forall v, (v == 0)%Q -> (0 < exp v)%Q) ->
  softmax exp x = Ok p ->
  all_nonneg p /\ (Qsum p == 1)%Q /\ (0 < numpy.count_positive p)%nat.
Proof.
  intros Nn P0 E.
  unfold softmax in E. destruct x as [|x0 rest]; [discriminate|]. cbv zeta in E.
  set (m := fold_left Qmaxb rest x0) in E.
  set (e := map (fun v => exp (v - m)%Q) (x0 :: rest)) in E.
  assert (Hp : p = map (fun v => (v / Qsum e)%Q) e) by congruence.
  clear E.
  destruct (fold_max_spec rest x0) as [Im Mm]. fold m in Im, Mm.
  assert (Ne : all_nonneg e).
  { intros v I. unfold e in I. apply in_map_iff in I. destruct I as (y & <- & _). apply Nn. }
  assert (Pm : (0 < exp (m - m))%Q) by (apply P0; ring).
  assert (Ie : In (exp (m - m)%Q) e).
  { unfold e. apply (in_map (fun v => exp (v - m)%Q)). exact Im. }
  assert (Ce : (0 < numpy.count_positive e)%nat) by (eapply count_positive_in; eassumption).
  assert (Ps : (0 < Qsum e)%Q) by (apply Qsum_positive; assumption).
  subst p. split; [|split].
  - intros w I. apply in_map_iff in I. destruct I as (v & <- & Iv).
    specialize (Ne v Iv). unfold Qdiv.
    apply Qmult_le_0_compat; [exact Ne | apply Qlt_le_weak, Qinv_lt_0_compat; exact Ps].
  - rewrite Qsum_map_div. field. lra.
  - rewrite count_positive_scaled by exact Ps. exact Ce.
Qed.

Lemma existsb_negative_nonneg (w : list Q) :
  all_nonneg w -> existsb (fun x => Qltb x 0) w = false.
Proof.
  intros H. destruct (existsb (fun x => Qltb x 0) w) eqn:E; [|reflexivity].
  apply existsb_exists in E. destruct E as (x & I & L).
  apply Qltb_lt in L. specialize (H x I). lra.
Qed.

Lemma choice_indices_outcome (n size : nat) (w : list Q) (g : rng) :
  n <> 0%nat -> List.length w = n -> all_nonneg w -> (Qsum w == 1)%Q ->
  ((size <= numpy.count_positive w)%nat ->
   exists idx g', numpy.choice_indices n size (Some w) g = Ok (idx, g'))
  /\ ((numpy.count_positive w < size)%nat ->
      numpy.choice_indices n size (Some w) g = Err ValueError).
Proof.
  intros Hn Hl Hp Hs. unfold numpy.choice_indices.
  destruct (Nat.eqb_spec n 0) as [F|_]; [contradiction|].
  destruct (Nat.eqb_spec (List.length w) n) as [_|F]; [|contradiction]. cbn [negb].
  rewrite (existsb_negative_nonneg w Hp).
  rewrite (Qeq_eq_bool _ _ Hs). cbn [negb].
  pose proof (count_positive_le w) as Cl. rewrite Hl in Cl.
  split.
  - intros C.
    destruct (Nat.ltb_spec n size) as [F|_]; [lia|].
    destruct (Nat.ltb_spec (numpy.count_positive w) size) as [F|_]; [lia|].
    destruct (sample_spec size w g Hp C) as (idx & g' & E & _). eauto.
  - intros C.
    destruct (Nat.ltb_spec n size) as [_|_]; [reflexivity|].
    destruct (Nat.ltb_spec (numpy.count_positive w) size) as [_|F]; [reflexivity | lia].
Qed.

Lemma choice_indices_sample (n size : nat) (w : list Q) (g : rng)
    (idx : list nat) (g' : rng) :
  numpy.choice_indices n size (Some w) g = Ok (idx, g') ->
  List.length w = n /\ all_nonneg w /\ (Qsum w == 1)%Q
  /\ (size <= numpy.count_positive w)%nat
  /\ numpy.sample size w g = Ok (idx, g').
Proof.
  unfold numpy.choice_indices.
  destruct (n =? 0)%nat; [discriminate|].
  destruct (Nat.eqb_spec (List.length w) n) as [Lw|Lw]; cbn [negb]; [|discriminate].
  destruct (existsb (fun x => Qltb x 0) w) eqn:Neg; [discriminate|].
  destruct (Qeq_bool (Qsum w) 1) eqn:S1; cbn [negb]; [|discriminate].
  destruct (Nat.ltb_spec n size) as [L1|L1]; [discriminate|].
  destruct (Nat.ltb_spec (numpy.count_positive w) size) as [L2|L2]; [discriminate|].
  intros E. split; [exact Lw|]. split; [exact (existsb_negative_false w Neg)|].
  split; [apply Qeq_bool_iff; exact S1|]. split; [exact L2 | exact E].
Qed.

Lemma searchsorted_bracket (p : list Q) :
  forall x, (0 <= x)%Q -> (x < Qsum p)%Q -> cdf_bracket p x (numpy.searchsorted p x).
Proof.
  unfold cdf_bracket.
  induction p as [|w p IH]; intros x Hx Hs.
  - unfold Qsum in Hs. simpl in Hs. lra.
  - rewrite Qsum_cons in Hs. cbn [numpy.searchsorted].
    destruct (Qltb x w) eqn:E.
    + apply Qltb_lt in E. cbn [firstn]. rewrite Qsum_cons.
      unfold Qsum at 1 2. cbn [fold_right]. split; lra.
    + apply Qltb_ge in E.
      destruct (IH (x - w)%Q) as [L U]; [lra | lra |].
      cbn [firstn] in *. rewrite !Qsum_cons. split; lra.
Qed.

Lemma sample_drawn (size : nat) :
  forall p g idx g',
    all_nonneg p -> (size <= numpy.count_positive p)%nat ->
    numpy.sample size p g = Ok (idx, g') ->
    drawn_under p g idx.
Proof.
  induction size as [|size IH]; intros p g idx g' H C E; cbn [numpy.sample] in E.
  - apply ret_ok in E. destruct E as [<- _]. exact I.
  - unfold bind in E. rewrite rand_eq in E.
    fold (np_next g) in E.
    set (u := unit_float (np_raw g (np_pos g))) in *.
    destruct (unit_float_range (np_raw g (np_pos g))) as [U0 U1]. fold u in U0, U1.
    assert (Sp : (0 < Qsum p)%Q) by (apply Qsum_positive; [exact H | lia]).
    assert (X0 : (0 <= u * Qsum p)%Q) by (apply Qmult_le_0_compat; [exact U0 | lra]).
    assert (X1 : (u * Qsum p < Qsum p)%Q).
    { setoid_replace (Qsum p) with (1 * Qsum p)%Q at 2 by ring.
      apply Qmult_lt_r; assumption. }
    destruct (searchsorted_hits p (u * Qsum p)%Q H X0 X1) as [L P].
    pose proof (searchsorted_bracket p (u * Qsum p)%Q X0 X1) as B.
    set (i := numpy.searchsorted p (u * Qsum p)%Q) in *.
    destruct (numpy.sample size (numpy.zero_at i p) (np_next g)) as [[rest g1]|e] eqn:Er;
      [|discriminate E].
    unfold ret in E. inversion E; subst idx g'.
    cbn [drawn_under]. fold u. split; [exact B|]. split; [exact L|].
    apply (IH _ _ _ _ (zero_at_nonneg i p H)) in Er; [exact Er|].
    rewrite (zero_at_count i p L P) in C. lia.
Qed.

(** C6. [get_next_generation] first draws the parent pool with
    [select_parents].
    - The weights are the softmax of the fitness vector: the weight of a
      member is the exponential of its fitness minus the largest fitness,
      divided by the sum of these exponentials over the population.  With
      an exponential that is never negative and positive at 0, as the
      float exponential is, the weights are non-negative, sum to 1, and at
      least one of them is positive; with a positive exponential all of
      them are.
    - The pool is drawn under these weights without replacement: every
      drawn index is where the running sums of the weights of the members
      not drawn yet pass a uniform draw scaled to their total, so a member
      is drawn with probability proportional to its weight, and a drawn
      member's weight is zero from then on.  A pool that is drawn has
      exactly the requested size, which is at most the population size, and
      consists of the population members at pairwise distinct positions,
      each of positive weight, so no member is taken twice.
    - A pool larger than the population is never drawn ([ValueError]), and
      neither is one larger than the number of positive weights; every
      smaller request is drawn. *)
Theorem selection_without_replacement (exp : Q -> Q) (schedule : Schedule.t)
    (population : list ScheduleAssignment.t) (population_fitness : list Q)
    (parent_pool_size : nat) (mutation_rate : Q) (g : rng) :
  get_next_generation exp schedule population population_fitness parent_pool_size
    mutation_rate g
  = bind (select_parents exp population population_fitness parent_pool_size)
      (fun parent_population => breed schedule parent_population mutation_rate population) g
  /\ (population_fitness = [] ->
      select_parents exp population population_fitness parent_pool_size g
      = Err ValueError)
  /\ (forall p, softmax exp population_fitness = Ok p ->
        (exists m, is_maximum m population_fitness
                   /\ p = map (softmax_weight exp population_fitness m) population_fitness)
        /\ List.length p = List.length population_fitness
        /\ ((forall v, (0 <= exp v)%Q) -> (forall v, (v == 0)%Q -> (0 < exp v)%Q) ->
            all_nonneg p /\ (Qsum p == 1)%Q /\ (0 < numpy.count_positive p)%nat)
        /\ ((forall v, (0 < exp v)%Q) ->
            (forall w, In w p -> (0 < w)%Q) /\ (Qsum p == 1)%Q))
  /\ (forall pool g',
        select_parents exp population population_fitness parent_pool_size g = Ok (pool, g') ->
        exists p idx,
          softmax exp population_fitness = Ok p
          /\ List.length p = List.length population
          /\ all_nonneg p /\ (Qsum p == 1)%Q
          /\ drawn_under p g idx
          /\ (parent_pool_size <= List.length population)%nat
          /\ (parent_pool_size <= numpy.count_positive p)%nat
          /\ List.length idx = parent_pool_size
          /\ NoDup idx
          /\ Forall (fun i => (i < List.length population)%nat /\ (0 < nth i p 0)%Q) idx
          /\ pool = numpy.take_indices population idx
          /\ List.length pool = parent_pool_size
          /\ (NoDup population -> NoDup pool))
  /\ ((List.length population < parent_pool_size)%nat ->
      select_parents exp population population_fitness parent_pool_size g
      = Err ValueError)
  /\ ((forall v, (0 <= exp v)%Q) -> (forall v, (v == 0)%Q -> (0 < exp v)%Q) ->
      population <> [] ->
      List.length population_fitness = List.length population ->
      exists p,
        softmax exp population_fitness = Ok p
        /\ ((parent_pool_size <= numpy.count_positive p)%nat ->
            exists pool g',
              select_parents exp population population_fitness parent_pool_size g
              = Ok (pool, g'))
        /\ ((numpy.count_positive p < parent_pool_size)%nat ->
            select_parents exp population population_fitness parent_pool_size g
            = Err ValueError)
        /\ ((forall v, (0 < exp v)%Q) ->
            numpy.count_positive p = List.length population)).
Proof.
  split; [reflexivity|].
  split.
  { intros ->. reflexivity. }
  split.
  { intros p Es. split; [exact (softmax_formula exp _ _ Es)|].
    destruct (softmax_weights exp _ _ Es) as [Lp Hw].
    split; [exact Lp|]. split; [|exact Hw].
    intros Nn P0. destruct (softmax_distribution exp _ _ Nn P0 Es) as (A & B & C).
    auto. }
  split; [|split].
  - intros pool g' E. unfold select_parents in E. inv_bind E.
    apply lift_ok in E0. destruct E0 as [Es <-].
    exists a.
    unfold numpy.choice in E. inv_bind E. apply ret_ok in E. destruct E as [Ea _].
    destruct (choice_indices_spec _ _ _ _ _ _ E0) as (Ls & Len & ND & F & P).
    destruct (choice_indices_sample _ _ _ _ _ _ E0) as (Lw & Nn & S1 & Cp & Sa).
    exists a0. subst pool.
    split; [exact Es|]. split; [exact Lw|]. split; [exact Nn|]. split; [exact S1|].
    split; [exact (sample_drawn _ _ _ _ _ Nn Cp Sa)|].
    split; [exact Ls|]. split; [exact Cp|]. split; [exact Len|]. split; [exact ND|].
    split; [|split; [reflexivity|split]].
    + rewrite Forall_forall in F, P |- *. intros i I. split; [apply F | apply P]; exact I.
    + destruct population as [|d rest].
      * destruct a0; [simpl in *; lia | inversion F; simpl in *; lia].
      * rewrite (take_indices_in_range _ (d :: rest) d a0 F), length_map. exact Len.
    + intros NDa. apply take_indices_nodup; assumption.
  - intros L. unfold select_parents, bind.
    destruct (softmax exp population_fitness) as [p|e] eqn:Es.
    + cbn [lift]. unfold numpy.choice, bind.
      rewrite (choice_indices_too_large _ _ _ _ L). reflexivity.
    + destruct population_fitness; [|discriminate Es].
      rewrite softmax_empty in Es. inversion Es; subst e. reflexivity.
  - intros Nn P0 Ne Hl.
    destruct (softmax_defined exp population_fitness) as [p Es].
    { destruct population_fitness; [|discriminate].
      destruct population; [contradiction | discriminate Hl]. }
    exists p. split; [exact Es|].
    destruct (softmax_weights exp _ _ Es) as [Lp Hw].
    destruct (softmax_distribution exp _ _ Nn P0 Es) as (A & B & C).
    assert (Hn : List.length population <> 0%nat).
    { destruct population; [contradiction | discriminate]. }
    assert (Lp' : List.length p = List.length population) by congruence.
    destruct (choice_indices_outcome (List.length population) parent_pool_size p g
                Hn Lp' A B) as [Hok Herr].
    split; [|split].
    + intros Cp. destruct (Hok Cp) as (idx & g' & E).
      unfold select_parents, bind. rewrite Es. cbn [lift].
      unfold numpy.choice, bind. rewrite E. unfold ret. eauto.
    + intros Cp. unfold select_parents, bind. rewrite Es. cbn [lift].
      unfold numpy.choice, bind. rewrite (Herr Cp). reflexivity.
    + intros Pos. destruct (Hw Pos) as [Pp _].
      rewrite (count_positive_all p Pp). exact Lp'.
Qed.

Lemma selection_without_replacement_witness :
  match select_parents exp2 demo_population [1; 2; 0]%Q 2 (affine_rng 7 3) with
  | Ok (pool, _) =>
      exists p idx,
        softmax exp2 [1; 2; 0]%Q = Ok p
        /\ drawn_under p (affine_rng 7 3) idx
        /\ (2 <= List.length demo_population)%nat
        /\ List.length idx = 2%nat
        /\ NoDup idx
        /\ Forall (fun i => (i < List.length demo_population)%nat /\ (0 < nth i p 0)%Q) idx
        /\ pool = numpy.take_indices demo_population idx
        /\ List.length pool = 2%nat
        /\ (NoDup demo_population -> NoDup pool)
  | Err _ => False
  end
  /\ select_parents exp2 demo_population [1; 2; 0]%Q 4 (affine_rng 7 3) = Err ValueError
  /\ select_parents exp2 demo_population [] 2 (affine_rng 7 3) = Err ValueError.
Proof.
  split; [|split].
  - destruct (select_parents exp2 demo_population [1; 2; 0]%Q 2 (affine_rng 7 3))
      as [[pool g']|e] eqn:E; [|vm_compute in E; discriminate].
    destruct (proj1 (proj2 (proj2 (proj2
               (selection_without_replacement exp2 demo_schedule demo_population
                  [1; 2; 0]%Q 2 0 (affine_rng 7 3))))) pool g' E)
      as (p & idx & H1 & _ & _ & _ & H2 & H3 & _ & H4).
    exists p, idx. auto.
  - apply (proj1 (proj2 (proj2 (proj2 (proj2
             (selection_without_replacement exp2 demo_schedule demo_population
                [1; 2; 0]%Q 4 0 (affine_rng 7 3))))))).
    simpl. lia.
  - apply (proj1 (proj2
             (selection_without_replacement exp2 demo_schedule demo_population
                [] 2 0 (affine_rng 7 3)))).
    reflexivity.
Defined.

(** ** The evolution loop *)

Lemma float_div_ok (x y : Q) : ~ (y == 0)%Q -> float_div x y = Ok (x / y)%Q.
Proof.
  intros N. unfold float_div.
  destruct (Qeq_bool y 0) eqn:E; [apply Qeq_bool_iff in E; contradiction | reflexivity].
Qed.



Lemma binary64_in_range (q : Q) :
  (Qabs q < OVERFLOW_THRESHOLD)%Q -> binary64 q = Finite (round64 q).
Proof.
  intros L. unfold binary64.
  destruct (Qle_bool OVERFLOW_THRESHOLD (Qabs q)) eqn:E; [|reflexivity].
  apply Qle_bool_iff in E. exfalso. exact (Qlt_not_le _ _ L E).
Qed.

Lemma binary64_out_of_range (q : Q) :
  (OVERFLOW_THRESHOLD <= Qabs q)%Q -> binary64 q = Infinity (Qltb q 0).
Proof.
  intros L. unfold binary64.
  apply Qle_bool_iff in L. rewrite L. reflexivity.
Qed.

(** The rounding on known values: the floats nearest to 1/10, 1/3 and
    101/100, ties going to the even significand above [2^53], the smallest
    subnormal, and the edge of the float range. *)
Lemma round64_examples :
  (round64 (1 # 10) == 3602879701896397 # 36028797018963968)%Q
  /\ (round64 (1 # 3) == 6004799503160661 # 18014398509481984)%Q
  /\ (round64 (101 # 100) == double_1_01)%Q
  /\ (round64 (inject_Z 9007199254740993) == inject_Z 9007199254740992)%Q
  /\ (round64 (inject_Z 9007199254740995) == inject_Z 9007199254740996)%Q
  /\ (round64 (- inject_Z 9007199254740995) == - inject_Z 9007199254740996)%Q
  /\ (round64 (1 - Qpower 2 (-60)) == 1)%Q
  /\ (round64 (Qpower 2 (-1075)) == 0)%Q
  /\ (round64 (3 * Qpower 2 (-1075)) == Qpower 2 (-1073))%Q
  /\ (round64 (inject_Z (2 ^ 1024 - 2 ^ 970 - 1)) == inject_Z (2 ^ 1024 - 2 ^ 971))%Q
  /\ binary64 (inject_Z (2 ^ 1024 - 2 ^ 970)) = Infinity false
  /\ true_div 7 0 = Err ZeroDivisionError
  /\ true_div (10 ^ 400) 1 = Err OverflowError
  /\ (match true_div (10 ^ 400) (10 ^ 399) with
      | Ok q => Qeq_bool q 10
      | Err _ => false
      end = true)
  /\ (match true_div 1 (10 ^ 400) with
      | Ok q => Qeq_bool q 0
      | Err _ => false
      end = true).
Proof.
  repeat split; vm_compute; reflexivity.
Qed.


Lemma decide_stop (g : Z) (avg prev rate : Q) (d : decision) :
  decide g avg prev rate = Ok d -> d = Stop -> 100 < g.
Proof.
  unfold decide. intros E ->. destruct (Z.ltb_spec 100 g); [assumption | discriminate].
Qed.



Lemma generation_inv exp schedule pool_size st r o r' :
  generation exp schedule pool_size st r = Ok (o, r') ->
  exists avg_prev pop fit avg d,
    average (population_fitness st) (List.length (population st)) = Ok avg_prev
    /\ get_next_generation exp schedule (population st) (population_fitness st)
         pool_size (mutation_rate st) r = Ok (pop, r')
    /\ map_result get_fitness pop = Ok fit
    /\ average fit (List.length fit) = Ok avg
    /\ decide (g st) avg avg_prev (mutation_rate st) = Ok d
    /\ o = match d with
           | Stop => Converged (mkLoop (g st) pop fit (mutation_rate st))
           | Next rate => Advancing (mkLoop (g st + 1) pop fit rate)
           end.
Proof.
  unfold generation. intros E.
  inv_bind E. apply lift_ok in E0. destruct E0 as [Eavg <-].
  inv_bind E. inv_bind E. apply lift_ok in E1. destruct E1 as [Efit <-].
  inv_bind E. apply lift_ok in E1. destruct E1 as [Eavg2 <-].
  inv_bind E. apply lift_ok in E1. destruct E1 as [Ed <-].
  exists a, a0, a1, a2, a3.
  destruct a3; apply ret_ok in E; destruct E as [<- <-]; repeat split; assumption.
Qed.



Lemma evolve_converged exp schedule pool_size fuel :
  forall st r st' r',
    evolve exp schedule pool_size fuel st r = Ok (Some st', r') ->
    g st <= g st' /\ 100 < g st' /\ g st' < g st + Z.of_nat fuel.
Proof.
  induction fuel as [|fuel IH]; intros st r st' r' E.
  - simpl in E. apply ret_ok in E. destruct E; discriminate.
  - cbn [evolve] in E. inv_bind E.
    destruct (generation_inv _ _ _ _ _ _ _ E0) as (ap & pop & fit & avg & d & _ & _ & _ & _ & Ed & Ho).
    destruct d as [|rate]; subst a.
    + apply ret_ok in E. destruct E as [E _]. inversion E; subst st'. simpl.
      pose proof (decide_stop _ _ _ _ _ Ed eq_refl). lia.
    + apply IH in E. simpl in E. lia.
Qed.



(** ** Where [get_fitness] raises *)

Lemma dict_get_value_in (d : dict string ActivityAssignment.t) k v :
  dict_get d k = Some v -> In v (dict_values d).
Proof.
  induction d as [|[k' v'] d IH]; simpl; [discriminate|].
  destruct (String.eqb k' k); [intros E; inversion E; auto | intros E; right; auto].
Qed.

Lemma true_div_zero (a : Z) : true_div a 0 = Err ZeroDivisionError.
Proof. reflexivity. Qed.

Lemma true_div_in_range (a b : Z) :
  b <> 0 -> quotient_in_range a b ->
  true_div a b = Ok (round64 (inject_Z a / inject_Z b)).
Proof.
  intros N R. unfold true_div. destruct (Z.eqb_spec b 0); [contradiction|].
  rewrite binary64_in_range by exact R. reflexivity.
Qed.

Lemma true_div_out_of_range (a b : Z) :
  b <> 0 -> ~ quotient_in_range a b -> true_div a b = Err OverflowError.
Proof.
  intros N R. unfold true_div. destruct (Z.eqb_spec b 0); [contradiction|].
  rewrite binary64_out_of_range; [reflexivity|].
  apply Qnot_lt_le. exact R.
Qed.

Lemma true_div_ok_inv (a b : Z) (q : Q) :
  true_div a b = Ok q ->
  b <> 0 /\ quotient_in_range a b /\ q = round64 (inject_Z a / inject_Z b).
Proof.
  intros E. destruct (Z.eq_dec b 0) as [->|N]; [discriminate E|].
  split; [exact N|].
  destruct (Qlt_le_dec (Qabs (inject_Z a / inject_Z b)) OVERFLOW_THRESHOLD) as [R|R].
  - split; [exact R|]. rewrite (true_div_in_range a b N R) in E. congruence.
  - rewrite true_div_out_of_range in E; [discriminate E | exact N |].
    intros L. exact (Qlt_not_le _ _ L R).
Qed.

Lemma true_div_err_inv (a b : Z) (e : exn) :
  true_div a b = Err e ->
  (e = ZeroDivisionError /\ b = 0)
  \/ (e = OverflowError /\ b <> 0 /\ ~ quotient_in_range a b).
Proof.
  intros E. destruct (Z.eq_dec b 0) as [->|N].
  - left. rewrite true_div_zero in E. split; congruence.
  - right.
    destruct (Qlt_le_dec (Qabs (inject_Z a / inject_Z b)) OVERFLOW_THRESHOLD) as [R|R].
    + rewrite (true_div_in_range a b N R) in E. discriminate E.
    + assert (NR : ~ quotient_in_range a b) by (intros L; exact (Qlt_not_le _ _ L R)).
      rewrite (true_div_out_of_range a b N NR) in E. split; [congruence | auto].
Qed.

Lemma activity_step_err st gene e :
  activity_step st gene = Err e ->
  e = KeyError \/ e = ZeroDivisionError \/ e = OverflowError.
Proof.
  unfold activity_step, dict_index.
  destruct (dict_get building_clusters _); cbn [rbind]; [|intros E; inversion E; auto].
  destruct (true_div _ _) as [ratio|e0] eqn:D; cbn [rbind]; [discriminate|].
  intros E. inversion E; subst e0.
  destruct (true_div_err_inv _ _ _ D) as [[-> _]|[-> _]]; auto.
Qed.

Lemma activity_step_ok st gene :
  gene_scorable gene -> exists st', activity_step st gene = Ok st'.
Proof.
  intros (Hb & He & Hr). unfold activity_step, dict_index.
  destruct (dict_get building_clusters _); [|contradiction]. cbn [rbind].
  rewrite (true_div_in_range _ _ He Hr). cbn [rbind]. eauto.
Qed.

Lemma activity_step_zero_enrollment st gene :
  dict_get building_clusters (Room.building (ActivityAssignment.room gene)) <> None ->
  Activity.expected_enrollment (ActivityAssignment.activity gene) = 0 ->
  activity_step st gene = Err ZeroDivisionError.
Proof.
  intros Hb He. unfold activity_step, dict_index.
  destruct (dict_get building_clusters _); [|contradiction]. cbn [rbind].
  rewrite He, true_div_zero. reflexivity.
Qed.

Lemma activity_step_overflow st gene :
  dict_get building_clusters (Room.building (ActivityAssignment.room gene)) <> None ->
  Activity.expected_enrollment (ActivityAssignment.activity gene) <> 0 ->
  ~ ratio_in_range gene ->
  activity_step st gene = Err OverflowError.
Proof.
  intros Hb He Hr. unfold activity_step, dict_index.
  destruct (dict_get building_clusters _); [|contradiction]. cbn [rbind].
  rewrite (true_div_out_of_range _ _ He Hr). reflexivity.
Qed.

Lemma activity_step_unmapped st gene :
  dict_get building_clusters (Room.building (ActivityAssignment.room gene)) = None ->
  activity_step st gene = Err KeyError.
Proof.
  intros Hb. unfold activity_step, dict_index. rewrite Hb. reflexivity.
Qed.

Lemma activity_loop_err gs :
  forall st e, activity_loop st gs = Err e ->
               e = KeyError \/ e = ZeroDivisionError \/ e = OverflowError.
Proof.
  induction gs as [|gene gs IH]; simpl; intros st e E; [discriminate|].
  destruct (activity_step st gene) as [st1|e1] eqn:S1; simpl in E.
  - eapply IH; eassumption.
  - inversion E; subst. eapply activity_step_err; eassumption.
Qed.

Lemma activity_loop_ok gs :
  (forall gene, In gene gs -> gene_scorable gene) ->
  forall st, exists st', activity_loop st gs = Ok st'.
Proof.
  induction gs as [|gene gs IH]; simpl; intros H st; [eauto|].
  destruct (activity_step_ok st gene (H gene (or_introl eq_refl))) as [st1 ->]. simpl.
  apply IH. intros g0 I. apply H. right. exact I.
Qed.

Lemma activity_loop_unmapped gs gene :
  In gene gs ->
  dict_get building_clusters (Room.building (ActivityAssignment.room gene)) = None ->
  forall st, exists e, activity_loop st gs = Err e.
Proof.
  induction gs as [|g0 gs IH]; simpl; intros I Hb st; [contradiction|].
  destruct I as [->|I].
  - rewrite activity_step_unmapped by exact Hb. simpl. eauto.
  - destruct (activity_step st g0) as [st1|e1]; simpl; [apply IH; assumption | eauto].
Qed.

Lemma activity_loop_first_failure pre gene post e :
  (forall x, In x pre -> gene_scorable x) ->
  (forall st, activity_step st gene = Err e) ->
  forall st, activity_loop st (pre ++ gene :: post) = Err e.
Proof.
  intros Hs Hg. induction pre as [|x pre IH]; intros st; cbn [app activity_loop].
  - rewrite Hg. reflexivity.
  - destruct (activity_step_ok st x (Hs x (or_introl eq_refl))) as [st1 ->]. cbn [rbind].
    apply IH. intros y I. apply Hs. right. exact I.
Qed.

Lemma named_adjustments_missing acts fitness name :
  In name required_names -> dict_get acts name = None ->
  named_adjustments acts fitness = Err KeyError.
Proof.
  unfold required_names, named_adjustments, dict_index.
  intros I G. simpl in I.
  destruct (dict_get acts "SLA101A"%string) as [a101|] eqn:G1; simpl; [|reflexivity].
  destruct (dict_get acts "SLA101B"%string) as [b101|] eqn:G2; simpl; [|reflexivity].
  destruct (dict_get acts "SLA191A"%string) as [a191|] eqn:G3; simpl; [|reflexivity].
  destruct (dict_get acts "SLA191B"%string) as [b191|] eqn:G4; simpl; [|reflexivity].
  destruct I as [<-|[<-|[<-|[<-|[]]]]]; congruence.
Qed.

Lemma cross_pair_ok g1 g2 fitness :
  gene_scorable g1 -> gene_scorable g2 -> exists f, cross_pair g1 g2 fitness = Ok f.
Proof.
  intros [H1 _] [H2 _]. unfold cross_pair, dict_index.
  destruct (_ =? 1); [|destruct (_ =? 2); [|destruct (_ =? 0)]]; eauto.
  destruct (dict_get building_clusters (Room.building (ActivityAssignment.room g1)));
    [|contradiction].
  destruct (dict_get building_clusters (Room.building (ActivityAssignment.room g2)));
    [|contradiction].
  simpl. eauto.
Qed.

Lemma named_adjustments_ok acts fitness :
  (forall gene, In gene (dict_values acts) -> gene_scorable gene) ->
  (forall name, In name required_names -> In name (dict_keys acts)) ->
  exists f, named_adjustments acts fitness = Ok f.
Proof.
  intros Hs Hk. unfold named_adjustments, dict_index.
  assert (G : forall name, In name required_names ->
                exists gene, dict_get acts name = Some gene /\ gene_scorable gene).
  { intros name I. destruct (dict_get_in acts name (Hk name I)) as [gene E].
    exists gene. split; [exact E|]. apply Hs. eapply dict_get_value_in. exact E. }
  destruct (G "SLA101A"%string) as (a101 & -> & S1); [simpl; auto|].
  destruct (G "SLA101B"%string) as (b101 & -> & S2); [simpl; auto|].
  destruct (G "SLA191A"%string) as (a191 & -> & S3); [simpl; auto|].
  destruct (G "SLA191B"%string) as (b191 & -> & S4); [simpl; auto 6|].
  cbn [rbind].
  destruct (cross_pair_ok a101 a191
              (section_gap (Z.abs (ActivityAssignment.time a191 - ActivityAssignment.time b191))
                 (section_gap (Z.abs (ActivityAssignment.time a101 - ActivityAssignment.time b101))
                    fitness)) S1 S3) as [f1 ->]. cbn [rbind].
  destruct (cross_pair_ok a101 b191 f1 S1 S4) as [f2 ->]. cbn [rbind].
  destruct (cross_pair_ok b101 a191 f2 S2 S3) as [f3 ->]. cbn [rbind].
  apply cross_pair_ok; assumption.
Qed.

Lemma get_fitness_missing_name sa name :
  In name required_names ->
  dict_get (ScheduleAssignment.activities sa) name = None ->
  exists e, get_fitness sa = Err e
            /\ (e = KeyError \/ e = ZeroDivisionError \/ e = OverflowError).
Proof.
  intros I G. rewrite get_fitness_stages.
  destruct (activity_loop tally0 (genes sa)) as [st|e] eqn:E; simpl.
  - unfold after_activity_loop. cbv zeta.
    rewrite (named_adjustments_missing _ _ name I G). eauto.
  - exists e. split; [reflexivity|]. eapply activity_loop_err. exact E.
Qed.

Lemma get_fitness_missing_name_scorable sa name :
  In name required_names ->
  dict_get (ScheduleAssignment.activities sa) name = None ->
  (forall gene, In gene (genes sa) -> gene_scorable gene) ->
  get_fitness sa = Err KeyError.
Proof.
  intros I G Hs. rewrite get_fitness_stages.
  destruct (activity_loop_ok (genes sa) Hs tally0) as [st ->]. simpl.
  unfold after_activity_loop. cbv zeta.
  apply (named_adjustments_missing _ _ name I G).
Qed.

Lemma get_fitness_unmapped sa gene :
  In gene (genes sa) ->
  dict_get building_clusters (Room.building (ActivityAssignment.room gene)) = None ->
  exists e, get_fitness sa = Err e.
Proof.
  intros I Hb. rewrite get_fitness_stages.
  destruct (activity_loop_unmapped (genes sa) gene I Hb tally0) as [e ->]. simpl. eauto.
Qed.

Lemma get_fitness_first_failure sa pre gene post e :
  genes sa = (pre ++ gene :: post)%list ->
  (forall x, In x pre -> gene_scorable x) ->
  (forall st, activity_step st gene = Err e) ->
  get_fitness sa = Err e.
Proof.
  intros G Hs Hg. rewrite get_fitness_stages, G.
  rewrite (activity_loop_first_failure pre gene post e Hs Hg). reflexivity.
Qed.

Lemma get_fitness_ok sa :
  (forall gene, In gene (genes sa) -> gene_scorable gene) ->
  (forall name, In name required_names ->
                In name (dict_keys (ScheduleAssignment.activities sa))) ->
  exists f, get_fitness sa = Ok f.
Proof.
  intros Hs Hk. rewrite get_fitness_stages.
  destruct (activity_loop_ok (genes sa) Hs tally0) as [st ->]. simpl.
  unfold after_activity_loop. cbv zeta.
  apply named_adjustments_ok; assumption.
Qed.

(** ** Generated candidates *)

Lemma pick_in (A : Type) (seq : list A) (z : Z) (x : A) :
  pick seq z = Ok x -> In x seq.
Proof.
  destruct seq as [|d rest]; [discriminate|]. unfold pick.
  remember (d :: rest) as seq eqn:Hseq. intros E.
  assert (Hx : x = nth (Z.to_nat (z mod Z.of_nat (List.length seq))) seq d) by congruence.
  rewrite Hx. apply nth_In.
  assert (0 < Z.of_nat (List.length seq)) by (rewrite Hseq; cbn [List.length]; lia).
  pose proof (Z.mod_pos_bound z (Z.of_nat (List.length seq))) as B.
  lia.
Qed.

Lemma gene_of_wf s act z1 z2 z3 gene :
  In act (Schedule.activities s) ->
  gene_of s act z1 z2 z3 = Ok gene -> gene_wf s gene.
Proof.
  intros Ia. unfold gene_of.
  destruct (pick (Schedule.facilitators s) z1) as [f|] eqn:Ef; simpl; [|discriminate].
  destruct (pick (Schedule.rooms s) z2) as [r|] eqn:Er; simpl; [|discriminate].
  destruct (pick (Schedule.times s) z3) as [tm|] eqn:Et; simpl; [|discriminate].
  intros E. inversion E; subst gene. unfold gene_wf; simpl.
  repeat split; [exact Ia | | |]; eapply pick_in; eassumption.
Qed.

Lemma dict_values_set_in (d : dict string ActivityAssignment.t) k x v :
  In v (dict_values (dict_set d k x)) -> v = x \/ In v (dict_values d).
Proof.
  induction d as [|[k' v'] d IH]; simpl.
  - intros [<-|[]]. auto.
  - destruct (String.eqb k' k); simpl.
    + intros [<-|I]; auto.
    + intros [<-|I]; auto. destruct (IH I); auto.
Qed.

Lemma random_genes_wf s acts :
  (forall act, In act acts -> In act (Schedule.activities s)) ->
  forall acc g d g',
    ScheduleAssignment.random_genes s acts acc g = Ok (d, g') ->
    (forall v, In v (dict_values acc) -> gene_wf s v) ->
    forall v, In v (dict_values d) -> gene_wf s v.
Proof.
  induction acts as [|act rest IH]; simpl; intros Ha acc g d g' E Hacc.
  - apply ret_ok in E. destruct E as [<- _]. exact Hacc.
  - inv_bind E. rewrite make_random_assignment_eq in E0.
    destruct (gene_of s act _ _ _) as [gene|] eqn:Eg; [|discriminate].
    inversion E0; subst a g0.
    apply (IH (fun x I => Ha x (or_intror I)) _ _ _ _ E).
    intros v I. apply dict_values_set_in in I. destruct I as [->|I]; [|auto].
    eapply gene_of_wf; [|exact Eg]. apply Ha. left. reflexivity.
Qed.

Lemma random_genes_keys_in s acts :
  forall acc g d g',
    ScheduleAssignment.random_genes s acts acc g = Ok (d, g') ->
    forall k, In k (dict_keys d) <-> In k (dict_keys acc) \/ In k (map Activity.get_id acts).
Proof.
  induction acts as [|act rest IH]; simpl; intros acc g d g' E k.
  - apply ret_ok in E. destruct E as [<- _]. tauto.
  - inv_bind E. rewrite (IH _ _ _ _ E k), dict_keys_set_iff. intuition congruence.
Qed.

Lemma make_random_assignment_view s g sa g' :
  ScheduleAssignment.make_random_assignment s g = Ok (sa, g') ->
  ScheduleAssignment.schedule sa = s
  /\ (forall k, In k (dict_keys (ScheduleAssignment.activities sa)) <-> In k (Schedule.ids s))
  /\ (forall gene, In gene (genes sa) -> gene_wf s gene).
Proof.
  unfold ScheduleAssignment.make_random_assignment. intros E.
  inv_bind E. apply ret_ok in E. destruct E as [<- _]. simpl.
  split; [reflexivity|]. split.
  - intros k. rewrite (random_genes_keys_in _ _ _ _ _ _ E0 k). simpl. unfold Schedule.ids. tauto.
  - unfold genes; simpl.
    apply (random_genes_wf s (Schedule.activities s) (fun x I => I) _ _ _ _ E0).
    simpl. tauto.
Qed.

Lemma map_result_head_err (A B : Type) (f : A -> result B) (x : A) (rest : list A) (e : exn) :
  f x = Err e -> map_result f (x :: rest) = Err e.
Proof. intros E. simpl. rewrite E. reflexivity. Qed.

Lemma initialise_fails s n g :
  (exists name, In name required_names /\ ~ In name (Schedule.ids s)) ->
  exists e, initialise s (S n) g = Err e.
Proof.
  intros (name & Ireq & Nid). unfold initialise, bind. cbn [replicate]. unfold bind.
  destruct (ScheduleAssignment.make_random_assignment s g) as [[sa g1]|e] eqn:E1; [|eauto].
  destruct (replicate n (ScheduleAssignment.make_random_assignment s) g1)
    as [[rest g2]|e]; [|eauto].
  unfold ret.
  destruct (make_random_assignment_view _ _ _ _ E1) as (_ & Hk & _).
  assert (G : dict_get (ScheduleAssignment.activities sa) name = None).
  { apply dict_get_none. rewrite Hk. exact Nid. }
  destruct (get_fitness_missing_name sa name Ireq G) as (e & Ef & _).
  rewrite (map_result_head_err _ _ get_fitness sa rest e Ef). simpl. eauto.
Qed.

Lemma main_fails exp s n fuel g :
  (exists name, In name required_names /\ ~ In name (Schedule.ids s)) ->
  exists e, initialise s (S n) g = Err e /\ main exp s (S n) fuel g = Err e.
Proof.
  intros H. destruct (initialise_fails s n g H) as [e E].
  exists e. split; [exact E|]. unfold main, bind. rewrite E. reflexivity.
Qed.

Lemma pick_ok (A : Type) (seq : list A) (z : Z) :
  seq <> [] -> exists x, pick seq z = Ok x.
Proof. destruct seq; [contradiction | simpl; eauto]. Qed.

Lemma gene_of_ok s act z1 z2 z3 :
  Schedule.facilitators s <> [] -> Schedule.rooms s <> [] -> Schedule.times s <> [] ->
  exists gene, gene_of s act z1 z2 z3 = Ok gene.
Proof.
  intros Hf Hr Ht. unfold gene_of.
  destruct (pick_ok _ (Schedule.facilitators s) z1 Hf) as [f ->].
  destruct (pick_ok _ (Schedule.rooms s) z2 Hr) as [r ->].
  destruct (pick_ok _ (Schedule.times s) z3 Ht) as [tm ->].
  simpl. eauto.
Qed.

Lemma random_genes_ok s acts :
  Schedule.facilitators s <> [] -> Schedule.rooms s <> [] -> Schedule.times s <> [] ->
  forall acc g, exists d g', ScheduleAssignment.random_genes s acts acc g = Ok (d, g').
Proof.
  intros Hf Hr Ht. induction acts as [|act rest IH]; simpl; intros acc g.
  - unfold ret. eauto.
  - unfold bind. rewrite make_random_assignment_eq.
    destruct (gene_of_ok s act (py_raw g (py_pos g)) (py_raw g (1 + py_pos g))
                (py_raw g (2 + py_pos g)) Hf Hr Ht) as [gene ->].
    apply IH.
Qed.

Lemma make_random_assignment_ok s g :
  Schedule.facilitators s <> [] -> Schedule.rooms s <> [] -> Schedule.times s <> [] ->
  exists sa g', ScheduleAssignment.make_random_assignment s g = Ok (sa, g').
Proof.
  intros Hf Hr Ht. unfold ScheduleAssignment.make_random_assignment, bind.
  destruct (random_genes_ok s (Schedule.activities s) Hf Hr Ht [] g) as (d & g' & ->).
  unfold ret. eauto.
Qed.

Lemma replicate_ok (A : Type) (m : M A) :
  (forall g, exists x g', m g = Ok (x, g')) ->
  forall n g, exists xs g', replicate n m g = Ok (xs, g').
Proof.
  intros Hm. induction n as [|n IH]; intros g; simpl.
  - unfold ret. eauto.
  - unfold bind. destruct (Hm g) as (x & g1 & ->).
    destruct (IH g1) as (xs & g2 & ->). unfold ret. eauto.
Qed.

Lemma initialise_head_err s n g sa g1 e :
  Schedule.facilitators s <> [] -> Schedule.rooms s <> [] -> Schedule.times s <> [] ->
  ScheduleAssignment.make_random_assignment s g = Ok (sa, g1) ->
  get_fitness sa = Err e ->
  initialise s (S n) g = Err e.
Proof.
  intros Hf Hr Ht E1 Ef. unfold initialise, bind. cbn [replicate]. unfold bind.
  rewrite E1.
  destruct (replicate_ok _ (ScheduleAssignment.make_random_assignment s)
              (fun g0 => make_random_assignment_ok s g0 Hf Hr Ht) n g1) as (rest & g2 & ->).
  unfold ret. rewrite (map_result_head_err _ _ get_fitness sa rest e Ef). reflexivity.
Qed.

Lemma toy_ids facilitator room a b :
  Activity.get_id a = "SLA101A"%string -> Activity.get_id b = "SLA101B"%string ->
  Schedule.ids (toy_schedule facilitator room a b) = ["SLA101A"%string; "SLA101B"%string].
Proof. intros Ha Hb. unfold Schedule.ids, toy_schedule. simpl. rewrite Ha, Hb. reflexivity. Qed.

Lemma toy_lacks_sla191 facilitator room a b :
  Activity.get_id a = "SLA101A"%string -> Activity.get_id b = "SLA101B"%string ->
  exists name, In name required_names
               /\ ~ In name (Schedule.ids (toy_schedule facilitator room a b)).
Proof.
  intros Ha Hb. exists "SLA191A"%string. rewrite (toy_ids facilitator room a b Ha Hb).
  split; [simpl; auto | simpl; intuition discriminate].
Qed.

Lemma toy_candidate facilitator room a b g sa g' :
  Activity.get_id a = "SLA101A"%string -> Activity.get_id b = "SLA101B"%string ->
  ScheduleAssignment.make_random_assignment (toy_schedule facilitator room a b) g
  = Ok (sa, g') ->
  dict_keys (ScheduleAssignment.activities sa) = ["SLA101A"%string; "SLA101B"%string]
  /\ (dict_get building_clusters (Room.building room) <> None ->
      Activity.expected_enrollment a <> 0 -> Activity.expected_enrollment b <> 0 ->
      quotient_in_range (Room.capacity room) (Activity.expected_enrollment a) ->
      quotient_in_range (Room.capacity room) (Activity.expected_enrollment b) ->
      get_fitness sa = Err KeyError).
Proof.
  intros Ha Hb E.
  assert (Hk : dict_keys (ScheduleAssignment.activities sa)
               = ["SLA101A"%string; "SLA101B"%string]).
  { unfold ScheduleAssignment.make_random_assignment in E.
    inv_bind E. apply ret_ok in E. destruct E as [<- _]. simpl.
    apply random_genes_keys in E0; simpl in E0 |- *; rewrite Ha, Hb in *.
    - exact E0.
    - repeat constructor; simpl; intuition discriminate. }
  split; [exact Hk|].
  intros Hroom Hea Heb Hra Hrb.
  apply (get_fitness_missing_name_scorable sa "SLA191A"%string).
  - simpl. auto.
  - apply dict_get_none. rewrite Hk. simpl. intuition discriminate.
  - intros gene I.
    destruct (make_random_assignment_view _ _ _ _ E) as (_ & _ & Hwf).
    destruct (Hwf gene I) as (Iact & _ & Iroom & _).
    unfold toy_schedule in Iact, Iroom. simpl in Iact, Iroom.
    unfold gene_scorable, ratio_in_range.
    destruct Iroom as [Er|[]]. rewrite <- Er. split; [exact Hroom|].
    destruct Iact as [Ea|[Ea|[]]]; rewrite <- Ea; split; assumption.
Qed.

Lemma toy_candidate_overflow facilitator room a b g sa g' :
  Activity.get_id a = "SLA101A"%string -> Activity.get_id b = "SLA101B"%string ->
  ScheduleAssignment.make_random_assignment (toy_schedule facilitator room a b) g
  = Ok (sa, g') ->
  dict_get building_clusters (Room.building room) <> None ->
  Activity.expected_enrollment a <> 0 ->
  ~ quotient_in_range (Room.capacity room) (Activity.expected_enrollment a) ->
  get_fitness sa = Err OverflowError.
Proof.
  intros Ha Hb E Hroom Hea Hra.
  unfold ScheduleAssignment.make_random_assignment in E.
  inv_bind E. apply ret_ok in E. destruct E as [<- _].
  cbn [toy_schedule Schedule.activities ScheduleAssignment.random_genes] in E0.
  inv_bind E0. inv_bind E0. apply ret_ok in E0. destruct E0 as [<- _].
  rewrite make_random_assignment_eq in E1, E2.
  destruct (gene_of _ a _ _ _) as [ga|] eqn:Ga; [|discriminate E1].
  destruct (gene_of _ b _ _ _) as [gb|] eqn:Gb; [|discriminate E2].
  assert (Ea1 : a1 = ga) by congruence. assert (Ea2 : a2 = gb) by congruence.
  subst a1 a2. clear E1 E2.
  assert (Wa : ActivityAssignment.activity ga = a /\ ActivityAssignment.room ga = room).
  { unfold gene_of in Ga.
    destruct (pick _ _) as [f|]; cbn [rbind] in Ga; [|discriminate Ga].
    destruct (pick (Schedule.rooms _) _) as [r|] eqn:Pr; cbn [rbind] in Ga;
      [|discriminate Ga].
    destruct (pick (Schedule.times _) _) as [tm|]; cbn [rbind] in Ga; [|discriminate Ga].
    inversion Ga; subst ga. cbn. split; [reflexivity|].
    apply pick_in in Pr. cbn in Pr. destruct Pr as [<-|[]]. reflexivity. }
  destruct Wa as [Wact Wroom].
  assert (Hab : String.eqb "SLA101A" "SLA101B" = false) by reflexivity.
  apply (get_fitness_first_failure _ [] ga [gb]).
  - unfold genes. cbn [ScheduleAssignment.activities dict_set].
    rewrite Ha, Hb. cbn [dict_set key_eqb Key_string]. rewrite Hab. reflexivity.
  - intros x [].
  - intros st. apply activity_step_overflow; rewrite ?Wact, ?Wroom;
      [exact Hroom | exact Hea |].
    unfold ratio_in_range. rewrite Wact, Wroom. exact Hra.
Qed.

(** C8 (amended). On the toy schedule with the two activities "SLA101A" and
    "SLA101B", one facilitator, one room and the time slots 0 and 1, every
    candidate that is generated covers exactly the two activities, and
    [get_fitness] raises on it; the evaluation of generation 0 therefore
    fails for every sequence of random draws, so the loop is never entered
    and no best candidate is reported.  The exception is [KeyError], for
    the missing "SLA191A", when the room's building has a cluster, the
    enrollments are non-zero and the two capacity quotients are within the
    range of a float; it is [OverflowError] when the first activity's
    quotient is out of that range. *)
Theorem toy_run_raises (exp : Q -> Q) (facilitator : string) (room : Room.t)
    (a b : Activity.t) (fuel : nat) (g : rng) :
  Activity.get_id a = "SLA101A"%string ->
  Activity.get_id b = "SLA101B"%string ->
  let toy := toy_schedule facilitator room a b in
  (exists sa g',
      ScheduleAssignment.make_random_assignment toy g = Ok (sa, g')
      /\ dict_keys (ScheduleAssignment.activities sa)
         = ["SLA101A"%string; "SLA101B"%string]
      /\ exists e, get_fitness sa = Err e)
  /\ (exists e, initialise toy 10 g = Err e /\ main exp toy 10 fuel g = Err e)
  /\ (dict_get building_clusters (Room.building room) <> None ->
      Activity.expected_enrollment a <> 0 -> Activity.expected_enrollment b <> 0 ->
      quotient_in_range (Room.capacity room) (Activity.expected_enrollment a) ->
      quotient_in_range (Room.capacity room) (Activity.expected_enrollment b) ->
      initialise toy 10 g = Err KeyError /\ main exp toy 10 fuel g = Err KeyError)
  /\ (dict_get building_clusters (Room.building room) <> None ->
      Activity.expected_enrollment a <> 0 ->
      ~ quotient_in_range (Room.capacity room) (Activity.expected_enrollment a) ->
      initialise toy 10 g = Err OverflowError
      /\ main exp toy 10 fuel g = Err OverflowError).
Proof.
  intros Ha Hb toy.
  assert (Hf : Schedule.facilitators toy <> []) by discriminate.
  assert (Hr : Schedule.rooms toy <> []) by discriminate.
  assert (Ht : Schedule.times toy <> []) by discriminate.
  destruct (make_random_assignment_ok toy g Hf Hr Ht) as (sa & g' & E).
  destruct (toy_candidate facilitator room a b g sa g' Ha Hb E) as [Hk Hkey].
  split; [|split; [|split]].
  - exists sa, g'. split; [exact E|]. split; [exact Hk|].
    destruct (get_fitness_missing_name sa "SLA191A"%string) as (e & Ee & _);
      [simpl; auto | | eauto].
    apply dict_get_none. rewrite Hk. simpl. intuition discriminate.
  - apply main_fails. apply toy_lacks_sla191; assumption.
  - intros Hroom Hea Heb Hra Hrb.
    assert (Ei : initialise toy 10 g = Err KeyError).
    { apply (initialise_head_err toy 9 g sa g' KeyError Hf Hr Ht E). auto. }
    split; [exact Ei|]. unfold main, bind. rewrite Ei. reflexivity.
  - intros Hroom Hea Hra.
    assert (Ei : initialise toy 10 g = Err OverflowError).
    { apply (initialise_head_err toy 9 g sa g' OverflowError Hf Hr Ht E).
      exact (toy_candidate_overflow facilitator room a b g sa g' Ha Hb E Hroom Hea Hra). }
    split; [exact Ei|]. unfold main, bind. rewrite Ei. reflexivity.
Qed.

Lemma toy_run_raises_witness :
  (initialise toy_demo 10 (affine_rng 7 3) = Err KeyError
   /\ main exp2 toy_demo 10 102 (affine_rng 7 3) = Err KeyError)
  /\ (initialise (toy_schedule "Glen" (Room.mk "Roman" 201 (10 ^ 400))
                    (sla 101 "A" 1) (sla 101 "B" 1)) 10 (affine_rng 7 3)
      = Err OverflowError).
Proof.
  split.
  - apply (toy_run_raises exp2 "Glen" roman_201 (sla 101 "A" 50) (sla 101 "B" 50) 102
             (affine_rng 7 3) eq_refl eq_refl).
    + simpl. discriminate.
    + simpl. discriminate.
    + simpl. discriminate.
    + vm_compute. reflexivity.
    + vm_compute. reflexivity.
  - apply (toy_run_raises exp2 "Glen" (Room.mk "Roman" 201 (10 ^ 400))
             (sla 101 "A" 1) (sla 101 "B" 1) 102 (affine_rng 7 3) eq_refl eq_refl).
    + simpl. discriminate.
    + simpl. discriminate.
    + intros H. vm_compute in H. discriminate H.
Defined.

(** The claim of C8 as stated fails: this run on the toy schedule reports
    no best candidate, however many generations it is given. *)
Lemma toy_run_counterexample :
  ~ (exists fuel best g',
       main exp2 toy_demo 10 fuel (affine_rng 7 3) = Ok (Some best, g')).
Proof.
  intros (fuel & best & g' & E).
  destruct (main_fails exp2 toy_demo 9 fuel (affine_rng 7 3)) as (e & _ & F).
  - exists "SLA191A"%string. split; [simpl; auto | simpl; intuition discriminate].
  - unfold toy_demo in E. change (S 9) with 10%nat in F. unfold toy_demo in F.
    rewrite F in E. clear F. discriminate E.
Qed.

(** C9 (amended). Nothing is checked when the schedule is loaded; the two
    configuration errors surface as exceptions of [get_fitness].
    - A candidate without one of the four named activities makes every
      [get_fitness] call raise: [KeyError] when all its genes get through
      the activity loop, and otherwise the exception of the first gene that
      does not.  A run on a schedule without one of the names therefore
      fails while generation 0 is evaluated, before the loop is entered.
    - A building without a cluster makes [get_fitness] raise on the
      candidates that place a gene in such a room, with [KeyError] when the
      genes before that one get through the activity loop.  It has no effect
      on other candidates: a candidate whose genes all sit in mapped
      buildings, with non-zero enrollments, capacity quotients within the
      range of a float and the four names present, is scored, whatever
      rooms the schedule lists.
    - Candidates are generated whatever rooms the schedule lists. *)
Theorem configuration_errors_raise_in_get_fitness :
  (forall sa name,
      In name required_names ->
      dict_get (ScheduleAssignment.activities sa) name = None ->
      (exists e, get_fitness sa = Err e
                 /\ (e = KeyError \/ e = ZeroDivisionError \/ e = OverflowError))
      /\ ((forall gene, In gene (genes sa) -> gene_scorable gene) ->
          get_fitness sa = Err KeyError))
  /\ (forall exp s n fuel g,
        (exists name, In name required_names /\ ~ In name (Schedule.ids s)) ->
        exists e, initialise s (S n) g = Err e /\ main exp s (S n) fuel g = Err e)
  /\ (forall sa gene,
        In gene (genes sa) ->
        dict_get building_clusters (Room.building (ActivityAssignment.room gene)) = None ->
        exists e, get_fitness sa = Err e)
  /\ (forall sa pre gene post,
        genes sa = (pre ++ gene :: post)%list ->
        (forall x, In x pre -> gene_scorable x) ->
        dict_get building_clusters (Room.building (ActivityAssignment.room gene)) = None ->
        get_fitness sa = Err KeyError)
  /\ (forall sa,
        (forall gene, In gene (genes sa) -> gene_scorable gene) ->
        (forall name, In name required_names ->
                      In name (dict_keys (ScheduleAssignment.activities sa))) ->
        exists f, get_fitness sa = Ok f)
  /\ (forall s g,
        Schedule.facilitators s <> [] -> Schedule.rooms s <> [] ->
        Schedule.times s <> [] ->
        exists sa g', ScheduleAssignment.make_random_assignment s g = Ok (sa, g')).
Proof.
  split.
  { intros sa name I G. split.
    - exact (get_fitness_missing_name sa name I G).
    - exact (get_fitness_missing_name_scorable sa name I G). }
  split; [exact main_fails|].
  split; [exact get_fitness_unmapped|].
  split.
  { intros sa pre gene post G Hs Hb.
    apply (get_fitness_first_failure sa pre gene post KeyError G Hs).
    intros st. apply activity_step_unmapped. exact Hb. }
  split; [exact get_fitness_ok | exact make_random_assignment_ok].
Qed.

Lemma configuration_errors_raise_in_get_fitness_witness :
  (exists e, initialise toy_demo 10 (affine_rng 7 3) = Err e
             /\ main exp2 toy_demo 10 102 (affine_rng 7 3) = Err e)
  /\ (exists f, get_fitness demo_parent_a = Ok f)
  /\ get_fitness
       (ScheduleAssignment.mk unmapped_schedule
          [("SLA101A"%string, ActivityAssignment.mk (sla 101 "A" 50) "Glen" annex_1 10)])
     = Err KeyError
  /\ get_fitness
       (ScheduleAssignment.mk demo_schedule
          [("SLA101A"%string, ActivityAssignment.mk (sla 101 "A" 50) "Glen" roman_201 10)])
     = Err KeyError.
Proof.
  destruct configuration_errors_raise_in_get_fitness as (H1 & H2 & _ & H3 & H4 & _).
  split; [|split; [|split]].
  - apply (H2 exp2 toy_demo 9%nat 102%nat (affine_rng 7 3)).
    exists "SLA191A"%string. split; [simpl; auto | simpl; intuition discriminate].
  - apply H4.
    + intros gene I. simpl in I.
      destruct I as [<-|[<-|[<-|[<-|[]]]]];
        (split; [simpl; discriminate | split; [simpl; discriminate | vm_compute; reflexivity]]).
    + intros name I. simpl in I |- *. tauto.
  - apply (H3 _ [] (ActivityAssignment.mk (sla 101 "A" 50) "Glen" annex_1 10) []).
    + reflexivity.
    + intros x [].
    + reflexivity.
  - apply (H1 _ "SLA191A"%string).
    + simpl. auto.
    + reflexivity.
    + intros gene I. simpl in I. destruct I as [<-|[]].
      split; [simpl; discriminate | split; [simpl; discriminate | vm_compute; reflexivity]].
Defined.

(** The claim of C9 as stated fails: on this run a schedule that lists a
    room in a building without a cluster is loaded, evaluated and evolved
    to convergence, and a best candidate is reported; no gene of the run is
    placed in that room. *)
Lemma unmapped_building_run_counterexample :
  In annex_1 (Schedule.rooms unmapped_schedule)
  /\ dict_get building_clusters (Room.building annex_1) = None
  /\ is_ok (initialise unmapped_schedule 10 (affine_rng 0 0)) = true
  /\ reports_best (main exp2 unmapped_schedule 10 102 (affine_rng 0 0)) = true.
Proof.
  split; [simpl; auto|]. split; [reflexivity|].
  split; vm_compute; reflexivity.
Qed.

(** * Further properties of the code *)

(** ** Reporting the best candidate *)

Lemma argmax_from_spec (xs : list Q) :
  forall (i best_ix : nat) (best : Q) (ix : nat) (m : Q),
    argmax_from i best_ix best xs = (ix, m) ->
    (best <= m)%Q
    /\ (forall j x, nth_error xs j = Some x -> (x <= m)%Q)
    /\ ((ix = best_ix /\ m = best)
        \/ exists k, ix = (i + k)%nat
                     /\ nth_error xs k = Some m
                     /\ (forall j x, (j < k)%nat -> nth_error xs j = Some x -> (x < m)%Q)
                     /\ (best < m)%Q).
Proof.
  induction xs as [|x rest IH]; intros i best_ix best ix m E.
  - simpl in E. inversion E; subst. split; [apply Qle_refl|].
    split; [intros [|j] x0 F; discriminate | left; auto].
  - cbn [argmax_from] in E. destruct (Qltb best x) eqn:L.
    + apply Qltb_lt in L.
      destruct (IH _ _ _ _ _ E) as (Hb & Hall & Hix).
      split; [lra|]. split.
      * intros [|j] x0 F; simpl in F; [inversion F; subst; exact Hb | eapply Hall; exact F].
      * right. destruct Hix as [[-> ->] | (k & -> & Hk & Hlt & Hbm)].
        -- exists 0%nat. split; [lia|]. split; [reflexivity|].
           split; [intros j x0 Hj; lia | exact L].
        -- exists (S k). split; [lia|]. split; [exact Hk|]. split; [|lra].
           intros [|j] x0 Hj F; simpl in F.
           ++ inversion F; subst. exact Hbm.
           ++ apply (Hlt j x0); [lia | exact F].
    + apply Qltb_ge in L.
      destruct (IH _ _ _ _ _ E) as (Hb & Hall & Hix).
      split; [exact Hb|]. split.
      * intros [|j] x0 F; simpl in F; [inversion F; subst; lra | eapply Hall; exact F].
      * destruct Hix as [[-> ->] | (k & -> & Hk & Hlt & Hbm)]; [left; auto|].
        right. exists (S k). split; [lia|]. split; [exact Hk|]. split; [|exact Hbm].
        intros [|j] x0 Hj F; simpl in F.
        -- inversion F; subst. lra.
        -- apply (Hlt j x0); [lia | exact F].
Qed.

Lemma best_of_spec (xs : list Q) (ix : nat) (m : Q) :
  best_of xs = Ok (ix, m) ->
  nth_error xs ix = Some m
  /\ (forall j x, nth_error xs j = Some x -> (x <= m)%Q)
  /\ (forall j x, (j < ix)%nat -> nth_error xs j = Some x -> (x < m)%Q).
Proof.
  destruct xs as [|x0 rest]; [discriminate|].
  unfold best_of. intros E. inversion E as [E']. clear E.
  destruct (argmax_from_spec rest _ _ _ _ _ E') as (Hb & Hall & Hix).
  destruct Hix as [[-> ->] | (k & -> & Hk & Hlt & Hbm)].
  - split; [reflexivity|]. split.
    + intros [|j] x F; simpl in F; [inversion F; subst; apply Qle_refl | eapply Hall; exact F].
    + intros j x Hj. lia.
  - split; [exact Hk|]. split.
    + intros [|j] x F; simpl in F; [inversion F; subst; exact Hb | eapply Hall; exact F].
    + intros [|j] x Hj F; simpl in F.
      * inversion F; subst. exact Hbm.
      * apply (Hlt j x); [lia | exact F].
Qed.

(** X1. The candidate reported after the loop is the first member of the
    final population whose fitness is maximal: no fitness exceeds the
    reported one and every earlier member has a strictly smaller fitness.
    An empty fitness list raises [ValueError]. *)
Theorem report_first_maximum (st : loop_state) :
  (population_fitness st = [] -> report st = Err ValueError)
  /\ (forall best_fitness s,
        report st = Ok (best_fitness, s) ->
        exists best_schedule_ix,
          nth_error (population st) best_schedule_ix = Some s
          /\ nth_error (population_fitness st) best_schedule_ix = Some best_fitness
          /\ (forall j x, nth_error (population_fitness st) j = Some x ->
                          (x <= best_fitness)%Q)
          /\ (forall j x, (j < best_schedule_ix)%nat ->
                          nth_error (population_fitness st) j = Some x ->
                          (x < best_fitness)%Q))
  /\ (List.length (population_fitness st) = List.length (population st) ->
      population_fitness st <> [] ->
      exists best_fitness s, report st = Ok (best_fitness, s)).
Proof.
  split; [|split].
  - intros E. unfold report. rewrite E. reflexivity.
  - intros best_fitness s E. unfold report in E.
    destruct (best_of (population_fitness st)) as [[ix m]|e] eqn:B; simpl in E; [|discriminate].
    destruct (nth_error (population st) ix) as [s0|] eqn:N; [|discriminate].
    inversion E; subst m s0.
    destruct (best_of_spec _ _ _ B) as (H1 & H2 & H3).
    exists ix. auto.
  - intros Hl Hne. unfold report.
    destruct (population_fitness st) as [|x0 rest] eqn:F; [contradiction|].
    destruct (best_of (x0 :: rest)) as [[ix m]|e] eqn:B; [|discriminate]. simpl.
    destruct (best_of_spec _ _ _ B) as (H1 & _ & _).
    assert (Hix : (ix < List.length (population st))%nat).
    { rewrite <- Hl. apply nth_error_Some. congruence. }
    destruct (nth_error (population st) ix) as [s|] eqn:N; [eauto|].
    apply nth_error_None in N. lia.
Qed.

Lemma report_first_maximum_witness :
  exists best_schedule_ix,
    nth_error demo_population best_schedule_ix = Some demo_parent_b
    /\ nth_error [1; 3; 3]%Q best_schedule_ix = Some 3%Q
    /\ (forall j x, nth_error [1; 3; 3]%Q j = Some x -> (x <= 3)%Q)
    /\ (forall j x, (j < best_schedule_ix)%nat ->
                    nth_error [1; 3; 3]%Q j = Some x -> (x < 3)%Q).
Proof.
  exact (proj1 (proj2 (report_first_maximum
                         (mkLoop 101 demo_population [1; 3; 3]%Q (1 # 10))))
           3%Q demo_parent_b eq_refl).
Defined.

(** ** The next generation *)

Lemma sample_total (size : nat) :
  forall p g, exists idx g', numpy.sample size p g = Ok (idx, g').
Proof.
  induction size as [|size IH]; intros p g; cbn [numpy.sample].
  - unfold ret. eauto.
  - unfold bind. rewrite rand_eq.
    destruct (IH (numpy.zero_at
                    (numpy.searchsorted p (unit_float (np_raw g (np_pos g)) * Qsum p)%Q) p)
                 (mkRng (py_raw g) (py_pos g) (np_raw g) (S (np_pos g))))
      as (idx & g' & ->).
    unfold ret. eauto.
Qed.

Lemma choice_indices_err (n size : nat) (p : option (list Q)) (g : rng) (e : exn) :
  numpy.choice_indices n size p g = Err e -> e = ValueError.
Proof.
  unfold numpy.choice_indices, raise.
  destruct (n =? 0)%nat; [intros E; inversion E; reflexivity|].
  destruct (negb _); [intros E; inversion E; reflexivity|].
  destruct (existsb _ _); [intros E; inversion E; reflexivity|].
  destruct (negb _); [intros E; inversion E; reflexivity|].
  destruct (n <? size)%nat; [intros E; inversion E; reflexivity|].
  destruct (_ <? size)%nat; [intros E; inversion E; reflexivity|].
  intros E.
  destruct (sample_total size (match p with Some w => w | None => numpy.uniform n end) g)
    as (idx & g' & S0).
  rewrite S0 in E. discriminate E.
Qed.

Lemma choice_err (A : Type) (a : list A) (size : nat) (p : option (list Q))
    (g : rng) (e : exn) :
  numpy.choice a size p g = Err e -> e = ValueError.
Proof.
  unfold numpy.choice, bind.
  destruct (numpy.choice_indices (List.length a) size p g) as [[idx g']|e0] eqn:E0.
  - unfold ret. discriminate.
  - intros E. inversion E; subst. eapply choice_indices_err. exact E0.
Qed.

Lemma select_parents_err exp population population_fitness size g e :
  select_parents exp population population_fitness size g = Err e -> e = ValueError.
Proof.
  unfold select_parents, bind, lift.
  destruct (softmax exp population_fitness) as [p|e0] eqn:Es.
  - apply choice_err.
  - unfold softmax in Es. destruct population_fitness; [|discriminate].
    inversion Es; subst. intros E. inversion E. reflexivity.
Qed.

Lemma take_indices_in (A : Type) (a : list A) (idx : list nat) (x : A) :
  In x (numpy.take_indices a idx) -> In x a.
Proof.
  induction idx as [|i idx IH]; simpl; [contradiction|].
  destruct (nth_error a i) as [y|] eqn:E; [|exact IH].
  intros [<-|I]; [eapply nth_error_In; exact E | apply IH; exact I].
Qed.

Lemma choice_pair (A : Type) (pool : list A) (g : rng) (pair : list A) (g' : rng) :
  numpy.choice pool 2 None g = Ok (pair, g') ->
  exists i j a b,
    pair = [a; b] /\ i <> j
    /\ nth_error pool i = Some a /\ nth_error pool j = Some b.
Proof.
  intros E. unfold numpy.choice in E. inv_bind E. apply ret_ok in E. destruct E as [<- _].
  destruct (choice_indices_spec _ _ _ _ _ _ E0) as (_ & Len & ND & F & _).
  destruct a as [|i [|j [|k rest]]]; simpl in Len; try discriminate.
  inversion F as [|? ? Li F1]; subst. inversion F1 as [|? ? Lj F2]; subst.
  inversion ND as [|? ? Nin _]; subst.
  destruct (nth_error pool i) as [a|] eqn:Ei; [|apply nth_error_None in Ei; lia].
  destruct (nth_error pool j) as [b|] eqn:Ej; [|apply nth_error_None in Ej; lia].
  exists i, j, a, b. simpl. rewrite Ei, Ej.
  repeat split; try reflexivity. intros ->. apply Nin. left. reflexivity.
Qed.

Lemma choice_pair_too_few (A : Type) (pool : list A) (g : rng) :
  (List.length pool < 2)%nat -> numpy.choice pool 2 None g = Err ValueError.
Proof.
  intros L. unfold numpy.choice, bind.
  rewrite (choice_indices_too_large _ _ None g L). reflexivity.
Qed.

Lemma cross_schedules_keys s a b rate g child g' :
  NoDup (Schedule.ids s) ->
  cross_schedules s a b rate g = Ok (child, g') ->
  dict_keys (ScheduleAssignment.activities child) = Schedule.ids s
  /\ ScheduleAssignment.schedule child = ScheduleAssignment.schedule a.
Proof.
  intros ND E. unfold cross_schedules in E.
  inv_bind E. inv_bind E. apply ret_ok in E. destruct E as [<- _]. simpl.
  split; [|reflexivity].
  apply cross_loop_keys in E1; [exact E1 | exact ND].
Qed.

Lemma breed_shape schedule pool rate slots :
  forall g children g',
    breed schedule pool rate slots g = Ok (children, g') ->
    List.length children = List.length slots
    /\ Forall (fun child =>
                 exists i j a b g1 g2,
                   i <> j /\ nth_error pool i = Some a /\ nth_error pool j = Some b
                   /\ cross_schedules schedule a b rate g1 = Ok (child, g2))
              children.
Proof.
  induction slots as [|slot slots IH]; intros g children g' E; cbn [breed] in E.
  - apply ret_ok in E. destruct E as [<- _]. split; [reflexivity | constructor].
  - inv_bind E.
    destruct (choice_pair _ _ _ _ _ E0) as (i & j & pa & pb & -> & Nij & Ei & Ej).
    inv_bind E. inv_bind E. apply ret_ok in E. destruct E as [<- _].
    destruct (IH _ _ _ E2) as [Len F].
    split; [simpl; rewrite Len; reflexivity|].
    constructor; [|exact F].
    exists i, j, pa, pb, g0, g1. auto.
Qed.

Lemma breed_too_few schedule pool rate slot slots g :
  (List.length pool < 2)%nat ->
  breed schedule pool rate (slot :: slots) g = Err ValueError.
Proof.
  intros L. cbn [breed]. unfold bind. rewrite (choice_pair_too_few _ pool g L). reflexivity.
Qed.

Lemma select_parents_length exp population population_fitness size g pool g' :
  select_parents exp population population_fitness size g = Ok (pool, g') ->
  List.length pool = size.
Proof.
  unfold select_parents. intros E. inv_bind E.
  destruct (choice_spec _ _ _ _ _ _ _ E) as (idx & _ & _ & _ & _ & _ & L & _).
  exact L.
Qed.

Lemma select_parents_subset exp population population_fitness size g pool g' :
  select_parents exp population population_fitness size g = Ok (pool, g') ->
  forall x, In x pool -> In x population.
Proof.
  unfold select_parents. intros E. inv_bind E. unfold numpy.choice in E.
  inv_bind E. apply ret_ok in E. destruct E as [<- _].
  intros x. apply take_indices_in.
Qed.

Lemma select_parents_nodup exp population population_fitness size g pool g' :
  select_parents exp population population_fitness size g = Ok (pool, g') ->
  NoDup population -> NoDup pool.
Proof.
  unfold select_parents. intros E. inv_bind E.
  destruct (choice_spec _ _ _ _ _ _ _ E) as (idx & _ & _ & _ & _ & _ & _ & ND).
  exact ND.
Qed.

(** X2. A generation that [get_next_generation] returns has as many
    members as the population it was derived from.  Every member is the
    offspring of two parents taken at two distinct positions of the parent
    pool that was selected from the old population, so both parents are
    members of the old population, and they are different candidates when
    the old population has no repeated member.  The offspring carries its
    first parent's schedule and, when the schedule's identifiers are
    pairwise distinct, its keys are the schedule's identifiers in schedule
    order. *)
Theorem next_generation_shape (exp : Q -> Q) (schedule : Schedule.t)
    (population : list ScheduleAssignment.t) (population_fitness : list Q)
    (parent_pool_size : nat) (mutation_rate : Q) (g : rng)
    (new_generation : list ScheduleAssignment.t) (g' : rng) :
  get_next_generation exp schedule population population_fitness parent_pool_size
    mutation_rate g = Ok (new_generation, g') ->
  exists parent_population g0,
    select_parents exp population population_fitness parent_pool_size g
    = Ok (parent_population, g0)
    /\ List.length parent_population = parent_pool_size
    /\ (forall x, In x parent_population -> In x population)
    /\ List.length new_generation = List.length population
    /\ Forall (fun child =>
                 (exists i j a b g1 g2,
                    i <> j
                    /\ nth_error parent_population i = Some a
                    /\ nth_error parent_population j = Some b
                    /\ In a population /\ In b population
                    /\ (NoDup population -> a <> b)
                    /\ cross_schedules schedule a b mutation_rate g1 = Ok (child, g2)
                    /\ ScheduleAssignment.schedule child = ScheduleAssignment.schedule a)
                 /\ (NoDup (Schedule.ids schedule) ->
                     dict_keys (ScheduleAssignment.activities child)
                     = Schedule.ids schedule))
              new_generation.
Proof.
  intros E. unfold get_next_generation in E. inv_bind E.
  destruct (breed_shape _ _ _ _ _ _ _ E) as [Len F].
  pose proof (select_parents_subset _ _ _ _ _ _ _ E0) as Hpool.
  exists a, g0.
  split; [exact E0|].
  split; [exact (select_parents_length _ _ _ _ _ _ _ E0)|].
  split; [exact Hpool|].
  split; [exact Len|].
  eapply Forall_impl; [|exact F].
  intros child (i & j & pa & pb & g1 & g2 & Nij & Ei & Ej & Ec).
  split.
  - exists i, j, pa, pb, g1, g2.
    split; [exact Nij|]. split; [exact Ei|]. split; [exact Ej|].
    split; [apply Hpool; eapply nth_error_In; exact Ei|].
    split; [apply Hpool; eapply nth_error_In; exact Ej|].
    split.
    + intros ND Eab. subst pb.
      pose proof (select_parents_nodup _ _ _ _ _ _ _ E0 ND) as NDp.
      apply Nij. apply (proj1 (NoDup_nth_error a) NDp i j).
      * apply nth_error_Some. congruence.
      * congruence.
    + split; [exact Ec|].
      unfold cross_schedules in Ec. inv_bind Ec. inv_bind Ec.
      apply ret_ok in Ec. destruct Ec as [<- _]. reflexivity.
  - intros ND. exact (proj1 (cross_schedules_keys _ _ _ _ _ _ _ ND Ec)).
Qed.

Lemma next_generation_shape_witness :
  match get_next_generation exp2 demo_schedule demo_population [1; 2; 0]%Q 2 (1 # 10)
          (affine_rng 7 3) with
  | Ok (new_generation, _) =>
      exists parent_population : list ScheduleAssignment.t,
        List.length parent_population = 2%nat
        /\ List.length new_generation = List.length demo_population
        /\ Forall (fun child =>
                     (exists i j a b,
                        i <> j
                        /\ nth_error parent_population i = Some a
                        /\ nth_error parent_population j = Some b)
                     /\ dict_keys (ScheduleAssignment.activities child)
                        = Schedule.ids demo_schedule)
                  new_generation
  | Err _ => False
  end.
Proof.
  destruct (get_next_generation exp2 demo_schedule demo_population [1; 2; 0]%Q 2 (1 # 10)
              (affine_rng 7 3)) as [[new_generation g']|e] eqn:E;
    [|vm_compute in E; discriminate E].
  destruct (next_generation_shape _ _ _ _ _ _ _ _ _ E)
    as (pool & g0 & _ & Lp & _ & Len & F).
  exists pool. split; [exact Lp|]. split; [exact Len|].
  eapply Forall_impl; [|exact F].
  intros child [(i & j & a & b & _ & _ & Nij & Ei & Ej & _) Hk]. split.
  - exists i, j, a, b. auto.
  - apply Hk. vm_compute. repeat constructor; simpl; intuition discriminate.
Defined.

Lemma replicate_length (A : Type) (m : M A) (n : nat) :
  forall g xs g', replicate n m g = Ok (xs, g') -> List.length xs = n.
Proof.
  induction n as [|n IH]; intros g xs g' E; cbn [replicate] in E.
  - apply ret_ok in E. destruct E as [<- _]. reflexivity.
  - inv_bind E. inv_bind E. apply ret_ok in E. destruct E as [<- _].
    simpl. f_equal. eapply IH. exact E1.
Qed.

Lemma map_result_length (A B : Type) (f : A -> result B) (l : list A) :
  forall ys, map_result f l = Ok ys -> List.length ys = List.length l.
Proof.
  induction l as [|x rest IH]; intros ys E; simpl in E.
  - inversion E. reflexivity.
  - destruct (f x) as [y|]; simpl in E; [|discriminate].
    destruct (map_result f rest) as [ys'|]; simpl in E; [|discriminate].
    inversion E; subst. simpl. f_equal. apply IH. reflexivity.
Qed.

Lemma initialise_view s n r st r' :
  initialise s n r = Ok (st, r') ->
  g st = 0
  /\ List.length (population st) = n
  /\ List.length (population_fitness st) = n
  /\ mutation_rate st = initial_mutation_rate
  /\ map_result get_fitness (population st) = Ok (population_fitness st).
Proof.
  unfold initialise. intros E. inv_bind E. inv_bind E.
  apply lift_ok in E1. destruct E1 as [Ef <-].
  apply ret_ok in E. destruct E as [<- _]. simpl.
  pose proof (replicate_length _ _ _ _ _ _ E0) as Lp.
  pose proof (map_result_length _ _ _ _ _ Ef) as Lf.
  repeat split; try assumption; try reflexivity. congruence.
Qed.

(** ** Populations too small to breed *)

Lemma PARENT_POPULATION_SIZE_fifth (n : nat) :
  PARENT_POPULATION_SIZE n = (n / 5)%nat.
Proof.
  unfold PARENT_POPULATION_SIZE, Qfloor, Qmult, inject_Z. simpl Qnum. simpl Qden.
  rewrite Z.mul_1_r. change (Z.pos (1 * 5)) with (Z.of_nat 5).
  rewrite <- Nat2Z.inj_div. apply Nat2Z.id.
Qed.

Lemma get_next_generation_small_pool exp schedule population population_fitness
    size rate g :
  population <> [] -> (size < 2)%nat ->
  get_next_generation exp schedule population population_fitness size rate g
  = Err ValueError.
Proof.
  intros Ne Ls. unfold get_next_generation, bind.
  destruct (select_parents exp population population_fitness size g)
    as [[pool g1]|e] eqn:E.
  - pose proof (select_parents_length _ _ _ _ _ _ _ E) as L.
    destruct population as [|slot slots]; [contradiction|].
    apply breed_too_few. lia.
  - rewrite (select_parents_err _ _ _ _ _ _ E). reflexivity.
Qed.

Lemma average_empty (xs : list Q) : average xs 0 = Err ZeroDivisionError.
Proof. reflexivity. Qed.

(** X3. The parent pool is a fifth of the population, rounded down.  A
    non-empty population cannot be bred from a pool of fewer than two
    parents ([ValueError]), so with a population size below 10 no run gets
    through its first generation: [main] raises for every schedule and all
    random draws. *)
Theorem small_population_cannot_evolve :
  (forall n, PARENT_POPULATION_SIZE n = (n / 5)%nat)
  /\ (forall exp schedule population population_fitness size rate g,
        population <> [] -> (size < 2)%nat ->
        get_next_generation exp schedule population population_fitness size rate g
        = Err ValueError)
  /\ (forall exp schedule n fuel r,
        (n < 10)%nat -> exists e, main exp schedule n (S fuel) r = Err e).
Proof.
  split; [exact PARENT_POPULATION_SIZE_fifth|].
  split; [exact get_next_generation_small_pool|].
  intros exp schedule n fuel r Hn. unfold main, bind.
  destruct (initialise schedule n r) as [[st0 r1]|e] eqn:Ei; [|eauto].
  destruct (initialise_view _ _ _ _ _ Ei) as (_ & Lp & Lf & _ & _).
  cbn [evolve]. unfold bind, generation. unfold bind.
  destruct (lift (average (population_fitness st0) (List.length (population st0))) r1)
    as [[avg r2]|e] eqn:Ea; [|eauto].
  apply lift_ok in Ea. destruct Ea as [Ea <-].
  destruct (population st0) as [|slot slots] eqn:Ep.
  - simpl in Ea. rewrite average_empty in Ea. discriminate Ea.
  - rewrite get_next_generation_small_pool; [eauto | discriminate |].
    rewrite PARENT_POPULATION_SIZE_fifth.
    assert (n / 5 < 2)%nat; [|assumption].
    apply Nat.Div0.div_lt_upper_bound. lia.
Qed.

Lemma small_population_cannot_evolve_witness :
  get_next_generation exp2 demo_schedule demo_population [1; 2; 0]%Q 1 (1 # 10)
    (affine_rng 7 3) = Err ValueError
  /\ exists e, main exp2 demo_schedule 9 102 (affine_rng 7 3) = Err e.
Proof.
  destruct small_population_cannot_evolve as (_ & H2 & H3).
  split.
  - apply H2; [discriminate | lia].
  - apply (H3 exp2 demo_schedule 9%nat 101%nat (affine_rng 7 3)). lia.
Defined.

(** ** Well-formed candidates *)

Lemma dict_set_in_pair (d : dict string ActivityAssignment.t) k v k' v' :
  In (k', v') (dict_set d k v) -> (k', v') = (k, v) \/ In (k', v') d.
Proof.
  induction d as [|[k0 v0] d IH]; simpl.
  - intros [E|[]]. left. congruence.
  - destruct (String.eqb k0 k) eqn:Ek; simpl.
    + apply String.eqb_eq in Ek. subst k0.
      intros [E|I]; [left; congruence | right; right; exact I].
    + intros [E|I]; [right; left; exact E|].
      destruct (IH I) as [E|I']; [left; exact E | right; right; exact I'].
Qed.

Lemma dict_get_in_pair (d : dict string ActivityAssignment.t) k v :
  dict_get d k = Some v -> In (k, v) d.
Proof.
  induction d as [|[k0 v0] d IH]; simpl; [discriminate|].
  destruct (String.eqb k0 k) eqn:Ek.
  - apply String.eqb_eq in Ek. subst k0. intros E. inversion E. left. reflexivity.
  - intros E. right. apply IH. exact E.
Qed.

Lemma gene_of_activity s act z1 z2 z3 gene :
  gene_of s act z1 z2 z3 = Ok gene -> ActivityAssignment.activity gene = act.
Proof.
  unfold gene_of.
  destruct (pick (Schedule.facilitators s) z1); simpl; [|discriminate].
  destruct (pick (Schedule.rooms s) z2); simpl; [|discriminate].
  destruct (pick (Schedule.times s) z3); simpl; [|discriminate].
  intros E. inversion E. reflexivity.
Qed.

Lemma random_genes_entries s acts :
  (forall act, In act acts -> In act (Schedule.activities s)) ->
  forall acc g d g',
    ScheduleAssignment.random_genes s acts acc g = Ok (d, g') ->
    (forall k gene, In (k, gene) acc ->
        gene_wf s gene /\ Activity.get_id (ActivityAssignment.activity gene) = k) ->
    forall k gene, In (k, gene) d ->
      gene_wf s gene /\ Activity.get_id (ActivityAssignment.activity gene) = k.
Proof.
  induction acts as [|act rest IH]; simpl; intros Ha acc g d g' E Hacc.
  - apply ret_ok in E. destruct E as [<- _]. exact Hacc.
  - inv_bind E. rewrite make_random_assignment_eq in E0.
    destruct (gene_of s act _ _ _) as [gene0|] eqn:Eg; [|discriminate E0].
    inversion E0; subst a g0.
    apply (IH (fun x I => Ha x (or_intror I)) _ _ _ _ E).
    intros k gene I. apply dict_set_in_pair in I. destruct I as [Eq|I]; [|auto].
    inversion Eq; subst k gene. split.
    + eapply gene_of_wf; [|exact Eg]. apply Ha. left. reflexivity.
    + rewrite (gene_of_activity _ _ _ _ _ _ Eg). reflexivity.
Qed.

Lemma cross_gene_source s a b rate c i act g gene g' :
  cross_gene s a b rate c i act g = Ok (gene, g') ->
  (exists z1 z2 z3, gene_of s act z1 z2 z3 = Ok gene)
  \/ dict_get (ScheduleAssignment.activities a) (Activity.get_id act) = Some gene
  \/ dict_get (ScheduleAssignment.activities b) (Activity.get_id act) = Some gene.
Proof.
  destruct (Qltb (coin g 0) rate) eqn:Ec.
  - rewrite cross_gene_mutated by exact Ec. rewrite make_random_assignment_eq.
    destruct (gene_of s act _ _ _) as [gene0|] eqn:Eg; [|discriminate].
    intros E. inversion E; subst gene0. left. eauto.
  - rewrite cross_gene_unmutated by exact Ec. unfold lift, dict_index.
    destruct (i <? c).
    + destruct (dict_get _ _) as [gene0|]; [|discriminate].
      intros E. inversion E. right. left. reflexivity.
    + destruct (dict_get _ _) as [gene0|]; [|discriminate].
      intros E. inversion E. right. right. reflexivity.
Qed.

Lemma cross_loop_entries s a b rate c acts :
  candidate_wf s a -> candidate_wf s b ->
  (forall act, In act acts -> In act (Schedule.activities s)) ->
  forall i acc g d g',
    cross_loop s a b rate c i acts acc g = Ok (d, g') ->
    (forall k gene, In (k, gene) acc ->
        gene_wf s gene /\ Activity.get_id (ActivityAssignment.activity gene) = k) ->
    forall k gene, In (k, gene) d ->
      gene_wf s gene /\ Activity.get_id (ActivityAssignment.activity gene) = k.
Proof.
  intros Wa Wb. induction acts as [|act rest IH]; simpl; intros Ha i acc g d g' E Hacc.
  - apply ret_ok in E. destruct E as [<- _]. exact Hacc.
  - inv_bind E.
    apply (IH (fun x I => Ha x (or_intror I)) _ _ _ _ _ E).
    intros k gene I. apply dict_set_in_pair in I. destruct I as [Eq|I]; [|auto].
    inversion Eq; subst k gene.
    destruct (cross_gene_source _ _ _ _ _ _ _ _ _ _ E0) as [(z1 & z2 & z3 & Eg)|[G|G]].
    + split.
      * eapply gene_of_wf; [|exact Eg]. apply Ha. left. reflexivity.
      * rewrite (gene_of_activity _ _ _ _ _ _ Eg). reflexivity.
    + apply Wa. apply dict_get_in_pair. exact G.
    + apply Wb. apply dict_get_in_pair. exact G.
Qed.

Lemma make_random_assignment_wf s g sa g' :
  ScheduleAssignment.make_random_assignment s g = Ok (sa, g') -> candidate_wf s sa.
Proof.
  unfold ScheduleAssignment.make_random_assignment. intros E.
  inv_bind E. apply ret_ok in E. destruct E as [<- _]. unfold candidate_wf. simpl.
  apply (random_genes_entries s (Schedule.activities s) (fun x I => I) _ _ _ _ E0).
  simpl. contradiction.
Qed.

Lemma cross_schedules_wf s a b rate g child g' :
  candidate_wf s a -> candidate_wf s b ->
  cross_schedules s a b rate g = Ok (child, g') -> candidate_wf s child.
Proof.
  intros Wa Wb E. unfold cross_schedules in E.
  inv_bind E. inv_bind E. apply ret_ok in E. destruct E as [<- _].
  unfold candidate_wf. simpl.
  apply (cross_loop_entries s a b rate a0 (Schedule.activities s) Wa Wb
           (fun x I => I) _ _ _ _ _ E1).
  simpl. contradiction.
Qed.

(** X4. Every gene of a candidate built by
    [ScheduleAssignment.make_random_assignment] carries an activity, a
    facilitator, a room and a time taken from the schedule, and is filed
    under the identifier of its own activity; [cross_schedules] keeps this:
    the offspring of two such candidates is such a candidate, for every
    crossover point, mutation rate and sequence of draws. *)
Theorem candidates_stay_within_schedule (s : Schedule.t) :
  (forall g sa g',
      ScheduleAssignment.make_random_assignment s g = Ok (sa, g') ->
      candidate_wf s sa /\ ScheduleAssignment.schedule sa = s)
  /\ (forall a b rate g child g',
      candidate_wf s a -> candidate_wf s b ->
      cross_schedules s a b rate g = Ok (child, g') ->
      candidate_wf s child).
Proof.
  split.
  - intros g sa g' E. split; [eapply make_random_assignment_wf; exact E|].
    exact (proj1 (make_random_assignment_view _ _ _ _ E)).
  - intros a b rate g child g'. apply cross_schedules_wf.
Qed.

Lemma candidates_stay_within_schedule_witness :
  match ScheduleAssignment.make_random_assignment demo_schedule (affine_rng 7 3) with
  | Ok (a, g1) =>
      candidate_wf demo_schedule a
      /\ match cross_schedules demo_schedule a a (1 # 2) g1 with
         | Ok (child, _) => candidate_wf demo_schedule child
         | Err _ => False
         end
  | Err _ => False
  end.
Proof.
  destruct (ScheduleAssignment.make_random_assignment demo_schedule (affine_rng 7 3))
    as [[a g1]|] eqn:Ea; [|vm_compute in Ea; discriminate Ea].
  pose proof (proj1 (proj1 (candidates_stay_within_schedule demo_schedule) _ _ _ Ea)) as Wa.
  split; [exact Wa|].
  destruct (cross_schedules demo_schedule a a (1 # 2) g1) as [[child g2]|] eqn:Ec.
  - exact (proj2 (candidates_stay_within_schedule demo_schedule) _ _ _ _ _ _ Wa Wa Ec).
  - vm_compute in Ea. inversion Ea; subst. vm_compute in Ec. discriminate Ec.
Defined.

(** ** What every generation keeps *)

Lemma replicate_forall (A : Type) (m : M A) (P : A -> Prop) :
  (forall g x g', m g = Ok (x, g') -> P x) ->
  forall n g xs g', replicate n m g = Ok (xs, g') -> Forall P xs.
Proof.
  intros Hm. induction n as [|n IH]; intros g xs g' E; cbn [replicate] in E.
  - apply ret_ok in E. destruct E as [<- _]. constructor.
  - inv_bind E. inv_bind E. apply ret_ok in E. destruct E as [<- _].
    constructor; [eapply Hm; exact E0 | eapply IH; exact E1].
Qed.

Lemma make_random_assignment_member_ok s g sa g' :
  ScheduleAssignment.make_random_assignment s g = Ok (sa, g') -> member_ok s sa.
Proof.
  intros E. split; [eapply make_random_assignment_wf; exact E|].
  intros ND. unfold ScheduleAssignment.make_random_assignment in E.
  inv_bind E. apply ret_ok in E. destruct E as [<- _]. simpl.
  apply random_genes_keys in E0; [exact E0 | exact ND].
Qed.

Lemma initialise_invariant s n r st r' :
  initialise s n r = Ok (st, r') -> loop_invariant s st.
Proof.
  intros E. destruct (initialise_view _ _ _ _ _ E) as (_ & _ & _ & _ & Hf).
  split; [|exact Hf].
  unfold initialise in E. inv_bind E. inv_bind E.
  apply ret_ok in E. destruct E as [<- _]. simpl.
  eapply replicate_forall; [|exact E0].
  intros ? ? ?. apply make_random_assignment_member_ok.
Qed.

Lemma get_next_generation_members exp s population population_fitness size rate g
    new_generation g' :
  Forall (member_ok s) population ->
  get_next_generation exp s population population_fitness size rate g
  = Ok (new_generation, g') ->
  Forall (member_ok s) new_generation.
Proof.
  intros Hpop E. unfold get_next_generation in E. inv_bind E.
  pose proof (select_parents_subset _ _ _ _ _ _ _ E0) as Hsub.
  destruct (breed_shape _ _ _ _ _ _ _ E) as [_ F].
  rewrite Forall_forall in Hpop.
  eapply Forall_impl; [|exact F].
  intros child (i & j & pa & pb & g1 & g2 & _ & Ei & Ej & Ec).
  assert (Wa : member_ok s pa) by (apply Hpop, Hsub; eapply nth_error_In; exact Ei).
  assert (Wb : member_ok s pb) by (apply Hpop, Hsub; eapply nth_error_In; exact Ej).
  split.
  - exact (cross_schedules_wf _ _ _ _ _ _ _ (proj1 Wa) (proj1 Wb) Ec).
  - intros ND. exact (proj1 (cross_schedules_keys _ _ _ _ _ _ _ ND Ec)).
Qed.

Lemma generation_invariant exp s size st r o r' :
  loop_invariant s st ->
  generation exp s size st r = Ok (o, r') ->
  loop_invariant s (match o with Converged st' => st' | Advancing st' => st' end).
Proof.
  intros [Hpop _] E.
  destruct (generation_inv _ _ _ _ _ _ _ E)
    as (ap & pop & fit & avg & d & _ & Eg & Ef & _ & _ & Ho).
  pose proof (get_next_generation_members _ _ _ _ _ _ _ _ _ Hpop Eg) as Hnew.
  subst o. destruct d; split; simpl; assumption.
Qed.

Lemma evolve_invariant exp s size fuel :
  forall st r st' r',
    loop_invariant s st ->
    evolve exp s size fuel st r = Ok (Some st', r') ->
    loop_invariant s st'.
Proof.
  induction fuel as [|fuel IH]; intros st r st' r' Inv E.
  - simpl in E. apply ret_ok in E. destruct E as [E _]. discriminate E.
  - cbn [evolve] in E. inv_bind E.
    pose proof (generation_invariant _ _ _ _ _ _ _ Inv E0) as Inv'.
    destruct a as [st1|st1].
    + apply ret_ok in E. destruct E as [E _]. inversion E; subst st1. exact Inv'.
    + eapply IH; [exact Inv' | exact E].
Qed.

Lemma map_result_nth (A B : Type) (f : A -> result B) (l : list A) :
  forall ys i x y,
    map_result f l = Ok ys -> nth_error l i = Some x -> nth_error ys i = Some y ->
    f x = Ok y.
Proof.
  induction l as [|x0 rest IH]; intros ys i x y E Hx Hy.
  - destruct i; discriminate Hx.
  - simpl in E. destruct (f x0) as [y0|] eqn:F0; simpl in E; [|discriminate E].
    destruct (map_result f rest) as [ys'|] eqn:Er; simpl in E; [|discriminate E].
    inversion E; subst ys. destruct i as [|i]; simpl in Hx, Hy.
    + inversion Hx; inversion Hy; subst. exact F0.
    + eapply IH; [reflexivity | exact Hx | exact Hy].
Qed.

Lemma report_member (s : Schedule.t) (st : loop_state) (best_fitness : Q)
    (best : ScheduleAssignment.t) :
  loop_invariant s st ->
  report st = Ok (best_fitness, best) ->
  member_ok s best /\ get_fitness best = Ok best_fitness.
Proof.
  intros [Hpop Hfit] Er. unfold report in Er.
  destruct (best_of (population_fitness st)) as [[ix m]|e] eqn:B; simpl in Er;
    [|discriminate Er].
  destruct (nth_error (population st) ix) as [c|] eqn:N; [|discriminate Er].
  inversion Er; subst m c.
  destruct (best_of_spec _ _ _ B) as (Hix & _ & _).
  rewrite Forall_forall in Hpop.
  split; [exact (Hpop best (nth_error_In _ _ N))|].
  exact (map_result_nth _ _ _ _ _ _ _ _ Hfit N Hix).
Qed.

(** X5. The best candidate reported for a converged loop is a member of
    the population bred in the last generation: from any state whose
    members are well-formed candidates with their fitness listed, and so
    for every run of [main], its genes use only the schedule's activities,
    facilitators, rooms and times, each filed under its activity's
    identifier; its keys are the schedule's identifiers when these are
    pairwise distinct; and the reported fitness is the value [get_fitness]
    gives for it.  A run of [main] that reports has a population size of at
    least 10. *)
Theorem reported_best_is_sound (exp : Q -> Q) (s : Schedule.t) :
  (forall size fuel st r st' r' best_fitness best,
      loop_invariant s st ->
      evolve exp s size fuel st r = Ok (Some st', r') ->
      report st' = Ok (best_fitness, best) ->
      candidate_wf s best
      /\ (NoDup (Schedule.ids s) ->
          dict_keys (ScheduleAssignment.activities best) = Schedule.ids s)
      /\ get_fitness best = Ok best_fitness)
  /\ (forall n fuel r best_fitness best r',
        main exp s n fuel r = Ok (Some (best_fitness, best), r') ->
        candidate_wf s best
        /\ (NoDup (Schedule.ids s) ->
            dict_keys (ScheduleAssignment.activities best) = Schedule.ids s)
        /\ get_fitness best = Ok best_fitness
        /\ (10 <= n)%nat).
Proof.
  assert (A : forall size fuel st r st' r' best_fitness best,
             loop_invariant s st ->
             evolve exp s size fuel st r = Ok (Some st', r') ->
             report st' = Ok (best_fitness, best) ->
             candidate_wf s best
             /\ (NoDup (Schedule.ids s) ->
                 dict_keys (ScheduleAssignment.activities best) = Schedule.ids s)
             /\ get_fitness best = Ok best_fitness).
  { intros size fuel st r st' r' best_fitness best Inv E Er.
    pose proof (evolve_invariant _ _ _ _ _ _ _ _ Inv E) as Inv'.
    destruct (report_member s st' best_fitness best Inv' Er) as [[W K] F]. auto. }
  split; [exact A|].
  intros n fuel r best_fitness best r' E. unfold main in E. inv_bind E. inv_bind E.
  destruct a0 as [st|]; [|apply ret_ok in E; destruct E as [E _]; discriminate E].
  inv_bind E. apply lift_ok in E2. destruct E2 as [Er <-].
  apply ret_ok in E. destruct E as [E _]. inversion E; subst a0. clear E.
  pose proof (initialise_invariant _ _ _ _ _ E0) as Inv0.
  destruct (A _ _ _ _ _ _ _ _ Inv0 E1 Er) as (W & K & F).
  split; [exact W|]. split; [exact K|]. split; [exact F|].
  destruct (le_lt_dec 10 n) as [L|L]; [exact L|].
  exfalso. destruct fuel as [|fuel].
  - simpl in E1. apply ret_ok in E1. destruct E1 as [E1 _]. discriminate E1.
  - cbn [evolve] in E1. inv_bind E1.
    destruct (initialise_view _ _ _ _ _ E0) as (_ & Lp & _ & _ & _).
    unfold generation in E2. inv_bind E2. apply lift_ok in E3. destruct E3 as [Ea <-].
    inv_bind E2.
    destruct (population a) as [|slot slots] eqn:Ep.
    + simpl in Ea. rewrite average_empty in Ea. discriminate Ea.
    + rewrite get_next_generation_small_pool in E3; [discriminate E3 | discriminate |].
      rewrite PARENT_POPULATION_SIZE_fifth.
      apply Nat.Div0.div_lt_upper_bound. lia.
Qed.

Lemma reported_best_is_sound_witness :
  match initialise demo_schedule 10 (affine_rng 7 3) with
  | Ok (st0, r1) =>
      match evolve exp2 demo_schedule 2 1 (late_state st0) r1 with
      | Ok (Some st', _) =>
          match report st' with
          | Ok (best_fitness, best) =>
              candidate_wf demo_schedule best
              /\ get_fitness best = Ok best_fitness
          | Err _ => False
          end
      | _ => False
      end
  | Err _ => False
  end.
Proof.
  destruct (initialise demo_schedule 10 (affine_rng 7 3)) as [[st0 r1]|e] eqn:Ei;
    [|vm_compute in Ei; discriminate Ei].
  pose proof (initialise_invariant _ _ _ _ _ Ei) as Inv0.
  assert (Inv : loop_invariant demo_schedule (late_state st0)) by exact Inv0.
  assert (C : match evolve exp2 demo_schedule 2 1 (late_state st0) r1 with
              | Ok (Some st', _) => is_ok (report st')
              | _ => false
              end = true).
  { vm_compute in Ei. inversion Ei; subst st0 r1. vm_compute. reflexivity. }
  destruct (evolve exp2 demo_schedule 2 1 (late_state st0) r1) as [[[st'|] r2]|e] eqn:Ee;
    try discriminate C.
  destruct (report st') as [[best_fitness best]|e] eqn:Er; [|discriminate C].
  destruct (proj1 (reported_best_is_sound exp2 demo_schedule)
              _ _ _ _ _ _ _ _ Inv Ee Er) as (W & _ & F).
  split; assumption.
Defined.

(** ** When generation and crossover raise *)

Lemma pick_err (A : Type) (seq : list A) (z : Z) (e : exn) :
  pick seq z = Err e -> e = IndexError /\ seq = [].
Proof.
  destruct seq; simpl; intros E; [inversion E; auto | discriminate E].
Qed.

Lemma gene_of_err s act z1 z2 z3 e :
  gene_of s act z1 z2 z3 = Err e ->
  e = IndexError
  /\ (Schedule.facilitators s = [] \/ Schedule.rooms s = [] \/ Schedule.times s = []).
Proof.
  unfold gene_of.
  destruct (pick (Schedule.facilitators s) z1) as [f|e1] eqn:Ef; simpl.
  - destruct (pick (Schedule.rooms s) z2) as [r|e2] eqn:Er; simpl.
    + destruct (pick (Schedule.times s) z3) as [tm|e3] eqn:Et; simpl; [discriminate|].
      intros E. inversion E; subst. destruct (pick_err _ _ _ _ Et). auto.
    + intros E. inversion E; subst. destruct (pick_err _ _ _ _ Er). auto.
  - intros E. inversion E; subst. destruct (pick_err _ _ _ _ Ef). auto.
Qed.

Lemma gene_of_empty s act z1 z2 z3 :
  Schedule.facilitators s = [] \/ Schedule.rooms s = [] \/ Schedule.times s = [] ->
  gene_of s act z1 z2 z3 = Err IndexError.
Proof.
  intros H. destruct (gene_of s act z1 z2 z3) as [gene|e] eqn:E.
  - unfold gene_of in E.
    destruct (Schedule.facilitators s); [discriminate E|].
    destruct (Schedule.rooms s); [discriminate E|].
    destruct (Schedule.times s); [discriminate E|].
    destruct H as [H|[H|H]]; discriminate H.
  - destruct (gene_of_err _ _ _ _ _ _ E) as [-> _]. reflexivity.
Qed.

(** X6. [ScheduleAssignment.make_random_assignment] returns the empty
    candidate, consuming no draw, for a schedule without activities; for a
    schedule with activities it returns a candidate exactly when the
    facilitator, room and time lists are all non-empty, and raises
    [IndexError] otherwise. *)
Theorem make_random_assignment_outcome (s : Schedule.t) (g : rng) :
  (Schedule.activities s = [] ->
   ScheduleAssignment.make_random_assignment s g = Ok (ScheduleAssignment.mk s [], g))
  /\ (Schedule.activities s <> [] ->
      Schedule.facilitators s = [] \/ Schedule.rooms s = [] \/ Schedule.times s = [] ->
      ScheduleAssignment.make_random_assignment s g = Err IndexError)
  /\ (Schedule.facilitators s <> [] -> Schedule.rooms s <> [] ->
      Schedule.times s <> [] ->
      exists sa,
        ScheduleAssignment.make_random_assignment s g
        = Ok (sa, py_skip (3 * List.length (Schedule.activities s)) g))
  /\ (forall e, ScheduleAssignment.make_random_assignment s g = Err e -> e = IndexError).
Proof.
  split; [|split; [|split]].
  - intros E. unfold ScheduleAssignment.make_random_assignment. rewrite E. reflexivity.
  - intros Ne H. unfold ScheduleAssignment.make_random_assignment, bind.
    destruct (Schedule.activities s) as [|act rest]; [contradiction|].
    cbn [ScheduleAssignment.random_genes]. unfold bind.
    rewrite make_random_assignment_eq, (gene_of_empty s act _ _ _ H). reflexivity.
  - intros Hf Hr Ht. unfold ScheduleAssignment.make_random_assignment, bind.
    assert (L : forall acts acc g0, exists d,
               ScheduleAssignment.random_genes s acts acc g0
               = Ok (d, py_skip (3 * List.length acts) g0)).
    { induction acts as [|act rest IH]; intros acc g0.
      - exists acc. simpl. unfold ret, py_skip. destruct g0; reflexivity.
      - cbn [ScheduleAssignment.random_genes]. unfold bind.
        rewrite make_random_assignment_eq.
        destruct (gene_of_ok s act (py_raw g0 (py_pos g0)) (py_raw g0 (1 + py_pos g0))
                    (py_raw g0 (2 + py_pos g0)) Hf Hr Ht) as [gene ->].
        destruct (IH (dict_set acc (Activity.get_id act) gene) (py_skip 3 g0)) as [d ->].
        exists d. rewrite py_skip_skip. do 2 f_equal.
        cbn [List.length]. f_equal. lia. }
    destruct (L (Schedule.activities s) [] g) as [d ->]. unfold ret. eauto.
  - intros e. unfold ScheduleAssignment.make_random_assignment, bind.
    assert (L : forall acts acc g0 e0,
               ScheduleAssignment.random_genes s acts acc g0 = Err e0 -> e0 = IndexError).
    { induction acts as [|act rest IH]; intros acc g0 e0 E.
      - discriminate E.
      - cbn [ScheduleAssignment.random_genes] in E. unfold bind in E.
        rewrite make_random_assignment_eq in E.
        destruct (gene_of s act _ _ _) as [gene|e1] eqn:Eg.
        + eapply IH. exact E.
        + inversion E; subst. exact (proj1 (gene_of_err _ _ _ _ _ _ Eg)). }
    destruct (ScheduleAssignment.random_genes s (Schedule.activities s) [] g)
      as [[d g1]|e1] eqn:E1; [unfold ret; discriminate|].
    intros E. inversion E; subst. eapply L. exact E1.
Qed.

Lemma make_random_assignment_outcome_witness :
  ScheduleAssignment.make_random_assignment
    (Schedule.mk (Schedule.activities demo_schedule) [] [roman_201] [10])
    (affine_rng 7 3) = Err IndexError
  /\ exists sa,
       ScheduleAssignment.make_random_assignment demo_schedule (affine_rng 7 3)
       = Ok (sa, py_skip 12 (affine_rng 7 3)).
Proof.
  split.
  - apply (proj1 (proj2 (make_random_assignment_outcome _ _))); [discriminate|].
    left. reflexivity.
  - apply (proj1 (proj2 (proj2 (make_random_assignment_outcome demo_schedule
                                   (affine_rng 7 3))))); discriminate.
Defined.

Lemma cross_gene_ok s a b rate c i act g :
  Schedule.facilitators s <> [] -> Schedule.rooms s <> [] -> Schedule.times s <> [] ->
  In (Activity.get_id act) (dict_keys (ScheduleAssignment.activities a)) ->
  In (Activity.get_id act) (dict_keys (ScheduleAssignment.activities b)) ->
  exists gene g', cross_gene s a b rate c i act g = Ok (gene, g').
Proof.
  intros Hf Hr Ht Ia Ib.
  destruct (Qltb (coin g 0) rate) eqn:Ec.
  - rewrite cross_gene_mutated by exact Ec. rewrite make_random_assignment_eq.
    destruct (gene_of_ok s act (py_raw (py_skip 1 g) (py_pos (py_skip 1 g)))
                (py_raw (py_skip 1 g) (1 + py_pos (py_skip 1 g)))
                (py_raw (py_skip 1 g) (2 + py_pos (py_skip 1 g))) Hf Hr Ht) as [gene ->].
    eauto.
  - rewrite cross_gene_unmutated by exact Ec. unfold lift, dict_index.
    destruct (i <? c).
    + destruct (dict_get_in _ _ Ia) as [gene ->]. eauto.
    + destruct (dict_get_in _ _ Ib) as [gene ->]. eauto.
Qed.

Lemma cross_gene_err s a b rate c i act g e :
  cross_gene s a b rate c i act g = Err e -> e = IndexError \/ e = KeyError.
Proof.
  destruct (Qltb (coin g 0) rate) eqn:Ec.
  - rewrite cross_gene_mutated by exact Ec. rewrite make_random_assignment_eq.
    destruct (gene_of s act _ _ _) as [gene|e1] eqn:Eg; [discriminate|].
    intros E. inversion E; subst. left. exact (proj1 (gene_of_err _ _ _ _ _ _ Eg)).
  - rewrite cross_gene_unmutated by exact Ec. unfold lift, dict_index.
    destruct (dict_get _ _); [discriminate|].
    intros E. inversion E. right. reflexivity.
Qed.

Lemma cross_loop_ok s a b rate c acts :
  Schedule.facilitators s <> [] -> Schedule.rooms s <> [] -> Schedule.times s <> [] ->
  (forall act, In act acts ->
     In (Activity.get_id act) (dict_keys (ScheduleAssignment.activities a))
     /\ In (Activity.get_id act) (dict_keys (ScheduleAssignment.activities b))) ->
  forall i acc g, exists d g', cross_loop s a b rate c i acts acc g = Ok (d, g').
Proof.
  intros Hf Hr Ht. induction acts as [|act rest IH]; intros Hin i acc g.
  - simpl. unfold ret. eauto.
  - cbn [cross_loop]. unfold bind.
    destruct (Hin act (or_introl eq_refl)) as [Ia Ib].
    destruct (cross_gene_ok s a b rate c i act g Hf Hr Ht Ia Ib) as (gene & g1 & ->).
    apply IH. intros x I. apply Hin. right. exact I.
Qed.

Lemma cross_loop_err s a b rate c acts :
  forall i acc g e,
    cross_loop s a b rate c i acts acc g = Err e -> e = IndexError \/ e = KeyError.
Proof.
  induction acts as [|act rest IH]; intros i acc g e E.
  - discriminate E.
  - cbn [cross_loop] in E. unfold bind in E.
    destruct (cross_gene s a b rate c i act g) as [[gene g1]|e1] eqn:Eg.
    + eapply IH. exact E.
    + inversion E; subst. eapply cross_gene_err. exact Eg.
Qed.

Lemma splice_loop_missing a b c acts act :
  In act acts ->
  ~ In (Activity.get_id act) (dict_keys (ScheduleAssignment.activities a)) ->
  ~ In (Activity.get_id act) (dict_keys (ScheduleAssignment.activities b)) ->
  forall i acc, splice_loop a b c i acts acc = Err KeyError.
Proof.
  intros I Na Nb. induction acts as [|x rest IH]; intros i acc; [contradiction|].
  cbn [splice_loop]. unfold dict_index.
  destruct (dict_get (ScheduleAssignment.activities (if i <? c then a else b))
              (Activity.get_id x)) as [gene|] eqn:G; [|reflexivity].
  simpl. destruct I as [->|I]; [|apply IH; exact I].
  apply dict_get_some_in in G. destruct (i <? c); contradiction.
Qed.

(** X7. [cross_schedules] raises [ValueError] on a schedule without
    activities and otherwise only [IndexError] (a mutation drawing from an
    empty list) or [KeyError] (a parent without an entry for an activity).
    With at least one activity, non-empty facilitator, room and time lists
    and parents that have an entry for every activity it always returns an
    offspring; when no gene mutates and neither parent has an entry for
    some activity it raises [KeyError]. *)
Theorem cross_schedules_outcome (s : Schedule.t) (a b : ScheduleAssignment.t)
    (rate : Q) (g : rng) :
  (Schedule.activities s = [] -> cross_schedules s a b rate g = Err ValueError)
  /\ (forall e, cross_schedules s a b rate g = Err e ->
        (e = ValueError /\ Schedule.activities s = [])
        \/ e = IndexError \/ e = KeyError)
  /\ (Schedule.activities s <> [] ->
      Schedule.facilitators s <> [] -> Schedule.rooms s <> [] ->
      Schedule.times s <> [] ->
      (forall act, In act (Schedule.activities s) ->
         In (Activity.get_id act) (dict_keys (ScheduleAssignment.activities a))
         /\ In (Activity.get_id act) (dict_keys (ScheduleAssignment.activities b))) ->
      exists child g', cross_schedules s a b rate g = Ok (child, g'))
  /\ (unmutated (List.length (Schedule.activities s)) rate (py_skip 1 g) ->
      (exists act, In act (Schedule.activities s)
         /\ ~ In (Activity.get_id act) (dict_keys (ScheduleAssignment.activities a))
         /\ ~ In (Activity.get_id act) (dict_keys (ScheduleAssignment.activities b))) ->
      cross_schedules s a b rate g = Err KeyError).
Proof.
  split; [|split; [|split]].
  - intros E. unfold cross_schedules. rewrite E. reflexivity.
  - intros e E. destruct (Schedule.activities s) as [|act rest] eqn:Ea.
    + unfold cross_schedules in E. rewrite Ea in E. inversion E. left. auto.
    + right. rewrite cross_schedules_eq in E by (rewrite Ea; simpl; lia).
      unfold bind in E.
      destruct (cross_loop s a b rate _ 0 (Schedule.activities s) [] (py_skip 1 g))
        as [[d g1]|e1] eqn:El; [unfold ret in E; discriminate E|].
      inversion E; subst. eapply cross_loop_err. exact El.
  - intros Ne Hf Hr Ht Hin.
    rewrite cross_schedules_eq
      by (destruct (Schedule.activities s); [contradiction | simpl; lia]).
    unfold bind.
    destruct (cross_loop_ok s a b rate
                (chiasma_at (List.length (Schedule.activities s)) g)
                (Schedule.activities s) Hf Hr Ht Hin 0 [] (py_skip 1 g)) as (d & g1 & ->).
    unfold ret. eauto.
  - intros Hu (act & I & Na & Nb).
    rewrite cross_schedules_unmutated;
      [|destruct (Schedule.activities s); [contradiction | simpl; lia] | exact Hu].
    rewrite (splice_loop_missing a b _ _ act I Na Nb). reflexivity.
Qed.

Lemma cross_schedules_outcome_witness :
  (exists child g',
      cross_schedules demo_schedule demo_parent_a demo_parent_b (1 # 2) (affine_rng 7 3)
      = Ok (child, g'))
  /\ cross_schedules demo_schedule (ScheduleAssignment.mk demo_schedule [])
       (ScheduleAssignment.mk demo_schedule []) 0 (affine_rng 7 3) = Err KeyError.
Proof.
  split.
  - apply (proj1 (proj2 (proj2 (cross_schedules_outcome demo_schedule demo_parent_a
                                  demo_parent_b (1 # 2) (affine_rng 7 3)))));
      try discriminate.
    intros act I. simpl in I.
    destruct I as [<-|[<-|[<-|[<-|[]]]]]; simpl; tauto.
  - apply (proj2 (proj2 (proj2 (cross_schedules_outcome demo_schedule _ _ 0
                                  (affine_rng 7 3))))).
    + apply unmutated_rate_zero. apply Qle_refl.
    + exists (sla 101 "A" 50). simpl. tauto.
Defined.

(** ** When [get_fitness] returns a score *)

Lemma activity_step_scorable st gene st' :
  activity_step st gene = Ok st' -> gene_scorable gene.
Proof.
  unfold activity_step, dict_index, gene_scorable, ratio_in_range.
  destruct (dict_get building_clusters _) as [cluster|]; cbn [rbind]; [|discriminate].
  destruct (true_div _ _) as [ratio|] eqn:D; cbn [rbind]; [|discriminate].
  intros _. destruct (true_div_ok_inv _ _ _ D) as (N & R & _).
  split; [discriminate | split; assumption].
Qed.

Lemma activity_loop_scorable gs :
  forall st st', activity_loop st gs = Ok st' ->
                 forall gene, In gene gs -> gene_scorable gene.
Proof.
  induction gs as [|g0 gs IH]; simpl; intros st st' E gene I; [contradiction|].
  destruct (activity_step st g0) as [st1|] eqn:S1; simpl in E; [|discriminate E].
  destruct I as [<-|I]; [eapply activity_step_scorable; exact S1 | eapply IH; eassumption].
Qed.

Lemma activity_loop_zero_division gs :
  forall st, activity_loop st gs = Err ZeroDivisionError ->
             exists gene, In gene gs
                          /\ Activity.expected_enrollment (ActivityAssignment.activity gene) = 0.
Proof.
  induction gs as [|g0 gs IH]; simpl; intros st E; [discriminate E|].
  destruct (activity_step st g0) as [st1|e] eqn:S1; simpl in E.
  - destruct (IH _ E) as (gene & I & Z0). eauto.
  - inversion E; subst e. exists g0. split; [auto|].
    unfold activity_step, dict_index in S1.
    destruct (dict_get building_clusters _); cbn [rbind] in S1; [|discriminate S1].
    destruct (true_div _ _) as [ratio|e0] eqn:D; cbn [rbind] in S1; [discriminate S1|].
    destruct (true_div_err_inv _ _ _ D) as [[_ Z0]|[-> _]]; [exact Z0 | discriminate S1].
Qed.

Lemma activity_loop_overflow gs :
  forall st, activity_loop st gs = Err OverflowError ->
             exists gene, In gene gs
                          /\ Activity.expected_enrollment (ActivityAssignment.activity gene) <> 0
                          /\ ~ ratio_in_range gene.
Proof.
  induction gs as [|g0 gs IH]; simpl; intros st E; [discriminate E|].
  destruct (activity_step st g0) as [st1|e] eqn:S1; simpl in E.
  - destruct (IH _ E) as (gene & I & Z0). eauto.
  - inversion E; subst e. exists g0. split; [auto|].
    unfold activity_step, dict_index in S1.
    destruct (dict_get building_clusters _); cbn [rbind] in S1; [|discriminate S1].
    destruct (true_div _ _) as [ratio|e0] eqn:D; cbn [rbind] in S1; [discriminate S1|].
    destruct (true_div_err_inv _ _ _ D) as [[-> _]|[_ R]]; [discriminate S1 | exact R].
Qed.

Lemma activity_loop_key_error gs :
  forall st, activity_loop st gs = Err KeyError ->
             exists gene, In gene gs
                          /\ dict_get building_clusters
                               (Room.building (ActivityAssignment.room gene)) = None.
Proof.
  induction gs as [|g0 gs IH]; cbn [activity_loop In]; intros st E; [discriminate E|].
  destruct (activity_step st g0) as [st1|e] eqn:S1; simpl in E.
  - destruct (IH _ E) as (gene & I & Z0). eauto.
  - inversion E; subst e. exists g0. split; [auto|].
    unfold activity_step, dict_index in S1.
    destruct (dict_get building_clusters (Room.building (ActivityAssignment.room g0)))
      eqn:B; cbn [rbind] in S1; [|reflexivity].
    destruct (true_div _ _) as [ratio|e0] eqn:D; cbn [rbind] in S1; [discriminate S1|].
    destruct (true_div_err_inv _ _ _ D) as [[-> _]|[-> _]]; discriminate S1.
Qed.

Lemma cross_pair_err g1 g2 fitness e : cross_pair g1 g2 fitness = Err e -> e = KeyError.
Proof.
  unfold cross_pair, dict_index.
  destruct (_ =? 1).
  - destruct (dict_get building_clusters (Room.building (ActivityAssignment.room g1)));
      cbn [rbind]; [|intros E; inversion E; reflexivity].
    destruct (dict_get building_clusters (Room.building (ActivityAssignment.room g2)));
      cbn [rbind]; intros E; [discriminate E | inversion E; reflexivity].
  - destruct (_ =? 2); [intros E; discriminate E|].
    destruct (_ =? 0); intros E; discriminate E.
Qed.

Lemma named_adjustments_err acts fitness e :
  named_adjustments acts fitness = Err e -> e = KeyError.
Proof.
  unfold named_adjustments, dict_index.
  destruct (dict_get acts "SLA101A"%string) as [a101|]; simpl;
    [|intros E; inversion E; reflexivity].
  destruct (dict_get acts "SLA101B"%string) as [b101|]; simpl;
    [|intros E; inversion E; reflexivity].
  destruct (dict_get acts "SLA191A"%string) as [a191|]; simpl;
    [|intros E; inversion E; reflexivity].
  destruct (dict_get acts "SLA191B"%string) as [b191|]; simpl;
    [|intros E; inversion E; reflexivity].
  destruct (cross_pair a101 a191 _) as [f1|e1] eqn:C1; simpl;
    [|intros E; inversion E; subst; eapply cross_pair_err; exact C1].
  destruct (cross_pair a101 b191 _) as [f2|e2] eqn:C2; simpl;
    [|intros E; inversion E; subst; eapply cross_pair_err; exact C2].
  destruct (cross_pair b101 a191 _) as [f3|e3] eqn:C3; simpl;
    [|intros E; inversion E; subst; eapply cross_pair_err; exact C3].
  apply cross_pair_err.
Qed.

Lemma named_adjustments_names acts fitness f :
  named_adjustments acts fitness = Ok f ->
  forall name, In name required_names -> In name (dict_keys acts).
Proof.
  intros E name I.
  destruct (dict_get acts name) as [gene|] eqn:G; [eapply dict_get_some_in; exact G|].
  rewrite (named_adjustments_missing acts fitness name I G) in E. discriminate E.
Qed.

Lemma named_adjustments_err_missing acts fitness e :
  (forall gene, In gene (dict_values acts) -> gene_scorable gene) ->
  named_adjustments acts fitness = Err e ->
  exists name, In name required_names /\ ~ In name (dict_keys acts).
Proof.
  intros Hs E.
  assert (D : forall name, In name (dict_keys acts) \/ ~ In name (dict_keys acts)).
  { intros name. destruct (dict_get acts name) as [gene|] eqn:G.
    - left. eapply dict_get_some_in. exact G.
    - right. intros I. destruct (dict_get_in acts name I) as [gene G']. congruence. }
  destruct (D "SLA101A"%string) as [I1|N1]; [|exists "SLA101A"%string; simpl; auto].
  destruct (D "SLA101B"%string) as [I2|N2]; [|exists "SLA101B"%string; simpl; auto].
  destruct (D "SLA191A"%string) as [I3|N3]; [|exists "SLA191A"%string; simpl; auto].
  destruct (D "SLA191B"%string) as [I4|N4]; [|exists "SLA191B"%string; simpl; auto 6].
  destruct (named_adjustments_ok acts fitness Hs) as [f F].
  - intros name I. simpl in I. destruct I as [<-|[<-|[<-|[<-|[]]]]]; assumption.
  - rewrite F in E. discriminate E.
Qed.

(** X8. [get_fitness] returns a score exactly for the candidates whose
    genes all sit in a room of a building with a cluster and belong to an
    activity with non-zero expected enrollment and a capacity quotient
    within the range of a float, and which hold an entry for each of the
    four named activities.  On every other candidate it raises [KeyError],
    [ZeroDivisionError] or [OverflowError]: [ZeroDivisionError] only when
    some gene's activity has expected enrollment 0, [OverflowError] only
    when some gene's capacity quotient is out of the range of a float, and
    [KeyError] only when some gene's building has no cluster or one of the
    four names is missing. *)
Theorem get_fitness_outcome (sa : ScheduleAssignment.t) :
  ((exists f, get_fitness sa = Ok f) <->
   (forall gene, In gene (genes sa) -> gene_scorable gene)
   /\ (forall name, In name required_names ->
                    In name (dict_keys (ScheduleAssignment.activities sa))))
  /\ (forall e, get_fitness sa = Err e ->
                e = KeyError \/ e = ZeroDivisionError \/ e = OverflowError)
  /\ (get_fitness sa = Err ZeroDivisionError ->
      exists gene, In gene (genes sa)
                   /\ Activity.expected_enrollment (ActivityAssignment.activity gene) = 0)
  /\ (get_fitness sa = Err OverflowError ->
      exists gene, In gene (genes sa)
                   /\ Activity.expected_enrollment (ActivityAssignment.activity gene) <> 0
                   /\ ~ ratio_in_range gene)
  /\ (get_fitness sa = Err KeyError ->
      (exists gene, In gene (genes sa)
                    /\ dict_get building_clusters
                         (Room.building (ActivityAssignment.room gene)) = None)
      \/ (exists name, In name required_names
                       /\ ~ In name (dict_keys (ScheduleAssignment.activities sa)))).
Proof.
  split; [|split; [|split; [|split]]].
  - split.
    + intros [f E]. rewrite get_fitness_stages in E.
      destruct (activity_loop tally0 (genes sa)) as [st|] eqn:L; simpl in E; [|discriminate E].
      split; [eapply activity_loop_scorable; exact L|].
      unfold after_activity_loop in E. cbv zeta in E.
      eapply named_adjustments_names. exact E.
    + intros [Hs Hk]. apply get_fitness_ok; assumption.
  - intros e E. rewrite get_fitness_stages in E.
    destruct (activity_loop tally0 (genes sa)) as [st|e1] eqn:L; simpl in E.
    + left. unfold after_activity_loop in E. cbv zeta in E.
      eapply named_adjustments_err. exact E.
    + inversion E; subst. eapply activity_loop_err. exact L.
  - intros E. rewrite get_fitness_stages in E.
    destruct (activity_loop tally0 (genes sa)) as [st|e1] eqn:L; simpl in E.
    + unfold after_activity_loop in E. cbv zeta in E.
      apply named_adjustments_err in E. discriminate E.
    + inversion E; subst. eapply activity_loop_zero_division. exact L.
  - intros E. rewrite get_fitness_stages in E.
    destruct (activity_loop tally0 (genes sa)) as [st|e1] eqn:L; simpl in E.
    + unfold after_activity_loop in E. cbv zeta in E.
      apply named_adjustments_err in E. discriminate E.
    + inversion E; subst. eapply activity_loop_overflow. exact L.
  - intros E. rewrite get_fitness_stages in E.
    destruct (activity_loop tally0 (genes sa)) as [st|e1] eqn:L; simpl in E.
    + right. unfold after_activity_loop in E. cbv zeta in E.
      eapply named_adjustments_err_missing; [|exact E].
      eapply activity_loop_scorable. exact L.
    + left. inversion E; subst. eapply activity_loop_key_error. exact L.
Qed.

Lemma get_fitness_outcome_witness :
  (exists f, get_fitness demo_parent_a = Ok f)
  /\ (exists gene,
        In gene [ActivityAssignment.mk (sla 101 "A" 0) "Glen" roman_201 10]
        /\ Activity.expected_enrollment (ActivityAssignment.activity gene) = 0)
  /\ (exists gene,
        In gene [ActivityAssignment.mk (sla 101 "A" 1) "Glen"
                   (Room.mk "Roman" 201 (10 ^ 400)) 10]
        /\ Activity.expected_enrollment (ActivityAssignment.activity gene) <> 0
        /\ ~ ratio_in_range gene).
Proof.
  split; [|split].
  - apply (proj2 (proj1 (get_fitness_outcome demo_parent_a))). split.
    + intros gene I. simpl in I.
      destruct I as [<-|[<-|[<-|[<-|[]]]]];
        (split; [simpl; discriminate | split; [simpl; discriminate | vm_compute; reflexivity]]).
    + intros name I. simpl in I |- *. tauto.
  - apply (proj1 (proj2 (proj2 (get_fitness_outcome
             (ScheduleAssignment.mk demo_schedule
                [("SLA101A"%string,
                  ActivityAssignment.mk (sla 101 "A" 0) "Glen" roman_201 10)]))))).
    reflexivity.
  - apply (proj1 (proj2 (proj2 (proj2 (get_fitness_outcome
             (ScheduleAssignment.mk demo_schedule
                [("SLA101A"%string,
                  ActivityAssignment.mk (sla 101 "A" 1) "Glen"
                    (Room.mk "Roman" 201 (10 ^ 400)) 10)])))))).
    vm_compute. reflexivity.
Defined.

(** ** Double booking *)

Lemma penalize_double_booking_sum (loads : dict (string * Z) Z) (fitness : Q) :
  (penalize_double_booking loads fitness
   == fitness - Qsum (map double_booking_penalty (dict_values loads)))%Q.
Proof.
  unfold penalize_double_booking. revert fitness.
  induction (dict_values loads) as [|v vs IH]; intros fitness; cbn [fold_left map].
  - unfold Qsum; simpl. ring.
  - rewrite IH, Qsum_cons. unfold double_booking_step, double_booking_penalty.
    destruct (1 <? v); ring.
Qed.

Lemma Qsum_flat (A : Type) (f : A -> Z) (l : list A) :
  (Qsum (map (fun x => double_booking_penalty (f x)) l)
   == (1 # 5) * inject_Z (Z.of_nat (List.length (filter (fun x => 1 <? f x) l))))%Q.
Proof.
  induction l as [|x l IH]; cbn [map filter].
  - unfold Qsum; simpl. ring.
  - rewrite Qsum_cons, IH. unfold double_booking_penalty.
    destruct (1 <? f x); cbn [List.length].
    + rewrite Nat2Z.inj_succ, <- Z.add_1_l, inject_Z_plus. ring.
    + ring.
Qed.

(** X9. In [get_fitness] the double-booking rule runs over a counter that
    holds, for every facilitator and time used by the candidate, the number
    of genes giving that facilitator an activity at that time; it lowers the
    fitness by 0.2 for each such pair with more than one gene, whatever the
    number of genes, so in total by 0.2 times the number of double-booked
    pairs. *)
Theorem double_booking_rule (sa : ScheduleAssignment.t) (st : tally) :
  activity_loop tally0 (genes sa) = Ok st ->
  NoDup (dict_keys (facilitator_time_load st))
  /\ (forall k, In k (dict_keys (facilitator_time_load st)) <-> 1 <= booking_count sa k)
  /\ (forall k, In k (dict_keys (facilitator_time_load st)) ->
                dict_get (facilitator_time_load st) k = Some (booking_count sa k))
  /\ (forall fitness,
        penalize_double_booking (facilitator_time_load st) fitness
        == fitness
           - (1 # 5)
             * inject_Z (Z.of_nat (List.length
                 (filter (fun k => 1 <? booking_count sa k)
                    (dict_keys (facilitator_time_load st))))))%Q.
Proof.
  intros E.
  destruct (activity_loop_counters _ _ _ E) as (_ & _ & R). simpl in R.
  change (map (fun g0 => (ActivityAssignment.facilitator g0, ActivityAssignment.time g0))
            (genes sa)) with (map facilitator_time_key (genes sa)) in R.
  destruct (counter_of_list _ (map facilitator_time_key (genes sa)))
    as (ND & Hin & Hget & Hitems).
  rewrite <- R in ND, Hin, Hget, Hitems.
  split; [exact ND|]. split; [exact Hin|]. split; [exact Hget|].
  intros fitness. rewrite penalize_double_booking_sum.
  assert (V : dict_values (facilitator_time_load st)
              = map (fun k => booking_count sa k) (dict_keys (facilitator_time_load st))).
  { rewrite Hitems at 1. unfold dict_values. rewrite map_map. reflexivity. }
  rewrite V, map_map, Qsum_flat. reflexivity.
Qed.

Lemma double_booking_rule_witness :
  match activity_loop tally0 (genes demo_crowded) with
  | Ok st =>
      dict_get (facilitator_time_load st) ("Glen"%string, 10) = Some 2
      /\ (penalize_double_booking (facilitator_time_load st) 0 == - (1 # 5))%Q
  | Err _ => False
  end.
Proof.
  destruct (activity_loop tally0 (genes demo_crowded)) as [st|e] eqn:E;
    [|vm_compute in E; discriminate E].
  destruct (double_booking_rule demo_crowded st E) as (_ & _ & Hget & Hsum).
  split.
  - rewrite Hget; [reflexivity|].
    vm_compute in E. inversion E; subst st. simpl. auto.
  - rewrite Hsum. vm_compute in E. inversion E; subst st. vm_compute. reflexivity.
Defined.

(** ** The fitness as a sum of rule scores *)

Lemma fold_left_shift (A : Type) (step : Q -> A -> Q) (d : A -> Q) :
  (forall f x, (step f x == f + d x)%Q) ->
  forall l f, (fold_left step l f == f + Qsum (map d l))%Q.
Proof.
  intros Hs. induction l as [|x l IH]; intros f; cbn [fold_left map].
  - unfold Qsum; simpl. ring.
  - rewrite IH, Hs, Qsum_cons. ring.
Qed.

Lemma fold_left_from_zero (A : Type) (step : Q -> A -> Q) (d : A -> Q) :
  (forall f x, (step f x == f + d x)%Q) ->
  forall l f, (fold_left step l f == f + fold_left step l 0)%Q.
Proof.
  intros Hs l f.
  rewrite (fold_left_shift A step d Hs l f), (fold_left_shift A step d Hs l 0%Q). ring.
Qed.

Lemma gene_step_shift (ratio : Q) (gene : ActivityAssignment.t) (f : Q) :
  (facilitator_fit gene (capacity_fit ratio f)
   == f + facilitator_fit gene (capacity_fit ratio 0))%Q.
Proof.
  unfold facilitator_fit, capacity_fit.
  destruct (str_in _ (Activity.preferred_facilitators _));
    [|destruct (str_in _ (Activity.other_facilitators _))];
    (destruct (Qltb ratio 1); [|destruct (Qltb 3 ratio); [|destruct (Qltb 6 ratio)]]);
    ring.
Qed.

Lemma activity_step_fitness st gene st' :
  activity_step st gene = Ok st' -> (fitness st' == fitness st + gene_score gene)%Q.
Proof.
  unfold activity_step, dict_index, gene_score, exact_ratio.
  destruct (dict_get building_clusters _); cbn [rbind]; [|discriminate].
  destruct (true_div _ _) as [ratio|] eqn:D; cbn [rbind]; [|discriminate].
  destruct (true_div_ok_inv _ _ _ D) as (_ & _ & ->).
  intros E. inversion E; subst st'. cbn [fitness]. apply gene_step_shift.
Qed.

Lemma activity_loop_fitness gs :
  forall st st', activity_loop st gs = Ok st' ->
                 (fitness st' == fitness st + Qsum (map gene_score gs))%Q.
Proof.
  induction gs as [|g0 gs IH]; intros st st' E; cbn [activity_loop map] in *.
  - inversion E; subst. unfold Qsum; simpl. ring.
  - destruct (activity_step st g0) as [st1|] eqn:S1; cbn [rbind] in E; [|discriminate E].
    rewrite (IH _ _ E), (activity_step_fitness _ _ _ S1), Qsum_cons. ring.
Qed.

Lemma penalize_room_time_from_zero loads f :
  (penalize_room_time loads f == f + penalize_room_time loads 0)%Q.
Proof.
  rewrite (penalize_room_time_sum loads f), (penalize_room_time_sum loads 0%Q). ring.
Qed.

Lemma penalize_facilitator_load_from_zero loads f :
  (penalize_facilitator_load loads f == f + penalize_facilitator_load loads 0)%Q.
Proof.
  rewrite (penalize_facilitator_load_sum loads f),
    (penalize_facilitator_load_sum loads 0%Q). ring.
Qed.

Lemma penalize_double_booking_from_zero loads f :
  (penalize_double_booking loads f == f + penalize_double_booking loads 0)%Q.
Proof.
  rewrite (penalize_double_booking_sum loads f),
    (penalize_double_booking_sum loads 0%Q). ring.
Qed.

Lemma travel_step_shift sched facilitator tm f group :
  (travel_step sched facilitator tm f group
   == f + travel_step sched facilitator tm 0 group)%Q.
Proof.
  unfold travel_step. destruct (_ || _)%bool; ring.
Qed.

Lemma travel_item_shift sched f item :
  (travel_item sched f item == f + travel_item sched 0 item)%Q.
Proof.
  destruct item as [[facilitator tm] groups]. unfold travel_item.
  apply (fold_left_from_zero _ (travel_step sched facilitator tm)
           (travel_step sched facilitator tm 0%Q)).
  intros f0 x. apply travel_step_shift.
Qed.

Lemma score_travel_from_zero sched f :
  (score_travel sched f == f + score_travel sched 0)%Q.
Proof.
  unfold score_travel.
  apply (fold_left_from_zero _ (travel_item sched) (travel_item sched 0%Q)).
  intros f0 x. apply travel_item_shift.
Qed.

Lemma section_gap_shift gap f : (section_gap gap f == f + section_gap gap 0)%Q.
Proof.
  unfold section_gap. destruct (4 <? gap); [|destruct (gap =? 0)]; ring.
Qed.

Lemma cross_pair_shift g1 g2 x x' :
  cross_pair g1 g2 x = Ok x' ->
  forall y, exists y', cross_pair g1 g2 y = Ok y' /\ (y' - y == x' - x)%Q.
Proof.
  unfold cross_pair, dict_index. intros E y.
  destruct (_ =? 1).
  - destruct (dict_get building_clusters (Room.building (ActivityAssignment.room g1)));
      cbn [rbind] in *; [|discriminate E].
    destruct (dict_get building_clusters (Room.building (ActivityAssignment.room g2)));
      cbn [rbind] in *; [|discriminate E].
    inversion E; subst x'. eexists. split; [reflexivity|].
    destruct (_ =? _); ring.
  - destruct (_ =? 2); [inversion E; subst x'; eexists; split; [reflexivity | ring]|].
    destruct (_ =? 0); inversion E; subst x'; eexists; (split; [reflexivity | ring]).
Qed.

Lemma named_adjustments_from_zero acts f f' :
  named_adjustments acts f = Ok f' ->
  exists d, named_adjustments acts 0 = Ok d /\ (f' == f + d)%Q.
Proof.
  unfold named_adjustments, dict_index.
  destruct (dict_get acts "SLA101A"%string) as [a101|]; cbn [rbind]; [|discriminate].
  destruct (dict_get acts "SLA101B"%string) as [b101|]; cbn [rbind]; [|discriminate].
  destruct (dict_get acts "SLA191A"%string) as [a191|]; cbn [rbind]; [|discriminate].
  destruct (dict_get acts "SLA191B"%string) as [b191|]; cbn [rbind]; [|discriminate].
  set (gap101 := Z.abs (ActivityAssignment.time a101 - ActivityAssignment.time b101)).
  set (gap191 := Z.abs (ActivityAssignment.time a191 - ActivityAssignment.time b191)).
  pose proof (section_gap_shift gap101 f) as S1.
  pose proof (section_gap_shift gap191 (section_gap gap101 f)) as S2.
  pose proof (section_gap_shift gap191 (section_gap gap101 0)) as S3.
  set (x0 := section_gap gap191 (section_gap gap101 f)) in *.
  set (y0 := section_gap gap191 (section_gap gap101 0)) in *.
  destruct (cross_pair a101 a191 x0) as [x1|] eqn:C1; cbn [rbind]; [|discriminate].
  destruct (cross_pair a101 b191 x1) as [x2|] eqn:C2; cbn [rbind]; [|discriminate].
  destruct (cross_pair b101 a191 x2) as [x3|] eqn:C3; cbn [rbind]; [|discriminate].
  intros C4.
  destruct (cross_pair_shift _ _ _ _ C1 y0) as (y1 & -> & D1). cbn [rbind].
  destruct (cross_pair_shift _ _ _ _ C2 y1) as (y2 & -> & D2). cbn [rbind].
  destruct (cross_pair_shift _ _ _ _ C3 y2) as (y3 & -> & D3). cbn [rbind].
  destruct (cross_pair_shift _ _ _ _ C4 y3) as (y4 & -> & D4).
  exists y4. split; [reflexivity|]. lra.
Qed.

(** X10. A score returned by [get_fitness] is the sum of six scores that
    the rules compute independently of the running total: the per-activity
    terms of every gene, and the room/time, facilitator-load,
    double-booking, travel and named-activity rules each started from 0. *)
Theorem fitness_is_sum_of_rules (sa : ScheduleAssignment.t) (st : tally) (f : Q) :
  activity_loop tally0 (genes sa) = Ok st ->
  get_fitness sa = Ok f ->
  exists named,
    named_adjustments (ScheduleAssignment.activities sa) 0 = Ok named
    /\ (f == Qsum (map gene_score (genes sa))
            + penalize_room_time (room_time_load st) 0
            + penalize_facilitator_load (facilitator_load st) 0
            + penalize_double_booking (facilitator_time_load st) 0
            + score_travel (facilitator_time_building_schedule st) 0
            + named)%Q.
Proof.
  intros L E. rewrite get_fitness_stages, L in E. simpl in E.
  unfold after_activity_loop in E. cbv zeta in E.
  destruct (named_adjustments_from_zero _ _ _ E) as (named & En & Hf).
  exists named. split; [exact En|].
  rewrite Hf, score_travel_from_zero, penalize_double_booking_from_zero,
    penalize_facilitator_load_from_zero, penalize_room_time_from_zero,
    (activity_loop_fitness _ _ _ L).
  cbn [fitness tally0]. ring.
Qed.

Lemma fitness_is_sum_of_rules_witness :
  match activity_loop tally0 (genes demo_crowded), get_fitness demo_crowded with
  | Ok st, Ok f =>
      exists named,
        named_adjustments (ScheduleAssignment.activities demo_crowded) 0 = Ok named
        /\ (f == Qsum (map gene_score (genes demo_crowded))
                + penalize_room_time (room_time_load st) 0
                + penalize_facilitator_load (facilitator_load st) 0
                + penalize_double_booking (facilitator_time_load st) 0
                + score_travel (facilitator_time_building_schedule st) 0
                + named)%Q
  | _, _ => False
  end.
Proof.
  destruct (activity_loop tally0 (genes demo_crowded)) as [st|e] eqn:L;
    [|vm_compute in L; discriminate L].
  destruct (get_fitness demo_crowded) as [f|e] eqn:E; [|vm_compute in E; discriminate E].
  exact (fitness_is_sum_of_rules demo_crowded st f L E).
Defined.

(** ** The mutation-rate schedule *)

Lemma decide_cases (g : Z) (avg prev rate : Q) (d : decision) :
  decide g avg prev rate = Ok d ->
  (g <= 100 /\ d = Next rate)
  \/ (100 < g /\ (d = Stop \/ d = Next (rate * MUTATION_RATE_DECAY)%Q)).
Proof.
  unfold decide. destruct (Z.ltb_spec 100 g) as [L|L].
  - destruct (float_quotient avg prev) as [ratio|]; cbn [rbind]; [|discriminate].
    destruct (float_ltb ratio (Finite double_1_01)); intros E; inversion E; auto.
  - intros E. inversion E. auto.
Qed.

Lemma scheduled_rate_early (g : Z) : g <= 101 -> scheduled_rate g = scheduled_rate 0.
Proof.
  intros L. unfold scheduled_rate. rewrite !Z.max_l by lia. reflexivity.
Qed.

Lemma scheduled_rate_step (g : Z) :
  100 < g -> (scheduled_rate (g + 1) == scheduled_rate g * MUTATION_RATE_DECAY)%Q.
Proof.
  intros L. unfold scheduled_rate. rewrite !Z.max_r by lia.
  replace (g + 1 - 101) with ((g - 101) + 1) by lia.
  rewrite Qpower_plus by discriminate.
  change (Qpower MUTATION_RATE_DECAY 1) with MUTATION_RATE_DECAY. ring.
Qed.

Lemma generation_rate exp s size st r o r' :
  0 <= g st ->
  (mutation_rate st == scheduled_rate (g st))%Q ->
  generation exp s size st r = Ok (o, r') ->
  let st' := match o with Converged x => x | Advancing x => x end in
  0 <= g st' /\ (mutation_rate st' == scheduled_rate (g st'))%Q.
Proof.
  intros G0 R E.
  destruct (generation_inv _ _ _ _ _ _ _ E)
    as (ap & pop & fit & avg & d & _ & _ & _ & _ & Ed & Ho).
  subst o. destruct (decide_cases _ _ _ _ _ Ed) as [[L ->]|[L [->| ->]]]; cbn.
  - split; [lia|].
    rewrite R, (scheduled_rate_early (g st)), (scheduled_rate_early (g st + 1)) by lia.
    reflexivity.
  - split; [lia | exact R].
  - split; [lia|]. rewrite R, scheduled_rate_step by exact L. reflexivity.
Qed.

(** X11. Through the loop the mutation rate follows a fixed schedule: a
    state whose counter is [g] holds the initial rate 0.1 halved [g - 101]
    times (not at all while [g <= 101]).  A run that starts as [main] does
    and converges therefore ends with counter [g >= 101] and the rate
    [0.1 * 0.5 ^ (g - 101)]. *)
Theorem mutation_rate_schedule (exp : Q -> Q) (s : Schedule.t) (size fuel : nat) :
  forall st r st' r',
    0 <= g st ->
    (mutation_rate st == scheduled_rate (g st))%Q ->
    evolve exp s size fuel st r = Ok (Some st', r') ->
    101 <= g st'
    /\ (mutation_rate st' == (1 # 10) * Qpower (1 # 2) (g st' - 101))%Q.
Proof.
  assert (Inv : forall fuel0 st r st' r',
             0 <= g st -> (mutation_rate st == scheduled_rate (g st))%Q ->
             evolve exp s size fuel0 st r = Ok (Some st', r') ->
             (mutation_rate st' == scheduled_rate (g st'))%Q).
  { induction fuel0 as [|fuel0 IH]; intros st r st' r' G0 R E.
    - simpl in E. apply ret_ok in E. destruct E as [E _]. discriminate E.
    - cbn [evolve] in E. inv_bind E.
      destruct (generation_rate _ _ _ _ _ _ _ G0 R E0) as [G1 R1].
      destruct a as [st1|st1]; cbn in G1, R1.
      + apply ret_ok in E. destruct E as [E _]. inversion E; subst st1. exact R1.
      + eapply IH; eassumption. }
  intros st r st' r' G0 R E.
  pose proof (Inv _ _ _ _ _ G0 R E) as R'.
  destruct (evolve_converged _ _ _ _ _ _ _ _ E) as (_ & L & _).
  split; [lia|].
  rewrite R'. unfold scheduled_rate. rewrite Z.max_r by lia. reflexivity.
Qed.

Lemma mutation_rate_schedule_witness :
  match initialise demo_schedule 10 (affine_rng 7 3) with
  | Ok (st0, r1) =>
      match evolve exp2 demo_schedule 2 1 (late_state st0) r1 with
      | Ok (Some st', _) =>
          101 <= g st'
          /\ (mutation_rate st' == (1 # 10) * Qpower (1 # 2) (g st' - 101))%Q
      | _ => False
      end
  | Err _ => False
  end.
Proof.
  destruct (initialise demo_schedule 10 (affine_rng 7 3)) as [[st0 r1]|e] eqn:Ei;
    [|vm_compute in Ei; discriminate Ei].
  destruct (initialise_view _ _ _ _ _ Ei) as (_ & _ & _ & R0 & _).
  assert (C : converged_at (evolve exp2 demo_schedule 2 1 (late_state st0) r1)
              = Some 101).
  { vm_compute in Ei. inversion Ei; subst st0 r1. vm_compute. reflexivity. }
  destruct (evolve exp2 demo_schedule 2 1 (late_state st0) r1) as [[[st'|] r2]|e] eqn:Ee;
    simpl in C; try discriminate C.
  apply (mutation_rate_schedule exp2 demo_schedule 2 1 (late_state st0) r1 st' r2).
  - simpl. lia.
  - cbn [late_state mutation_rate g]. rewrite R0. reflexivity.
  - exact Ee.
Defined.

(** ** Printing a candidate *)

Lemma empty_slots_spec (times : list Z) :
  forall acc : dict Z (list ActivityAssignment.t),
    NoDup (dict_keys acc) ->
    (forall t slot, dict_get acc t = Some slot -> slot = []) ->
    let d := fold_left (fun d tm => dict_set d tm []) times acc in
    NoDup (dict_keys d)
    /\ (forall t, In t (dict_keys d) <-> In t (dict_keys acc) \/ In t times)
    /\ (forall t slot, dict_get d t = Some slot -> slot = []).
Proof.
  induction times as [|tm times IH]; intros acc ND Hnil; cbn [fold_left].
  - split; [exact ND|]. split; [intros t; simpl; tauto | exact Hnil].
  - destruct (IH (dict_set acc tm [])) as (ND' & Hin & Hnil').
    + apply dict_keys_set_nodup. exact ND.
    + intros t slot G. destruct (Z.eq_dec tm t) as [->|N].
      * rewrite dict_get_set_same in G. inversion G. reflexivity.
      * rewrite dict_get_set_other in G by exact N. eapply Hnil. exact G.
    + split; [exact ND'|]. split; [|exact Hnil'].
      intros t. rewrite Hin, dict_keys_set_iff. simpl. intuition congruence.
Qed.

Lemma fill_slots_ok (gs : list ActivityAssignment.t) :
  forall d : dict Z (list ActivityAssignment.t),
    (forall gene, In gene gs -> In (ActivityAssignment.time gene) (dict_keys d)) ->
    exists d',
      fill_slots d gs = Ok d'
      /\ dict_keys d' = dict_keys d
      /\ (forall t slot, dict_get d t = Some slot ->
            dict_get d' t
            = Some (slot ++ filter (fun g0 => ActivityAssignment.time g0 =? t) gs)%list).
Proof.
  induction gs as [|gene rest IH]; intros d Hin; cbn [fill_slots filter].
  - exists d. split; [reflexivity|]. split; [reflexivity|].
    intros t slot G. rewrite app_nil_r. exact G.
  - assert (Ik : In (ActivityAssignment.time gene) (dict_keys d))
      by (apply Hin; left; reflexivity).
    destruct (dict_get_in d _ Ik) as [slot0 G0].
    unfold dict_index. rewrite G0. cbn [rbind].
    destruct (IH (dict_set d (ActivityAssignment.time gene) (slot0 ++ [gene])%list))
      as (d' & E & Hk & Hget).
    + intros g0 I0. rewrite dict_keys_set_in by exact Ik. apply Hin. right. exact I0.
    + exists d'. split; [exact E|].
      split; [rewrite Hk; apply dict_keys_set_in; exact Ik|].
      intros t slot G.
      destruct (Z.eqb_spec (ActivityAssignment.time gene) t) as [Et|Nt].
      * subst t. rewrite G0 in G. inversion G; subst slot0.
        rewrite (Hget _ (slot ++ [gene])%list) by apply dict_get_set_same.
        rewrite <- app_assoc. reflexivity.
      * apply Hget. rewrite dict_get_set_other by exact Nt. exact G.
Qed.

Lemma fill_slots_missing (gs : list ActivityAssignment.t) :
  forall d : dict Z (list ActivityAssignment.t),
    (exists gene, In gene gs /\ ~ In (ActivityAssignment.time gene) (dict_keys d)) ->
    fill_slots d gs = Err KeyError.
Proof.
  induction gs as [|gene rest IH]; intros d (g0 & I & N); [contradiction|].
  cbn [fill_slots]. unfold dict_index.
  destruct (dict_get d (ActivityAssignment.time gene)) as [slot|] eqn:G; [|reflexivity].
  cbn [rbind]. destruct I as [->|I].
  - apply dict_get_some_in in G. contradiction.
  - apply IH. exists g0. split; [exact I|].
    rewrite dict_keys_set_in by (eapply dict_get_some_in; exact G). exact N.
Qed.

Lemma fill_slots_total_length (gs : list ActivityAssignment.t) :
  forall d d' : dict Z (list ActivityAssignment.t),
    fill_slots d gs = Ok d' ->
    List.length (List.concat (dict_values d'))
    = (List.length (List.concat (dict_values d)) + List.length gs)%nat.
Proof.
  assert (Set1 : forall (d : dict Z (list ActivityAssignment.t)) k slot x,
             dict_get d k = Some slot ->
             List.length (List.concat (dict_values (dict_set d k (slot ++ [x])%list)))
             = S (List.length (List.concat (dict_values d)))).
  { induction d as [|[k0 v0] d IHd]; intros k slot x G; simpl in G; [discriminate G|].
    cbn [dict_set]. change (key_eqb k0 k) with (Z.eqb k0 k) in *.
    destruct (k0 =? k).
    - inversion G; subst v0. unfold dict_values. cbn [map snd List.concat].
      rewrite !length_app. simpl. lia.
    - unfold dict_values in *. cbn [map snd List.concat]. rewrite !length_app.
      rewrite (IHd k slot x G). lia. }
  induction gs as [|gene rest IH]; intros d d' E; cbn [fill_slots] in E.
  - inversion E; subst. simpl. lia.
  - unfold dict_index in E.
    destruct (dict_get d (ActivityAssignment.time gene)) as [slot|] eqn:G;
      cbn [rbind] in E; [|discriminate E].
    rewrite (IH _ _ E), (Set1 _ _ _ _ G). simpl. lia.
Qed.

(** X12. [print_schedule] files every gene under its time in a table that
    has one row per distinct time of the candidate's schedule.  When every
    gene's time is one of the schedule's times, the row of a time holds
    exactly the genes with that time, in candidate order, so every gene is
    printed once, and the output is the rows' lines in turn; when some
    gene's time is not among the schedule's times it raises [KeyError] and
    prints nothing. *)
Theorem print_schedule_rows (sa : ScheduleAssignment.t) :
  let times := Schedule.times (ScheduleAssignment.schedule sa) in
  ((forall gene, In gene (genes sa) -> In (ActivityAssignment.time gene) times) ->
   exists slots,
     time_slots sa = Ok slots
     /\ NoDup (dict_keys slots)
     /\ (forall t, In t (dict_keys slots) <-> In t times)
     /\ (forall t, In t times ->
           dict_get slots t
           = Some (filter (fun g0 => ActivityAssignment.time g0 =? t) (genes sa)))
     /\ List.length (List.concat (dict_values slots)) = List.length (genes sa)
     /\ print_schedule sa = Ok (String.concat EmptyString (map format_line slots)))
  /\ ((exists gene, In gene (genes sa) /\ ~ In (ActivityAssignment.time gene) times) ->
      print_schedule sa = Err KeyError).
Proof.
  intros times.
  destruct (empty_slots_spec times [] (NoDup_nil _)) as (ND & Hin & Hnil).
  { intros t slot G. discriminate G. }
  fold (empty_slots times) in ND, Hin, Hnil.
  split.
  - intros Hall.
    destruct (fill_slots_ok (genes sa) (empty_slots times)) as (slots & E & Hk & Hget).
    { intros gene I. apply Hin. right. apply Hall. exact I. }
    exists slots. unfold time_slots. fold times. fold (genes sa).
    split; [exact E|]. split; [rewrite Hk; exact ND|].
    split; [intros t; rewrite Hk, Hin; simpl; tauto|].
    split.
    + intros t It.
      destruct (dict_get_in (empty_slots times) t) as [slot G];
        [apply Hin; right; exact It|].
      rewrite (Hget t slot G), (Hnil t slot G). reflexivity.
    + split.
      * rewrite (fill_slots_total_length _ _ _ E).
        assert (Z0 : forall d : dict Z (list ActivityAssignment.t),
                   (forall t slot, dict_get d t = Some slot -> slot = []) ->
                   NoDup (dict_keys d) ->
                   List.length (List.concat (dict_values d)) = 0%nat).
        { induction d as [|[k v] d IHd]; intros Hn NDd; [reflexivity|].
          inversion NDd as [|? ? Nin NDd']; subst.
          unfold dict_values in *. cbn [map snd List.concat]. rewrite length_app.
          rewrite (Hn k v) by (simpl; change (key_eqb k k) with (Z.eqb k k);
                               rewrite Z.eqb_refl; reflexivity).
          rewrite IHd; [reflexivity | | exact NDd'].
          intros t slot G. apply (Hn t slot). simpl.
          change (key_eqb k t) with (Z.eqb k t).
          destruct (Z.eqb_spec k t) as [->|_]; [|exact G].
          apply dict_get_some_in in G. contradiction. }
        rewrite (Z0 _ Hnil ND). reflexivity.
      * unfold print_schedule, time_slots. fold times. fold (genes sa).
        rewrite E. reflexivity.
  - intros (gene & I & N). unfold print_schedule, time_slots. fold times. fold (genes sa).
    rewrite (fill_slots_missing (genes sa) (empty_slots times)); [reflexivity|].
    exists gene. split; [exact I|]. rewrite Hin. simpl. tauto.
Qed.

Lemma print_schedule_rows_witness :
  (exists slots,
      time_slots demo_parent_a = Ok slots
      /\ dict_get slots 10
         = Some (filter (fun g0 => ActivityAssignment.time g0 =? 10) (genes demo_parent_a))
      /\ List.length (List.concat (dict_values slots)) = List.length (genes demo_parent_a))
  /\ print_schedule
       (ScheduleAssignment.mk demo_schedule
          [("SLA101A"%string, ActivityAssignment.mk (sla 101 "A" 50) "Glen" roman_201 9)])
     = Err KeyError.
Proof.
  split.
  - destruct (proj1 (print_schedule_rows demo_parent_a)) as (slots & E & _ & _ & Hg & Hl & _).
    + intros gene I. simpl in I.
      destruct I as [<-|[<-|[<-|[<-|[]]]]]; simpl; tauto.
    + exists slots. split; [exact E|]. split; [apply Hg; simpl; tauto | exact Hl].
  - apply (proj2 (print_schedule_rows _)).
    exists (ActivityAssignment.mk (sla 101 "A" 50) "Glen" roman_201 9).
    split; [simpl; auto|]. simpl. intros [H|[H|[H|[]]]]; discriminate H.
Defined.

(** ** Activity identifiers *)

Lemma append_length (s t : string) :
  String.length (s ++ t)%string = (String.length s + String.length t)%nat.
Proof. induction s as [|c s IH]; simpl; [reflexivity | rewrite IH; reflexivity]. Qed.

Lemma append_cancel_l (s x y : string) : (s ++ x = s ++ y)%string -> x = y.
Proof.
  induction s as [|c s IH]; simpl; intros E; [exact E|].
  inversion E. apply IH. assumption.
Qed.

Lemma append_cancel_r (t : string) :
  forall x y : string, (x ++ t = y ++ t)%string -> x = y.
Proof.
  induction x as [|c x IH]; intros [|c' y] E; simpl in E.
  - reflexivity.
  - exfalso. apply (f_equal String.length) in E. simpl in E.
    rewrite append_length in E. lia.
  - exfalso. apply (f_equal String.length) in E. simpl in E.
    rewrite append_length in E. lia.
  - inversion E. f_equal. apply IH. assumption.
Qed.

Lemma zeros_length (k : nat) : String.length (zeros k) = k.
Proof. induction k as [|k IH]; simpl; [reflexivity | rewrite IH; reflexivity]. Qed.

Lemma pad_zeros_length (w : nat) (s : string) :
  String.length (pad_zeros w s) = Nat.max w (String.length s).
Proof. unfold pad_zeros. rewrite append_length, zeros_length. lia. Qed.

Lemma uint_of_zeros (k : nat) (d : Decimal.uint) :
  exists d',
    NilEmpty.uint_of_string (zeros k ++ NilEmpty.string_of_uint d)%string = Some d'
    /\ N.of_uint d' = N.of_uint d.
Proof.
  induction k as [|k (d' & E & V)]; simpl.
  - exists d. split; [apply NilEmpty.usu | reflexivity].
  - exists (Decimal.D0 d'). rewrite E. split; [reflexivity | exact V].
Qed.

Lemma digits_not_nil (a : N) :
  NilZero.string_of_uint (N.to_uint a) = NilEmpty.string_of_uint (N.to_uint a)
  /\ N.to_uint a <> Decimal.Nil.
Proof.
  assert (Nn : N.to_uint a <> Decimal.Nil).
  { destruct a as [|p]; simpl; [discriminate|]. apply DecimalPos.Unsigned.to_uint_nonnil. }
  split; [|exact Nn].
  unfold NilZero.string_of_uint. destruct (N.to_uint a); [contradiction|..]; reflexivity.
Qed.

Lemma padded_head_not_minus (k : nat) (d : Decimal.uint) :
  d <> Decimal.Nil ->
  exists c rest,
    (zeros k ++ NilEmpty.string_of_uint d)%string = String c rest
    /\ Ascii.eqb c "-"%char = false.
Proof.
  intros Nn. destruct k as [|k]; simpl.
  - destruct d; [contradiction|..]; simpl; eexists; eexists; split; reflexivity.
  - eexists; eexists; split; reflexivity.
Qed.

Lemma parse_format_03 (n : Z) : parse_int (format_03 n) = Some n.
Proof.
  unfold format_03, parse_int. cbv zeta.
  set (a := Z.to_N (Z.abs n)).
  destruct (digits_not_nil a) as [Ed Nn]. rewrite Ed.
  destruct (Z.ltb_spec n 0) as [L|L].
  - unfold pad_zeros.
    destruct (uint_of_zeros (2 - String.length (NilEmpty.string_of_uint (N.to_uint a)))
                (N.to_uint a)) as (d' & E & V).
    cbn [NilEmpty.int_of_string]. change (Ascii.eqb "-" "-") with true. cbv iota.
    rewrite E. cbn [option_map Z.of_int].
    f_equal. unfold Z.of_uint. change (Pos.of_uint d') with (N.of_uint d').
    rewrite V, DecimalN.Unsigned.of_to. unfold a. rewrite Z2N.id by lia. lia.
  - unfold pad_zeros.
    destruct (uint_of_zeros (3 - String.length (NilEmpty.string_of_uint (N.to_uint a)))
                (N.to_uint a)) as (d' & E & V).
    destruct (padded_head_not_minus
                (3 - String.length (NilEmpty.string_of_uint (N.to_uint a)))
                (N.to_uint a) Nn) as (c & rest & Es & Ec).
    rewrite Es in *. cbn [NilEmpty.int_of_string]. rewrite Ec, E.
    cbn [option_map Z.of_int].
    f_equal. unfold Z.of_uint. change (Pos.of_uint d') with (N.of_uint d').
    rewrite V, DecimalN.Unsigned.of_to. unfold a. rewrite Z2N.id by lia. lia.
Qed.

Lemma format_03_width (n : Z) :
  (3 <= String.length (format_03 n))%nat
  /\ (0 <= n <= 999 -> String.length (format_03 n) = 3%nat).
Proof.
  split.
  - unfold format_03. cbv zeta. destruct (n <? 0).
    + cbn [String.length]. rewrite pad_zeros_length. lia.
    + rewrite pad_zeros_length. lia.
  - intros R.
    assert (B : forallb (fun k => (String.length (format_03 (Z.of_nat k)) =? 3)%nat)
                  (seq 0 1000) = true) by (vm_compute; reflexivity).
    rewrite forallb_forall in B.
    specialize (B (Z.to_nat n)). rewrite Z2Nat.id in B by lia.
    apply Nat.eqb_eq. apply B. apply in_seq. lia.
Qed.

(** X13. The zero-padded course number inside an activity identifier reads
    back as the course number, so [f"{n:03}"] never gives two numbers the
    same text; it is at least three characters wide, exactly three for
    numbers from 0 to 999.  Consequently two activities with the same
    subject and the same section text have the same identifier only when
    they have the same course number. *)
Theorem course_number_round_trip :
  (forall n, parse_int (format_03 n) = Some n)
  /\ (forall n m, format_03 n = format_03 m -> n = m)
  /\ (forall n, (3 <= String.length (format_03 n))%nat)
  /\ (forall n, 0 <= n <= 999 -> String.length (format_03 n) = 3%nat)
  /\ (forall a b,
        Activity.subject a = Activity.subject b ->
        match Activity.section a with Some x => x | None => EmptyString end
        = match Activity.section b with Some x => x | None => EmptyString end ->
        Activity.get_id a = Activity.get_id b ->
        Activity.course_number a = Activity.course_number b).
Proof.
  assert (Inj : forall n m, format_03 n = format_03 m -> n = m).
  { intros n m E. pose proof (parse_format_03 n) as Pn.
    rewrite E, parse_format_03 in Pn. inversion Pn. reflexivity. }
  split; [exact parse_format_03|]. split; [exact Inj|].
  split; [intros n; apply format_03_width|].
  split; [intros n; apply format_03_width|].
  intros a b Es Ec E. unfold Activity.get_id in E. rewrite Es, Ec in E.
  apply append_cancel_l in E. apply append_cancel_r in E. apply Inj. exact E.
Qed.

Lemma course_number_round_trip_witness :
  String.length (format_03 7) = 3%nat
  /\ Activity.course_number (sla 101 "A" 50) = Activity.course_number (sla 101 "A" 30).
Proof.
  destruct course_number_round_trip as (_ & _ & _ & W & I).
  split; [apply W; lia|].
  apply I; reflexivity.
Defined.

(** ** Room numbers in the printed table *)

Lemma room_number_field_collision (n : Z) :
  1 <= n <= 99 ->
  pad_right "0" 3 (str_int n) = pad_right "0" 3 (str_int (10 * n)).
Proof.
  intros R.
  assert (B : forallb (fun k => String.eqb (pad_right "0" 3 (str_int (Z.of_nat k)))
                                   (pad_right "0" 3 (str_int (10 * Z.of_nat k))))
                (seq 1 99) = true) by (vm_compute; reflexivity).
  rewrite forallb_forall in B.
  specialize (B (Z.to_nat n)). rewrite Z2Nat.id in B by lia.
  apply String.eqb_eq. apply B. apply in_seq. lia.
Qed.

(** X14. In the printed table a room number is left-aligned in a field of
    width 3 that is filled with the character 0 on the right, so for every
    [n] from 1 to 99 a gene in room [n] and the same gene in room [10 * n]
    of the same building are printed as the same text (room 20 reads 200). *)
Theorem printed_room_numbers_collide (act : Activity.t) (facilitator building : string)
    (capacity capacity' tm : Z) (n : Z) :
  1 <= n <= 99 ->
  format_entry (ActivityAssignment.mk act facilitator (Room.mk building n capacity) tm)
  = format_entry
      (ActivityAssignment.mk act facilitator (Room.mk building (10 * n) capacity') tm).
Proof.
  intros R. unfold format_entry. cbn [ActivityAssignment.activity
    ActivityAssignment.facilitator ActivityAssignment.room Room.building Room.number].
  rewrite (room_number_field_collision n R). reflexivity.
Qed.

Lemma printed_room_numbers_collide_witness :
  format_entry (ActivityAssignment.mk (sla 101 "A" 50) "Glen" (Room.mk "Roman" 20 50) 10)
  = format_entry (ActivityAssignment.mk (sla 101 "A" 50) "Glen" (Room.mk "Roman" 200 75) 10).
Proof.
  apply (printed_room_numbers_collide (sla 101 "A" 50) "Glen" "Roman" 50 75 10 20). lia.
Defined.

(** ** The population keeps its size *)

Lemma generation_sizes exp s size st r o r' :
  generation exp s size st r = Ok (o, r') ->
  let st' := match o with Converged x => x | Advancing x => x end in
  List.length (population st') = List.length (population st)
  /\ List.length (population_fitness st') = List.length (population st).
Proof.
  intros E.
  destruct (generation_inv _ _ _ _ _ _ _ E)
    as (ap & pop & fit & avg & d & _ & Eg & Ef & _ & _ & Ho).
  unfold get_next_generation in Eg. inv_bind Eg.
  destruct (breed_shape _ _ _ _ _ _ _ Eg) as [Len _].
  pose proof (map_result_length _ _ _ _ _ Ef) as Lf.
  subst o. destruct d; cbn; split; congruence.
Qed.

(** X15. The population has the configured size from the first generation
    on: [initialise] builds that many candidates with one fitness value
    each, and every generation of the loop, up to the state a converged run
    stops in, holds as many candidates and as many fitness values as the
    state before it. *)
Theorem population_size_is_fixed (exp : Q -> Q) (s : Schedule.t) :
  (forall n r st r',
      initialise s n r = Ok (st, r') ->
      List.length (population st) = n /\ List.length (population_fitness st) = n)
  /\ (forall size st r o r',
        generation exp s size st r = Ok (o, r') ->
        let st' := match o with Converged x => x | Advancing x => x end in
        List.length (population st') = List.length (population st)
        /\ List.length (population_fitness st') = List.length (population st))
  /\ (forall size fuel st r st' r',
        evolve exp s size fuel st r = Ok (Some st', r') ->
        List.length (population st') = List.length (population st)
        /\ List.length (population_fitness st') = List.length (population st)).
Proof.
  split; [|split].
  - intros n r st r' E. destruct (initialise_view _ _ _ _ _ E) as (_ & Lp & Lf & _). auto.
  - intros size st r o r'. apply generation_sizes.
  - intros size fuel. induction fuel as [|fuel IH]; intros st r st' r' E.
    + simpl in E. apply ret_ok in E. destruct E as [E _]. discriminate E.
    + cbn [evolve] in E. inv_bind E.
      destruct (generation_sizes _ _ _ _ _ _ _ E0) as [Lp Lf].
      destruct a as [st1|st1]; cbn in Lp, Lf.
      * apply ret_ok in E. destruct E as [E _]. inversion E; subst st1. auto.
      * destruct (IH _ _ _ _ E) as [Lp' Lf']. split; congruence.
Qed.

Lemma population_size_is_fixed_witness :
  match initialise demo_schedule 10 (affine_rng 7 3) with
  | Ok (st0, r1) =>
      List.length (population st0) = 10%nat
      /\ match evolve exp2 demo_schedule 2 1 (late_state st0) r1 with
         | Ok (Some st', _) => List.length (population st') = 10%nat
         | _ => False
         end
  | Err _ => False
  end.
Proof.
  destruct (initialise demo_schedule 10 (affine_rng 7 3)) as [[st0 r1]|e] eqn:Ei;
    [|vm_compute in Ei; discriminate Ei].
  destruct (proj1 (population_size_is_fixed exp2 demo_schedule) _ _ _ _ Ei) as [Lp _].
  split; [exact Lp|].
  assert (C : converged_at (evolve exp2 demo_schedule 2 1 (late_state st0) r1)
              = Some 101).
  { vm_compute in Ei. inversion Ei; subst st0 r1. vm_compute. reflexivity. }
  destruct (evolve exp2 demo_schedule 2 1 (late_state st0) r1) as [[[st'|] r2]|e] eqn:Ee;
    simpl in C; try discriminate C.
  destruct (proj2 (proj2 (population_size_is_fixed exp2 demo_schedule))
              _ _ _ _ _ _ Ee) as [Lp' _].
  rewrite Lp'. exact Lp.
Defined.

(** ** The travel rule *)

Lemma set_mem_in (x : Z) (s : list Z) : set_mem x s = true <-> In x s.
Proof.
  unfold set_mem. rewrite existsb_exists. split.
  - intros (y & I & E). apply Z.eqb_eq in E. subst. exact I.
  - intros I. exists x. split; [exact I | apply Z.eqb_refl].
Qed.

Lemma set_add_in (s : list Z) (x c : Z) : In c (set_add s x) <-> In c s \/ c = x.
Proof.
  unfold set_add. destruct (set_mem x s) eqn:M.
  - apply set_mem_in in M. split; [auto | intros [I| ->]; assumption].
  - rewrite in_app_iff. simpl. intuition congruence.
Qed.

Lemma set_add_nodup (s : list Z) (x : Z) : NoDup s -> NoDup (set_add s x).
Proof.
  intros ND. unfold set_add. destruct (set_mem x s) eqn:M; [exact ND|].
  assert (N : ~ In x s).
  { intros I. apply set_mem_in in I. congruence. }
  clear M. induction s as [|y s IH]; simpl.
  - constructor; [simpl; tauto | constructor].
  - inversion ND as [|? ? Ny ND']; subst. constructor.
    + rewrite in_app_iff. simpl. intros [I|[E|[]]]; [contradiction|].
      subst. apply N. left. reflexivity.
    + apply IH; [exact ND' | intros I; apply N; right; exact I].
Qed.

Lemma defaultdict_add_same (d : dict (string * Z) (list Z)) (k : string * Z) (x : Z) :
  dict_get_default (defaultdict_add d k x) k [] = set_add (dict_get_default d k []) x.
Proof.
  unfold defaultdict_add. unfold dict_get_default at 1.
  rewrite dict_get_set_same. reflexivity.
Qed.

Lemma defaultdict_add_other (d : dict (string * Z) (list Z)) (k k' : string * Z) (x : Z) :
  k <> k' ->
  dict_get_default (defaultdict_add d k x) k' [] = dict_get_default d k' [].
Proof.
  intros N. unfold defaultdict_add, dict_get_default.
  rewrite dict_get_set_other by exact N. reflexivity.
Qed.

Lemma activity_step_schedule st gene st' :
  activity_step st gene = Ok st' ->
  exists c,
    cluster_of gene = Some c
    /\ facilitator_time_building_schedule st'
       = defaultdict_add (facilitator_time_building_schedule st)
           (facilitator_time_key gene) c.
Proof.
  unfold activity_step, dict_index, cluster_of.
  destruct (dict_get building_clusters _) as [c|]; cbn [rbind]; [|discriminate].
  destruct (true_div _ _) as [ratio|]; cbn [rbind]; [|discriminate].
  intros E. inversion E; subst st'. exists c. split; reflexivity.
Qed.

Lemma pair_eq_dec_string_Z (x y : string * Z) : {x = y} + {x <> y}.
Proof.
  destruct x as [s1 z1], y as [s2 z2].
  destruct (string_dec s1 s2) as [->|Ns]; [|right; congruence].
  destruct (Z.eq_dec z1 z2) as [->|Nz]; [left; reflexivity | right; congruence].
Qed.

Lemma activity_loop_schedule gs k :
  forall st st',
    activity_loop st gs = Ok st' ->
    (NoDup (dict_get_default (facilitator_time_building_schedule st) k []) ->
     NoDup (dict_get_default (facilitator_time_building_schedule st') k []))
    /\ (forall c,
          In c (dict_get_default (facilitator_time_building_schedule st') k [])
          <-> In c (dict_get_default (facilitator_time_building_schedule st) k [])
              \/ exists gene, In gene gs /\ facilitator_time_key gene = k
                              /\ cluster_of gene = Some c).
Proof.
  induction gs as [|g0 gs IH]; intros st st' E; cbn [activity_loop] in E.
  - inversion E; subst. split; [auto|]. intros c. split; [auto|].
    intros [I|(gene & [] & _)]. exact I.
  - destruct (activity_step st g0) as [st1|] eqn:S1; cbn [rbind] in E; [|discriminate E].
    destruct (activity_step_schedule _ _ _ S1) as (c0 & Ec0 & Es1).
    destruct (IH _ _ E) as [ND1 In1]. rewrite Es1 in ND1, In1.
    destruct (pair_eq_dec_string_Z (facilitator_time_key g0) k) as [Ek|Nk].
    + subst k. rewrite defaultdict_add_same in ND1, In1. split.
      * intros ND. apply ND1. apply set_add_nodup. exact ND.
      * intros c. rewrite In1, set_add_in. split.
        -- intros [[I| ->]|(gene & I & Ekey & Ec)].
           ++ left. exact I.
           ++ right. exists g0. split; [left; reflexivity|]. split; [reflexivity | exact Ec0].
           ++ right. exists gene. split; [right; exact I|]. split; assumption.
        -- intros [I|(gene & [<-|I] & Ekey & Ec)].
           ++ left. left. exact I.
           ++ left. right. congruence.
           ++ right. exists gene. split; [exact I|]. split; assumption.
    + rewrite defaultdict_add_other in ND1, In1 by exact Nk. split; [exact ND1|].
      intros c. rewrite In1. split.
      * intros [I|(gene & I & Ekey & Ec)]; [left; exact I|].
        right. exists gene. split; [right; exact I|]. split; assumption.
      * intros [I|(gene & [<-|I] & Ekey & Ec)]; [left; exact I | contradiction |].
        right. exists gene. split; [exact I|]. split; assumption.
Qed.

Lemma travel_condition (prev : list Z) (c : Z) :
  NoDup prev ->
  (((1 <? Z.of_nat (List.length prev))
    || ((Z.of_nat (List.length prev) =? 1) && negb (set_mem c prev)))%bool = false
   <-> forall c', In c' prev -> c' = c).
Proof.
  intros ND. destruct prev as [|c1 [|c2 rest]].
  - simpl. split; [intros _ c' [] | reflexivity].
  - cbn [List.length]. change (1 <? Z.of_nat 1) with false.
    change (Z.of_nat 1 =? 1) with true. cbn [orb andb].
    rewrite negb_false_iff, set_mem_in. simpl. split.
    + intros [->|[]] c' [<-|[]]. reflexivity.
    + intros H. left. apply H. left. reflexivity.
  - assert (L : (1 <? Z.of_nat (List.length (c1 :: c2 :: rest))) = true).
    { apply Z.ltb_lt. cbn [List.length]. lia. }
    rewrite L. cbn [orb]. split; [discriminate|].
    intros H. exfalso.
    inversion ND as [|? ? N1 _]; subst. apply N1. left.
    rewrite (H c1), (H c2); simpl; auto.
Qed.

Lemma dict_in_pair_get (K V : Type) `{KeyLaws K} (d : dict K V) (k : K) (v : V) :
  NoDup (dict_keys d) -> In (k, v) d -> dict_get d k = Some v.
Proof.
  induction d as [|[k0 v0] d IH]; simpl; intros ND I; [contradiction|].
  inversion ND as [|? ? Nin ND']; subst.
  destruct I as [E|I].
  - inversion E; subst. rewrite key_eqb_refl. reflexivity.
  - destruct (key_eqb k0 k) eqn:Ek; [|apply IH; assumption].
    apply key_eqb_eq in Ek. subst k0. exfalso. apply Nin.
    change k with (fst (k, v)). apply in_map. exact I.
Qed.

Lemma activity_loop_schedule_keys gs :
  forall st st',
    activity_loop st gs = Ok st' ->
    NoDup (dict_keys (facilitator_time_building_schedule st)) ->
    NoDup (dict_keys (facilitator_time_building_schedule st')).
Proof.
  induction gs as [|g0 gs IH]; intros st st' E ND; cbn [activity_loop] in E.
  - inversion E; subst. exact ND.
  - destruct (activity_step st g0) as [st1|] eqn:S1; cbn [rbind] in E; [|discriminate E].
    destruct (activity_step_schedule _ _ _ S1) as (c0 & _ & Es1).
    apply (IH _ _ E). rewrite Es1. unfold defaultdict_add.
    apply dict_keys_set_nodup. exact ND.
Qed.

(** X16. In [get_fitness] the travel rule works on a table that holds,
    for every facilitator and time, the set of clusters of the rooms the
    facilitator's activities at that time are in.  For each cluster of each
    entry it adds 0.5 when every activity the facilitator has in the hour
    before sits in that same cluster (in particular when there is none) and
    subtracts 0.4 otherwise; the rule's total is the sum of these terms over
    the clusters of all entries. *)
Theorem travel_rule (sa : ScheduleAssignment.t) (st : tally) :
  activity_loop tally0 (genes sa) = Ok st ->
  let sched := facilitator_time_building_schedule st in
  (forall facilitator tm c,
      In c (dict_get_default sched (facilitator, tm) [])
      <-> exists gene, In gene (genes sa)
                       /\ ActivityAssignment.facilitator gene = facilitator
                       /\ ActivityAssignment.time gene = tm
                       /\ cluster_of gene = Some c)
  /\ (forall facilitator tm groups,
        In ((facilitator, tm), groups) sched ->
        groups = dict_get_default sched (facilitator, tm) [] /\ NoDup groups)
  /\ (forall facilitator tm f c,
        stays_in_cluster sa facilitator tm c ->
        travel_step sched facilitator tm f c = (f + (1 # 2))%Q)
  /\ (forall facilitator tm f c,
        ~ stays_in_cluster sa facilitator tm c ->
        travel_step sched facilitator tm f c = (f - (2 # 5))%Q)
  /\ (forall f,
        score_travel sched f
        == f + Qsum (map (fun item =>
                            Qsum (map (travel_step sched (fst (fst item))
                                         (snd (fst item)) 0)
                                    (snd item)))
                       sched))%Q.
Proof.
  intros L sched.
  assert (Hsem : forall facilitator tm,
             NoDup (dict_get_default sched (facilitator, tm) [])
             /\ forall c, In c (dict_get_default sched (facilitator, tm) [])
                          <-> exists gene, In gene (genes sa)
                                /\ ActivityAssignment.facilitator gene = facilitator
                                /\ ActivityAssignment.time gene = tm
                                /\ cluster_of gene = Some c).
  { intros facilitator tm.
    destruct (activity_loop_schedule (genes sa) (facilitator, tm) _ _ L) as [ND Hin].
    split; [apply ND; constructor|].
    intros c. unfold sched. rewrite Hin. cbn. split.
    - intros [[]|(gene & I & Ek & Ec)]. exists gene.
      unfold facilitator_time_key in Ek. inversion Ek. auto.
    - intros (gene & I & Ef & Et & Ec). right. exists gene.
      unfold facilitator_time_key. subst. auto. }
  assert (Hcond : forall facilitator tm c,
             ((1 <? Z.of_nat (List.length (dict_get_default sched (facilitator, tm - 1) [])))
              || ((Z.of_nat (List.length (dict_get_default sched (facilitator, tm - 1) []))
                   =? 1)
                  && negb (set_mem c (dict_get_default sched (facilitator, tm - 1) []))))%bool
             = false
             <-> stays_in_cluster sa facilitator tm c).
  { intros facilitator tm c.
    destruct (Hsem facilitator (tm - 1)) as [ND Hin].
    rewrite (travel_condition _ c ND). unfold stays_in_cluster. split.
    - intros H gene I Ef Et.
      destruct (activity_loop_scorable _ _ _ L gene I) as [Hc _].
      fold (cluster_of gene) in Hc.
      destruct (cluster_of gene) as [c'|] eqn:Ec; [|contradiction].
      f_equal. apply H. apply Hin. exists gene. auto.
    - intros H c' I. apply Hin in I. destruct I as (gene & Ig & Ef & Et & Ec).
      rewrite (H gene Ig Ef Et) in Ec. inversion Ec. reflexivity. }
  split; [intros facilitator tm c; apply (proj2 (Hsem facilitator tm))|].
  split.
  { intros facilitator tm groups I.
    assert (NDk : NoDup (dict_keys sched)).
    { apply (activity_loop_schedule_keys _ _ _ L). constructor. }
    pose proof (dict_in_pair_get _ _ sched (facilitator, tm) groups NDk I) as G.
    assert (Eg : groups = dict_get_default sched (facilitator, tm) []).
    { unfold dict_get_default. rewrite G. reflexivity. }
    split; [exact Eg|]. rewrite Eg. apply (proj1 (Hsem facilitator tm)). }
  split.
  { intros facilitator tm f c H. unfold travel_step.
    rewrite (proj2 (Hcond facilitator tm c) H). reflexivity. }
  split.
  { intros facilitator tm f c H. unfold travel_step.
    destruct (_ || _)%bool eqn:C; [reflexivity|].
    exfalso. apply H. apply (proj1 (Hcond facilitator tm c)). exact C. }
  intros f. unfold score_travel.
  apply (fold_left_shift _ (travel_item sched)).
  intros f0 [[facilitator tm] groups]. unfold travel_item. cbn [fst snd].
  apply (fold_left_shift _ (travel_step sched facilitator tm)
           (travel_step sched facilitator tm 0%Q)).
  intros f1 c. apply travel_step_shift.
Qed.

Lemma travel_rule_witness :
  match activity_loop tally0 (genes demo_parent_a) with
  | Ok st =>
      travel_step (facilitator_time_building_schedule st) "Glen" 10 0 2 = (0 + (1 # 2))%Q
      /\ travel_step (facilitator_time_building_schedule st) "Glen" 11 0 1
         = (0 - (2 # 5))%Q
  | Err _ => False
  end.
Proof.
  destruct (activity_loop tally0 (genes demo_parent_a)) as [st|e] eqn:E;
    [|vm_compute in E; discriminate E].
  destruct (travel_rule demo_parent_a st E) as (_ & _ & Hgood & Hbad & _).
  split.
  - apply Hgood. intros gene I Ef Et. simpl in I.
    destruct I as [<-|[<-|[<-|[<-|[]]]]]; simpl in Ef, Et; try discriminate Ef;
      discriminate Et.
  - apply Hbad. intros H.
    specialize (H (ActivityAssignment.mk (sla 101 "A" 50) "Glen" roman_201 10)).
    assert (C : cluster_of (ActivityAssignment.mk (sla 101 "A" 50) "Glen" roman_201 10)
                = Some 1).
    { apply H; [simpl; auto | reflexivity | reflexivity]. }
    discriminate C.
Defined.

(** ** An upper bound on the fitness *)

Lemma inject_Z_nat_nonneg (n : nat) : (0 <= inject_Z (Z.of_nat n))%Q.
Proof. unfold Qle, inject_Z. simpl. lia. Qed.

Lemma inject_Z_succ (n : nat) :
  (inject_Z (Z.of_nat (S n)) == inject_Z (Z.of_nat n) + 1)%Q.
Proof. rewrite Nat2Z.inj_succ, <- Z.add_1_r, inject_Z_plus. reflexivity. Qed.

Lemma Qsum_map_le (A : Type) (f : A -> Q) (b : Q) (l : list A) :
  (forall x, In x l -> (f x <= b)%Q) ->
  (Qsum (map f l) <= b * inject_Z (Z.of_nat (List.length l)))%Q.
Proof.
  induction l as [|x l IH]; intros H; cbn [map List.length].
  - change (inject_Z (Z.of_nat 0)) with 0%Q. unfold Qsum; cbn [fold_right]. lra.
  - rewrite Qsum_cons, inject_Z_succ.
    assert (f x <= b)%Q by (apply H; left; reflexivity).
    assert (Qsum (map f l) <= b * inject_Z (Z.of_nat (List.length l)))%Q
      by (apply IH; intros y I; apply H; right; exact I).
    lra.
Qed.

Lemma Qsum_map_nonneg (A : Type) (f : A -> Q) (l : list A) :
  (forall x, (0 <= f x)%Q) -> (0 <= Qsum (map f l))%Q.
Proof.
  intros H. apply Qsum_nonneg. intros w I. apply in_map_iff in I.
  destruct I as (x & <- & _). apply H.
Qed.

Lemma gene_score_le (gene : ActivityAssignment.t) : (gene_score gene <= 4 # 5)%Q.
Proof.
  unfold gene_score, facilitator_fit, capacity_fit.
  destruct (str_in _ (Activity.preferred_facilitators _));
    [|destruct (str_in _ (Activity.other_facilitators _))];
    (destruct (Qltb _ 1); [|destruct (Qltb 3 _); [|destruct (Qltb 6 _)]]);
    lra.
Qed.

Lemma conflict_penalty_nonneg (k : Z) : (0 <= conflict_penalty k)%Q.
Proof.
  unfold conflict_penalty. destruct (Z.leb_spec 2 k) as [L|L]; [|lra].
  apply Qmult_le_0_compat; [lra|]. unfold Qle, inject_Z. simpl. lia.
Qed.

Lemma facilitator_load_penalty_nonneg (f : string) (load : Z) :
  (0 <= facilitator_load_penalty f load)%Q.
Proof.
  unfold facilitator_load_penalty.
  destruct (load =? 1); [destruct (String.eqb f exempt_facilitator); lra|].
  destruct (load =? 2); [lra|]. destruct (4 <? load); lra.
Qed.

Lemma double_booking_penalty_nonneg (k : Z) : (0 <= double_booking_penalty k)%Q.
Proof. unfold double_booking_penalty. destruct (1 <? k); lra. Qed.

Lemma travel_step_le sched facilitator tm c :
  (travel_step sched facilitator tm 0 c <= 1 # 2)%Q.
Proof. unfold travel_step. destruct (_ || _)%bool; lra. Qed.

Lemma score_travel_le (sched : dict (string * Z) (list Z)) :
  (score_travel sched 0
   <= (1 # 2) * inject_Z (Z.of_nat (List.length (List.concat (dict_values sched)))))%Q.
Proof.
  unfold score_travel.
  rewrite (fold_left_shift _ (travel_item sched) (travel_item sched 0%Q))
    by (intros f0 x; apply travel_item_shift).
  generalize sched at 1. intros ref.
  induction sched as [|[[facilitator tm] groups] rest IH]; cbn [map].
  - unfold Qsum, dict_values. cbn [map fold_right List.concat List.length].
    change (inject_Z (Z.of_nat 0)) with 0%Q. lra.
  - rewrite Qsum_cons. unfold dict_values in *. cbn [map snd List.concat].
    rewrite length_app, Nat2Z.inj_add, inject_Z_plus.
    assert (Hi : (travel_item ref 0 (facilitator, tm, groups)
                  <= (1 # 2) * inject_Z (Z.of_nat (List.length groups)))%Q).
    { unfold travel_item.
      rewrite (fold_left_shift _ (travel_step ref facilitator tm)
                 (travel_step ref facilitator tm 0%Q))
        by (intros f1 c; apply travel_step_shift).
      pose proof (Qsum_map_le _ (travel_step ref facilitator tm 0%Q) (1 # 2) groups
                    (fun c _ => travel_step_le ref facilitator tm c)).
      lra. }
    lra.
Qed.

Lemma set_add_length (s : list Z) (x : Z) :
  (List.length (set_add s x) <= S (List.length s))%nat.
Proof.
  unfold set_add. destruct (set_mem x s); [lia|]. rewrite length_app. simpl. lia.
Qed.

Lemma defaultdict_add_total (d : dict (string * Z) (list Z)) (k : string * Z) (x : Z) :
  (List.length (List.concat (dict_values (defaultdict_add d k x)))
   <= S (List.length (List.concat (dict_values d))))%nat.
Proof.
  unfold defaultdict_add.
  induction d as [|[k0 v0] d IH].
  - unfold dict_get_default, dict_values. simpl. lia.
  - unfold dict_get_default in *. cbn [dict_get dict_set].
    destruct (key_eqb k0 k) eqn:Ek.
    + unfold dict_values. cbn [map snd List.concat]. rewrite !length_app.
      pose proof (set_add_length v0 x). lia.
    + unfold dict_values in *. cbn [map snd List.concat]. rewrite !length_app. lia.
Qed.

Lemma activity_loop_schedule_total gs :
  forall st st',
    activity_loop st gs = Ok st' ->
    (List.length (List.concat (dict_values (facilitator_time_building_schedule st')))
     <= List.length (List.concat (dict_values (facilitator_time_building_schedule st)))
        + List.length gs)%nat.
Proof.
  induction gs as [|g0 gs IH]; intros st st' E; cbn [activity_loop] in E.
  - inversion E; subst. simpl. lia.
  - destruct (activity_step st g0) as [st1|] eqn:S1; cbn [rbind] in E; [|discriminate E].
    destruct (activity_step_schedule _ _ _ S1) as (c0 & _ & Es1).
    pose proof (IH _ _ E) as L1. rewrite Es1 in L1.
    pose proof (defaultdict_add_total (facilitator_time_building_schedule st)
                  (facilitator_time_key g0) c0).
    simpl. lia.
Qed.

Lemma section_gap_le gap f : (section_gap gap f <= f + (1 # 2))%Q.
Proof. unfold section_gap. destruct (4 <? gap); [|destruct (gap =? 0)]; lra. Qed.

Lemma cross_pair_le g1 g2 f f' : cross_pair g1 g2 f = Ok f' -> (f' <= f + (1 # 2))%Q.
Proof.
  unfold cross_pair, dict_index. destruct (_ =? 1).
  - destruct (dict_get building_clusters (Room.building (ActivityAssignment.room g1)));
      cbn [rbind]; [|discriminate].
    destruct (dict_get building_clusters (Room.building (ActivityAssignment.room g2)));
      cbn [rbind]; [|discriminate].
    intros E. inversion E; subst f'. destruct (_ =? _); lra.
  - destruct (_ =? 2); [intros E; inversion E; subst; lra|].
    destruct (_ =? 0); intros E; inversion E; subst; lra.
Qed.

Lemma named_adjustments_le acts d : named_adjustments acts 0 = Ok d -> (d <= 3)%Q.
Proof.
  unfold named_adjustments, dict_index.
  destruct (dict_get acts "SLA101A"%string) as [a101|]; cbn [rbind]; [|discriminate].
  destruct (dict_get acts "SLA101B"%string) as [b101|]; cbn [rbind]; [|discriminate].
  destruct (dict_get acts "SLA191A"%string) as [a191|]; cbn [rbind]; [|discriminate].
  destruct (dict_get acts "SLA191B"%string) as [b191|]; cbn [rbind]; [|discriminate].
  set (gap101 := Z.abs (ActivityAssignment.time a101 - ActivityAssignment.time b101)).
  set (gap191 := Z.abs (ActivityAssignment.time a191 - ActivityAssignment.time b191)).
  pose proof (section_gap_le gap101 0) as S1.
  pose proof (section_gap_le gap191 (section_gap gap101 0)) as S2.
  set (x0 := section_gap gap191 (section_gap gap101 0)) in *.
  destruct (cross_pair a101 a191 x0) as [x1|] eqn:C1; cbn [rbind]; [|discriminate].
  destruct (cross_pair a101 b191 x1) as [x2|] eqn:C2; cbn [rbind]; [|discriminate].
  destruct (cross_pair b101 a191 x2) as [x3|] eqn:C3; cbn [rbind]; [|discriminate].
  intros C4.
  pose proof (cross_pair_le _ _ _ _ C1). pose proof (cross_pair_le _ _ _ _ C2).
  pose proof (cross_pair_le _ _ _ _ C3). pose proof (cross_pair_le _ _ _ _ C4).
  lra.
Qed.

Lemma fitness_sum_view (sa : ScheduleAssignment.t) (f : Q) :
  get_fitness sa = Ok f ->
  exists st named,
    activity_loop tally0 (genes sa) = Ok st
    /\ named_adjustments (ScheduleAssignment.activities sa) 0 = Ok named
    /\ (f == Qsum (map gene_score (genes sa))
            + penalize_room_time (room_time_load st) 0
            + penalize_facilitator_load (facilitator_load st) 0
            + penalize_double_booking (facilitator_time_load st) 0
            + score_travel (facilitator_time_building_schedule st) 0
            + named)%Q.
Proof.
  intros E. rewrite get_fitness_stages in E.
  destruct (activity_loop tally0 (genes sa)) as [st|] eqn:L; cbn [rbind] in E;
    [|discriminate E].
  unfold after_activity_loop in E. cbv zeta in E.
  destruct (named_adjustments_from_zero _ _ _ E) as (named & En & Hf).
  exists st, named. split; [reflexivity|]. split; [exact En|].
  rewrite Hf, score_travel_from_zero, penalize_double_booking_from_zero,
    penalize_facilitator_load_from_zero, penalize_room_time_from_zero,
    (activity_loop_fitness _ _ _ L).
  cbn [fitness tally0]. ring.
Qed.

(** X17. No candidate scores more than 1.3 per gene plus 3: the
    per-activity terms give at most 0.8 per gene, the room/time,
    facilitator-load and double-booking rules never raise the score, the
    travel rule gives at most 0.5 per gene and the named-activity rule at
    most 3. *)
Theorem fitness_upper_bound (sa : ScheduleAssignment.t) (f : Q) :
  get_fitness sa = Ok f ->
  (f <= (13 # 10) * inject_Z (Z.of_nat (List.length (genes sa))) + 3)%Q.
Proof.
  intros E. destruct (fitness_sum_view sa f E) as (st & named & L & En & Hf).
  pose proof (Qsum_map_le _ gene_score (4 # 5) (genes sa)
                (fun gene _ => gene_score_le gene)) as B1.
  pose proof (penalize_room_time_sum (room_time_load st) 0) as R.
  pose proof (Qsum_map_nonneg _ conflict_penalty (dict_values (room_time_load st))
                conflict_penalty_nonneg) as R0.
  pose proof (penalize_facilitator_load_sum (facilitator_load st) 0) as Lo.
  pose proof (Qsum_map_nonneg _
                (fun item : string * Z => facilitator_load_penalty (fst item) (snd item))
                (facilitator_load st)
                (fun item => facilitator_load_penalty_nonneg (fst item) (snd item))) as Lo0.
  pose proof (penalize_double_booking_sum (facilitator_time_load st) 0) as D.
  pose proof (Qsum_map_nonneg _ double_booking_penalty
                (dict_values (facilitator_time_load st))
                double_booking_penalty_nonneg) as D0.
  pose proof (score_travel_le (facilitator_time_building_schedule st)) as T.
  pose proof (activity_loop_schedule_total _ _ _ L) as Tn. simpl in Tn.
  assert (Tq : (inject_Z (Z.of_nat (List.length
                   (List.concat (dict_values (facilitator_time_building_schedule st)))))
                <= inject_Z (Z.of_nat (List.length (genes sa))))%Q).
  { unfold Qle, inject_Z. simpl. lia. }
  pose proof (named_adjustments_le _ _ En) as N.
  lra.
Qed.

Lemma fitness_upper_bound_witness :
  match get_fitness demo_parent_a with
  | Ok f => (f <= (13 # 10) * inject_Z (Z.of_nat (List.length (genes demo_parent_a))) + 3)%Q
  | Err _ => False
  end.
Proof.
  destruct (get_fitness demo_parent_a) as [f|e] eqn:E; [|vm_compute in E; discriminate E].
  exact (fitness_upper_bound demo_parent_a f E).
Defined.
